(** * Snowflake orders analytics dashboard: a shallow embedding

    The development embeds the tabular pipeline of [app.py] (enrichment,
    filtering, KPI summary, yearly trend, categorical distribution,
    status x priority pivot, fixed-seed sample) and the configuration
    reader of [snowflake_query.py], and proves properties of them.

    Modelling conventions.
    - A pandas [DataFrame] holding the result of the query in [load_orders]
      is a list of typed rows.  The five selected columns are always
      present; the [STATUS_LABEL] column is present or not, which is what
      the two constructors of [DataFrame] record.  Cells are total values
      (the data model has no null order key, date, code or price).
    - [TOTAL_PRICE] in a row is the decimal that the warehouse holds, an
      exact rational ([Qc]).  The float64 cell that pandas makes of it is
      the nearest IEEE double ([price64]); the status x priority matrix and
      the revenue total it is compared with are computed on these doubles,
      with the arithmetic of the machine and in the order in which pandas
      and numpy add.  The other transforms are written over the exact
      values, with inf, -inf and NaN added ([float64]); what is proved of
      them are counts, orderings, signs and bounds, which rounding keeps.
    - Python exceptions are values of [exn] carried by [result].
    - Where object identity matters (returning the argument itself or a
      copy of it) tables live in a store indexed by references. *)

From Stdlib Require Import QArith Qcanon Qround Floats.
From stdpp Require Import gmap strings list sorting numbers.

(** ** Exceptions and results *)

Inductive exn : Type :=
| KeyError (arg : string)
| RuntimeError (msg : string)
| ZeroDivisionError
| IndexError
| ValueError
| FileNotFoundError.

Inductive result (A : Type) : Type :=
| Ok (a : A)
| Raise (e : exn).
Arguments Ok {A} a.
Arguments Raise {A} e.

Definition rbind {A B} (m : result A) (k : A -> result B) : result B :=
  match m with
  | Ok a => k a
  | Raise e => Raise e
  end.

Notation "x <-! m ; k" := (rbind m (fun x => k))
  (at level 100, m at next level, right associativity).

Definition raises {A} (m : result A) : Prop :=
  match m with Ok _ => False | Raise _ => True end.

(** ** Numbers *)

(** Values of a float64 cell: an exact rational, or one of the three
    special values that numpy produces instead of raising. *)
Inductive float64 : Type :=
| Finite (q : Qc)
| PInf
| NInf
| NaN.

Definition Qc_ltb (a b : Qc) : bool := bool_decide (a < b)%Qc.
Definition Qc_eqb (a b : Qc) : bool := bool_decide (a = b).

Definition Qc_of_nat (n : nat) : Qc := Qc_of_Z (Z.of_nat n).

Definition fopp (a : float64) : float64 :=
  match a with
  | Finite q => Finite (- q)%Qc
  | PInf => NInf
  | NInf => PInf
  | NaN => NaN
  end.

Definition fadd (a b : float64) : float64 :=
  match a, b with
  | NaN, _ | _, NaN => NaN
  | Finite x, Finite y => Finite (x + y)%Qc
  | PInf, NInf | NInf, PInf => NaN
  | PInf, _ | _, PInf => PInf
  | NInf, _ | _, NInf => NInf
  end.

Definition fsub (a b : float64) : float64 := fadd a (fopp b).

(** Sign of a value that is not NaN: [Lt], [Eq] or [Gt] against zero. *)
Definition fsign (a : float64) : comparison :=
  match a with
  | Finite q => if Qc_ltb q 0 then Lt else if Qc_eqb q 0 then Eq else Gt
  | PInf => Gt
  | NInf => Lt
  | NaN => Eq
  end.

Definition inf_of_sign (s1 s2 : comparison) : float64 :=
  match s1, s2 with
  | Eq, _ | _, Eq => NaN
  | Gt, Gt | Lt, Lt => PInf
  | _, _ => NInf
  end.

Definition fmul (a b : float64) : float64 :=
  match a, b with
  | NaN, _ | _, NaN => NaN
  | Finite x, Finite y => Finite (x * y)%Qc
  | _, _ => inf_of_sign (fsign a) (fsign b)
  end.

(** numpy division: a zero divisor gives inf, -inf or NaN, never an
    exception. *)
Definition fdiv (a b : float64) : float64 :=
  match a, b with
  | NaN, _ | _, NaN => NaN
  | Finite x, Finite y =>
      if Qc_eqb y 0 then inf_of_sign (fsign a) Gt else Finite (x / y)%Qc
  | Finite _, _ => Finite 0%Qc
  | _, Finite _ =>
      inf_of_sign (fsign a) (match fsign b with Eq => Gt | s => s end)
  | _, _ => NaN
  end.

Definition isna (a : float64) : bool :=
  match a with NaN => true | _ => false end.

(** Python's [/] on built-in numbers raises on a zero divisor. *)
Definition py_truediv (a b : Qc) : result Qc :=
  if Qc_eqb b 0 then Raise ZeroDivisionError else Ok (a / b)%Qc.

(** ** IEEE doubles *)

(** A float64 value as the machine has it: IEEE 754 binary64, every
    operation rounded to nearest, ties to even. *)
Abbreviation double := PrimFloat.float.

(** [float(d)] of a decimal [d]: the double nearest to it.  This is what
    [pd.read_sql] makes of the values of a NUMBER column. *)
Definition double_of_decimal (q : Qc) : double :=
  match Qnum q with
  | Z0 => 0%float
  | Zpos n =>
      SF2Prim (SFdiv prec emax (S754_finite false n 0)
                 (S754_finite false (Qden q) 0))
  | Zneg n =>
      SF2Prim (SFdiv prec emax (S754_finite true n 0)
                 (S754_finite false (Qden q) 0))
  end.




(** One step of the grouped sum of pandas, which carries a running sum
    and Kahan's compensation; a compensation that is NaN is reset. *)
Definition kahan_step (acc : double * double) (val : double)
    : double * double :=
  let sumx := acc.1 in
  let compensation := acc.2 in
  let y := PrimFloat.sub val compensation in
  let t := PrimFloat.add sumx y in
  let c := PrimFloat.sub (PrimFloat.sub t sumx) y in
  (t, if PrimFloat.eqb c c then c else 0%float).

(** The sum that [groupby(...).agg("sum")] and [pivot_table(aggfunc="sum")]
    hold for one group: its values in table order, added with Kahan's
    compensation to a sum that starts at 0. *)
Definition group_sum64 (g : list double) : double :=
  (foldl kahan_step (0%float, 0%float) g).1.

(** ** Timestamps *)

(** [ORDER_DATE] holds midnight timestamps of calendar dates
    ([O_ORDERDATE::date] passed through [pd.to_datetime]). *)
Record Timestamp : Type := mkTimestamp { year : Z; month : Z; day : Z }.

Global Instance Timestamp_eq_dec : EqDecision Timestamp.
Proof. solve_decision. Defined.

Definition ts_leb (a b : Timestamp) : bool :=
  if (year a <? year b)%Z then true
  else if (year b <? year a)%Z then false
  else if (month a <? month b)%Z then true
  else if (month b <? month a)%Z then false
  else (day a <=? day b)%Z.

(** [pd.to_datetime] of a [datetime.date]. *)
Definition to_datetime (d : Timestamp) : Timestamp := d.

(** [.dt.to_period("M").dt.to_timestamp()]: first day of the month. *)
Definition to_month_start (d : Timestamp) : Timestamp :=
  {| year := year d; month := month d; day := 1 |}.

(** ** Rows and tables *)

Record Order : Type := mkOrder {
  ORDER_KEY : Z;
  ORDER_DATE : Timestamp;
  STATUS : string;
  PRIORITY : string;
  TOTAL_PRICE : Qc
}.

Global Instance Order_eq_dec : EqDecision Order.
Proof. solve_decision. Defined.

(** The float64 cell of the [TOTAL_PRICE] column in the table that
    [pd.read_sql] returns. *)
Definition price64 (o : Order) : double := double_of_decimal (TOTAL_PRICE o).

(** A table of orders without, or with, the [STATUS_LABEL] column. *)
Inductive DataFrame : Type :=
| Orders (rows : list Order)
| EnrichedOrders (rows : list (Order * string)).

Global Instance DataFrame_eq_dec : EqDecision DataFrame.
Proof. solve_decision. Defined.

Definition records (df : DataFrame) : list Order :=
  match df with
  | Orders rows => rows
  | EnrichedOrders rows => rows.*1
  end.

Definition columns (df : DataFrame) : list string :=
  let base := ["ORDER_KEY"; "ORDER_DATE"; "STATUS"; "PRIORITY"; "TOTAL_PRICE"] in
  match df with
  | Orders _ => base
  | EnrichedOrders _ => base ++ ["STATUS_LABEL"]
  end.

(** [len(df)] and [df.empty]. *)
Definition len (df : DataFrame) : nat := length (records df).

Definition df_empty (df : DataFrame) : bool :=
  match records df with [] => true | _ => false end.

(** [df["STATUS_LABEL"]]: a [KeyError] when the column is missing. *)
Definition col_STATUS_LABEL (df : DataFrame) : result (list string) :=
  match df with
  | Orders _ => Raise (KeyError "STATUS_LABEL")
  | EnrichedOrders rows => Ok rows.*2
  end.

(** [df["STATUS_LABEL"] = col]: add or overwrite the column. *)
Definition set_STATUS_LABEL (df : DataFrame) (col : list string) : DataFrame :=
  EnrichedOrders (zip (records df) col).

(** Selection of the entries of [l] at which the boolean mask holds. *)
Fixpoint select {A} (l : list A) (mask : list bool) : list A :=
  match l, mask with
  | x :: l', b :: mask' => if b then x :: select l' mask' else select l' mask'
  | _, _ => []
  end.

(** [df[mask]]: the rows at which the boolean mask holds, same columns. *)
Definition getitem_mask (df : DataFrame) (mask : list bool) : DataFrame :=
  match df with
  | Orders rows => Orders (select rows mask)
  | EnrichedOrders rows => EnrichedOrders (select rows mask)
  end.

(** [mask1 & mask2] on boolean series. *)
Definition mask_and (m1 m2 : list bool) : list bool := zip_with andb m1 m2.

(** [series.isin(values)]. *)
Definition isin (s : list string) (values : list string) : list bool :=
  map (fun x => bool_decide (x ∈ values)) s.

(** Truth value of a Python list: non-empty. *)
Definition truthy {A} (l : list A) : bool :=
  match l with [] => false | _ => true end.

(** ** Series helpers *)

(** [Series.sum()] of a numeric column: 0 on the empty series. *)
Definition Series_sum (s : list Qc) : Qc := foldr Qcplus 0%Qc s.

(** [Series.nunique()]. *)
Definition nunique `{EqDecision A} (s : list A) : nat := length (remove_dups s).

Definition sort_values (s : list Qc) : list Qc := merge_sort Qcle s.

(** Entry [i] of a series of numbers, NaN out of range. *)
Definition nth_value (s : list Qc) (i : nat) : float64 :=
  match s !! i with Some v => Finite v | None => NaN end.

(** [Series.median()]: the middle order statistic, or the mean of the two
    middle ones; NaN on the empty series. *)
Definition Series_median (s : list Qc) : float64 :=
  let v := sort_values s in
  let n := length v in
  match n with
  | O => NaN
  | _ =>
      if Nat.odd n then nth_value v (n / 2)
      else fdiv (fadd (nth_value v (n / 2 - 1)) (nth_value v (n / 2)))
                (Finite (Qc_of_nat 2))
  end.

(** [Series.quantile(q)] with linear interpolation between the order
    statistics around position [(n-1)*q]; NaN on the empty series. *)
Definition Series_quantile (s : list Qc) (q : Qc) : float64 :=
  let v := sort_values s in
  let n := length v in
  match n with
  | O => NaN
  | _ =>
      let pos := (Qc_of_nat (n - 1) * q)%Qc in
      let lo := Z.to_nat (Qfloor pos) in
      let hi := Nat.min (lo + 1) (n - 1) in
      let frac := (pos - Qc_of_Z (Qfloor pos))%Qc in
      fadd (nth_value v lo)
           (fmul (fsub (nth_value v hi) (nth_value v lo)) (Finite frac))
  end.

(** [float(x)] of a numpy scalar is the same value. *)
Definition float (x : float64) : float64 := x.

(** Keys of a [groupby]: the distinct values in ascending order. *)
Definition group_keys `{EqDecision K} (R : relation K) `{!RelDecision R}
    (keys : list K) : list K :=
  merge_sort R (remove_dups keys).

Definition string_le (a b : string) : Prop := String.leb a b = true.
Global Instance string_le_dec : RelDecision string_le.
Proof. intros a b. unfold string_le. solve_decision. Defined.

(** * app.py *)

(** ** Enrichment stage *)

Definition STATUS_LABELS : gmap string string :=
  <["F" := "Filled"]> (<["O" := "Open"]> (<["P" := "Pending"]> ∅)).

(** [series.map(d)]: the image of each value, missing (NaN) when the
    value is not a key of [d]. *)
Definition Series_map (d : gmap string string) (s : list string)
    : list (option string) :=
  map (fun c => d !! c) s.

(** [series.fillna(other)]: missing entries are taken from [other] at the
    same position. *)
Definition Series_fillna (s : list (option string)) (other : list string)
    : list string :=
  zip_with (fun o c => default c o) s other.

(** [df.copy()] as a value: the same table. *)
Definition copy (df : DataFrame) : DataFrame := df.

(** The label given to one status code: the dictionary entry, or the
    code itself. *)
Definition status_label (code : string) : string :=
  default code (STATUS_LABELS !! code).

(** The column assigned to [STATUS_LABEL] by [enrich_orders]. *)
Definition status_label_column (df : DataFrame) : list string :=
  Series_fillna (Series_map STATUS_LABELS (map STATUS (records df)))
                (map STATUS (records df)).

Definition enrich_orders (df : DataFrame) : DataFrame :=
  if df_empty df then df
  else
    let df := copy df in
    set_STATUS_LABEL df (status_label_column df).

(** ** Filter stage *)

(** The boolean mask built by [apply_filters]. *)
Definition filter_mask (df : DataFrame) (start_date end_date : Timestamp)
    (status_list priority_list : list string) : list bool :=
  let dates := map ORDER_DATE (records df) in
  let mask :=
    mask_and (map (fun d => ts_leb (to_datetime start_date) d) dates)
             (map (fun d => ts_leb d (to_datetime end_date)) dates) in
  let mask :=
    if truthy status_list
    then mask_and mask (isin (map STATUS (records df)) status_list)
    else mask in
  let mask :=
    if truthy priority_list
    then mask_and mask (isin (map PRIORITY (records df)) priority_list)
    else mask in
  mask.

Definition apply_filters (df : DataFrame) (start_date end_date : Timestamp)
    (status_list priority_list : list string) : DataFrame :=
  if df_empty df then df
  else
    copy (getitem_mask df
            (filter_mask df start_date end_date status_list priority_list)).

(** The row-wise test that the mask of [apply_filters] evaluates. *)
Definition mask_test (start_date end_date : Timestamp)
    (status_list priority_list : list string) (o : Order) : bool :=
  ts_leb start_date (ORDER_DATE o) && ts_leb (ORDER_DATE o) end_date
  && (if truthy status_list then bool_decide (STATUS o ∈ status_list) else true)
  && (if truthy priority_list then bool_decide (PRIORITY o ∈ priority_list)
      else true).

(** The filter described in words: the date lies in the inclusive range,
    and each selection is either empty or contains the code of the row. *)
Definition in_selection (start_date end_date : Timestamp)
    (status_set priority_set : list string) (o : Order) : Prop :=
  ts_leb start_date (ORDER_DATE o) = true
  /\ ts_leb (ORDER_DATE o) end_date = true
  /\ (status_set = [] \/ STATUS o ∈ status_set)
  /\ (priority_set = [] \/ PRIORITY o ∈ priority_set).

Global Instance in_selection_dec start_date end_date status_set priority_set o :
  Decision (in_selection start_date end_date status_set priority_set o).
Proof. unfold in_selection. apply _. Defined.

(** The date range alone. *)
Definition in_range (start_date end_date : Timestamp) (o : Order) : Prop :=
  ts_leb start_date (ORDER_DATE o) = true
  /\ ts_leb (ORDER_DATE o) end_date = true.

Global Instance in_range_dec start_date end_date o :
  Decision (in_range start_date end_date o).
Proof. unfold in_range. apply _. Defined.

(** The rows of a table that satisfy a predicate on orders, columns kept. *)
Definition restrict (P : Order -> Prop) `{!forall o, Decision (P o)}
    (df : DataFrame) : DataFrame :=
  match df with
  | Orders rows => Orders (filter P rows)
  | EnrichedOrders rows => EnrichedOrders (filter (fun r => P r.1) rows)
  end.

(** ** KPI summary *)

Record KPI : Type := mkKPI {
  total_orders : nat;
  total_amount : Qc;
  avg_order_value : Qc;
  distinct_days : nat;
  orders_per_day : Qc;
  median_order_value : float64;
  p90_order_value : float64
}.

Definition zero_kpi : KPI :=
  {| total_orders := O;
     total_amount := 0%Qc;
     avg_order_value := 0%Qc;
     distinct_days := O;
     orders_per_day := 0%Qc;
     median_order_value := Finite 0%Qc;
     p90_order_value := Finite 0%Qc |}.

(** The values computed by [kpi_section] before they are rendered. *)
Definition kpi_section (df : DataFrame) : result KPI :=
  let total_orders := len df in
  let total_amount :=
    if negb (df_empty df) then Series_sum (map TOTAL_PRICE (records df))
    else 0%Qc in
  avg_order_value <-!
    (if (0 <? total_orders)%nat
     then py_truediv total_amount (Qc_of_nat total_orders)
     else Ok 0%Qc);
  let distinct_days :=
    if negb (df_empty df) then nunique (map ORDER_DATE (records df))
    else O in
  orders_per_day <-!
    (if (0 <? distinct_days)%nat
     then py_truediv (Qc_of_nat total_orders) (Qc_of_nat distinct_days)
     else Ok 0%Qc);
  let median_order_value :=
    if negb (df_empty df)
    then float (Series_median (map TOTAL_PRICE (records df)))
    else Finite 0%Qc in
  let p90_order_value :=
    if negb (df_empty df)
    then float (Series_quantile (map TOTAL_PRICE (records df))
                                (Qc_of_Z 9 / Qc_of_Z 10)%Qc)
    else Finite 0%Qc in
  Ok {| total_orders := total_orders;
        total_amount := total_amount;
        avg_order_value := avg_order_value;
        distinct_days := distinct_days;
        orders_per_day := orders_per_day;
        median_order_value := median_order_value;
        p90_order_value := p90_order_value |}.

(** ** Group-by aggregation *)

(** [groupby(key).agg(...)]: one entry per distinct key, keys ascending;
    a key that no row carries has no entry. *)
Definition groupby_agg {A K V} `{EqDecision K} (R : relation K)
    `{!RelDecision R} (key : A -> K) (agg : list A -> V) (l : list A)
    : list (K * V) :=
  map (fun k => (k, agg (filter (fun x => key x = k) l)))
      (group_keys R (map key l)).

(** Lexicographic order on composite keys. *)
Definition lex_le {A B} `{EqDecision A} (RA : relation A) (RB : relation B)
    : relation (A * B) :=
  fun a b => if decide (a.1 = b.1) then RB a.2 b.2 else RA a.1 b.1.

Global Instance lex_le_dec {A B} `{EqDecision A} (RA : relation A)
  (RB : relation B) `{!RelDecision RA, !RelDecision RB} :
  RelDecision (lex_le RA RB).
Proof. intros a b. unfold lex_le. destruct (decide (a.1 = b.1)); apply _. Defined.

Definition ts_le (a b : Timestamp) : Prop := ts_leb a b = true.
Global Instance ts_le_dec : RelDecision ts_le.
Proof. intros a b. unfold ts_le. solve_decision. Defined.

(** Count of the non-null [ORDER_KEY] cells of a group, and the sum of
    its [TOTAL_PRICE] cells. *)
Definition count_ORDER_KEY (g : list Order) : nat := length (map ORDER_KEY g).
Definition sum_TOTAL_PRICE (g : list Order) : Qc :=
  Series_sum (map TOTAL_PRICE g).

(** ** Yearly trend *)

Record YearRow : Type := mkYearRow {
  yr : Z;
  order_cnt : nat;
  yr_total_amount : Qc;
  revenue_yoy : float64
}.

(** [series.shift(1)]: every value moves one position down, the first
    position becomes NaN and the last value is dropped. *)
Definition shift1 (s : list float64) : list float64 :=
  take (length s) (NaN :: s).

(** [series.pct_change()]: [series / series.shift(1) - 1]. *)
Definition pct_change (s : list float64) : list float64 :=
  map (fun x => fsub x (Finite 1%Qc)) (zip_with fdiv s (shift1 s)).

Definition year_le (a b : Z * (nat * Qc)) : Prop := (a.1 ≤ b.1)%Z.
Global Instance year_le_dec : RelDecision year_le.
Proof. intros a b. unfold year_le. apply _. Defined.

(** The tables [df_year] and [df_yoy] of [yearly_trend_section]; [None]
    is the early return on an empty table. *)
Definition yearly_trend_section (df : DataFrame)
    : option (list YearRow * list YearRow) :=
  if df_empty df then None
  else
    let grouped :=
      merge_sort year_le
        (groupby_agg Z.le (fun o => year (ORDER_DATE o))
           (fun g => (count_ORDER_KEY g, sum_TOTAL_PRICE g)) (records df)) in
    let yoy :=
      map (fun x => fmul x (Finite (Qc_of_Z 100)))
          (pct_change (map (fun r => Finite r.2.2) grouped)) in
    let df_year :=
      zip_with (fun r g => mkYearRow r.1 r.2.1 r.2.2 g) grouped yoy in
    let df_yoy := filter (fun r => isna (revenue_yoy r) = false) df_year in
    Some (df_year, df_yoy).

(** Growth in percent from revenue [a] to revenue [b], computed the way
    [pct_change() * 100.0] computes it. *)
Definition growth (a b : Qc) : float64 :=
  fmul (fsub (fdiv (Finite b) (Finite a)) (Finite 1%Qc)) (Finite (Qc_of_Z 100)).

(** Growth of each value of [rs] over the value before it, [prev] being
    the value before the first. *)
Fixpoint growth_from (prev : Qc) (rs : list Qc) : list float64 :=
  match rs with
  | [] => []
  | r :: rs' => growth prev r :: growth_from r rs'
  end.

(** The rows of the yearly table that follow a year with revenue [prev]:
    each group with its growth over the group before it. *)
Fixpoint rows_after (prev : Qc) (groups : list (Z * (nat * Qc)))
    : list YearRow :=
  match groups with
  | [] => []
  | g :: groups' =>
      mkYearRow g.1 g.2.1 g.2.2 (growth prev g.2.2) :: rows_after g.2.2 groups'
  end.

(** The yearly table of a list of groups: the first year has no growth. *)
Definition year_table (groups : list (Z * (nat * Qc))) : list YearRow :=
  match groups with
  | [] => []
  | g :: groups' => mkYearRow g.1 g.2.1 g.2.2 NaN :: rows_after g.2.2 groups'
  end.

(** The per-year groups of a table of orders. *)
Definition year_groups (rows : list Order) : list (Z * (nat * Qc)) :=
  groupby_agg Z.le (fun o => year (ORDER_DATE o))
    (fun g => (count_ORDER_KEY g, sum_TOTAL_PRICE g)) rows.

(** Rows of the yearly table whose growth is a number. *)
Definition has_yoy (r : YearRow) : Prop := isna (revenue_yoy r) = false.

Global Instance has_yoy_dec r : Decision (has_yoy r).
Proof. unfold has_yoy. apply _. Defined.

(** The years that occur in a table. *)
Definition years_of (df : DataFrame) : list Z :=
  map (fun o => year (ORDER_DATE o)) (records df).

(** ** Categorical distribution *)

(** The tables [status_cnt] and [priority_cnt]. *)
Definition distribution_section (df : DataFrame)
    : option (list (string * nat) * list (string * nat)) :=
  if df_empty df then None
  else
    let status_cnt :=
      groupby_agg string_le STATUS count_ORDER_KEY (records df) in
    let priority_cnt :=
      groupby_agg string_le PRIORITY count_ORDER_KEY (records df) in
    Some (status_cnt, priority_cnt).

(** The per-status counts; an empty table has none. *)
Definition status_counts (df : DataFrame) : list (string * nat) :=
  match distribution_section df with
  | Some (status_cnt, _) => status_cnt
  | None => []
  end.

(** ** Status x priority revenue matrix *)

(** The grouped sum of the float64 [TOTAL_PRICE] cells of a group. *)
Definition sum_TOTAL_PRICE64 (g : list Order) : double :=
  group_sum64 (map price64 g).

Record Pivot : Type := mkPivot {
  pivot_index : list string;
  pivot_columns : list string;
  pivot_values : list (list double)
}.

(** [pivot_table(index="PRIORITY", columns="STATUS", values="TOTAL_PRICE",
    aggfunc="sum", fill_value=0)]: group by the pair of keys, then unstack
    the second key into columns and fill the cells that have no group. *)
Definition pivot_table (rows : list Order) : Pivot :=
  let agged :=
    groupby_agg (lex_le string_le string_le)
      (fun o => (PRIORITY o, STATUS o)) sum_TOTAL_PRICE64 rows in
  let index := group_keys string_le (map (fun g => g.1.1) agged) in
  let cols := group_keys string_le (map (fun g => g.1.2) agged) in
  let table : gmap (string * string) double := list_to_map agged in
  {| pivot_index := index;
     pivot_columns := cols;
     pivot_values :=
       map (fun p => map (fun s => default 0%float (table !! (p, s))) cols)
           index |}.

(** The table [pivot] of [heatmap_section]; the [month] column that is
    added to the copy beforehand is not among the columns the pivot
    reads. *)
Definition heatmap_section (df : DataFrame) : option Pivot :=
  if df_empty df then None
  else
    let df_heat := copy df in
    Some (pivot_table (records df_heat)).



(** The orders behind the cell of priority [p] and status [s]. *)
Definition cell_orders (rows : list Order) (p s : string) : list Order :=
  filter (fun o => PRIORITY o = p /\ STATUS o = s) rows.


(** ** Transforms that group by STATUS_LABEL *)

(** Rows paired with their label; [KeyError] without the column. *)
Definition labelled_rows (df : DataFrame) : result (list (Order * string)) :=
  labels <-! col_STATUS_LABEL df;
  Ok (zip (records df) labels).

(** The table [df_status] of [status_trend_section]. *)
Definition status_trend_section (df : DataFrame)
    : result (option (list ((Timestamp * string) * Qc))) :=
  if df_empty df then Ok None
  else
    rows <-! labelled_rows df;
    Ok (Some (groupby_agg (lex_le ts_le string_le)
                (fun r => (to_month_start (ORDER_DATE r.1), r.2))
                (fun g => sum_TOTAL_PRICE g.*1) rows)).

Definition Series_mean (s : list Qc) : float64 :=
  fdiv (Finite (Series_sum s)) (Finite (Qc_of_nat (length s))).

(** The tables [status_stats] and [priority_status] of
    [status_priority_comparison_section]. *)
Definition status_priority_comparison_section (df : DataFrame)
    : result (option (list (string * (float64 * nat * Qc))
                      * list ((string * string) * nat))) :=
  if df_empty df then Ok None
  else
    rows <-! labelled_rows df;
    let status_stats :=
      groupby_agg string_le (fun r : Order * string => r.2)
        (fun g => (Series_mean (map TOTAL_PRICE g.*1),
                   count_ORDER_KEY g.*1, sum_TOTAL_PRICE g.*1)) rows in
    let priority_status :=
      groupby_agg (lex_le string_le string_le)
        (fun r : Order * string => (PRIORITY r.1, r.2))
        (fun g => count_ORDER_KEY g.*1) rows in
    Ok (Some (status_stats, priority_status)).

(** ** Deterministic sample *)

(** [DataFrame.take(indices)]: the rows at the given positions, in the
    given order; a position outside the table raises. *)
Definition take_positions {A} (l : list A) (idx : list nat) : result (list A) :=
  foldr (fun i acc =>
           match l !! i with
           | Some x => rs <-! acc; Ok (x :: rs)
           | None => Raise IndexError
           end) (Ok []) idx.

Definition DataFrame_take (df : DataFrame) (idx : list nat) : result DataFrame :=
  match df with
  | Orders rows => rs <-! take_positions rows idx; Ok (Orders rs)
  | EnrichedOrders rows => rs <-! take_positions rows idx; Ok (EnrichedOrders rs)
  end.

Section Sampling.
(** numpy's generator is external: its state, its seeding and its
    draw of [size] distinct positions below [n] (the draw returns the
    advanced state). *)
Variable rng_state : Type.
Variable RandomState : Z -> rng_state.
Variable choice : rng_state -> nat -> nat -> list nat * rng_state.

(** [df.sample(n, random_state=...)], run against the process-wide
    generator state [g]: an integer seed builds a private generator and
    leaves [g] alone, no seed draws from [g] and advances it. *)
Definition DataFrame_sample (df : DataFrame) (n : nat)
    (random_state : option Z) (g : rng_state)
    : result DataFrame * rng_state :=
  match random_state with
  | Some seed =>
      let rs := RandomState seed in
      (DataFrame_take df (choice rs (len df) n).1, g)
  | None =>
      let r := choice g (len df) n in
      (DataFrame_take df r.1, r.2)
  end.

(** The table shown by [sample_table_section]; [None] is the early
    return on an empty table. *)
Definition sample_table_section (df : DataFrame) (g : rng_state)
    : result (option DataFrame) * rng_state :=
  if df_empty df then (Ok None, g)
  else
    let r := DataFrame_sample df (Nat.min 1000 (len df)) (Some 42%Z) g in
    (sample <-! r.1; Ok (Some sample), r.2).
End Sampling.

(** ** Tables behind references *)

(** Python passes tables by reference.  The store maps references to
    tables; [df.copy()] and [df[mask]] allocate a new table, a column
    assignment updates the table in place. *)
Definition ref : Type := positive.

Definition heap (A : Type) : Type :=
  gmap ref DataFrame -> option (A * gmap ref DataFrame).

Definition hret {A} (a : A) : heap A := fun σ => Some (a, σ).

Definition hbind {A B} (m : heap A) (k : A -> heap B) : heap B :=
  fun σ => match m σ with
           | Some (a, σ') => k a σ'
           | None => None
           end.

Notation "x <-& m ; k" := (hbind m (fun x => k))
  (at level 100, m at next level, right associativity).

Definition load (r : ref) : heap DataFrame :=
  fun σ => match σ !! r with Some v => Some (v, σ) | None => None end.

Definition alloc (v : DataFrame) : heap ref :=
  fun σ => let r := fresh (dom σ) in Some (r, <[r := v]> σ).

Definition update (r : ref) (f : DataFrame -> DataFrame) : heap unit :=
  fun σ => match σ !! r with
           | Some v => Some (tt, <[r := f v]> σ)
           | None => None
           end.

Definition copy_ref (r : ref) : heap ref :=
  v <-& load r; alloc (copy v).

Definition getitem_mask_ref (r : ref) (mask : list bool) : heap ref :=
  v <-& load r; alloc (getitem_mask v mask).

Definition enrich_orders_ref (df : ref) : heap ref :=
  v <-& load df;
  if df_empty v then hret df
  else
    df <-& copy_ref df;
    v <-& load df;
    _ <-& update df (fun d => set_STATUS_LABEL d (status_label_column v));
    hret df.

Definition apply_filters_ref (df : ref) (start_date end_date : Timestamp)
    (status_list priority_list : list string) : heap ref :=
  v <-& load df;
  if df_empty v then hret df
  else
    let mask := filter_mask v start_date end_date status_list priority_list in
    selected <-& getitem_mask_ref df mask;
    copy_ref selected.

(** * snowflake_query.py *)

(** [st.secrets]: the sections of the secrets file with their key/value
    pairs, or [None] when there is no secrets file.  [os.environ]:
    variables. *)
Abbreviation Secrets := (option (gmap string (gmap string string))).
Abbreviation Environ := (gmap string string).

(** [mapping[key]] on a dictionary or on [os.environ]: a [KeyError]
    carrying the key when it is missing. *)
Definition getitem (m : gmap string string) (key : string) : result string :=
  match m !! key with
  | Some v => Ok v
  | None => Raise (KeyError key)
  end.

(** [mapping.get(key, default)] and [os.getenv(key, default)]. *)
Definition get_default (m : gmap string string) (key default : string) : string :=
  match m !! key with
  | Some v => v
  | None => default
  end.

(** [dict(user=..., password=..., account=..., warehouse=..., database=...,
    schema=..., role=...)]. *)
Definition conn_dict (user password account warehouse database schema role : string)
    : gmap string string :=
  <["user" := user]> (<["password" := password]> (<["account" := account]>
  (<["warehouse" := warehouse]> (<["database" := database]>
  (<["schema" := schema]> (<["role" := role]> ∅)))))).

Definition missing_message (missing : string) : string :=
  "Missing Snowflake configuration for '" +:+ missing +:+ "'. " +:+
  "Provide it via st.secrets['snowflake'] or environment variables.".

(** [try: ... except KeyError as exc: raise RuntimeError(...) from exc]. *)
Definition except_KeyError {A} (m : result A) (handler : string -> result A)
    : result A :=
  match m with
  | Raise (KeyError key) => handler key
  | other => other
  end.

Section Secrets.
(** The text of the [KeyError] that streamlit raises for a key that is
    missing from the secrets, given the key, is streamlit's own. *)
Variable missing_key_message : string -> string.

(** [st.secrets[key]]: streamlit parses the secrets file first and
    raises when there is none; a missing key is a [KeyError] with
    streamlit's message. *)
Definition secrets_getitem (secrets : Secrets) (key : string)
    : result (gmap string string) :=
  match secrets with
  | None => Raise FileNotFoundError
  | Some sections =>
      match sections !! key with
      | Some s => Ok s
      | None => Raise (KeyError (missing_key_message key))
      end
  end.

(** [key in st.secrets]: streamlit parses the secrets file first and
    raises when there is none. *)
Definition secrets_contains (secrets : Secrets) (key : string) : result bool :=
  match secrets with
  | None => Raise FileNotFoundError
  | Some sections => Ok (bool_decide (is_Some (sections !! key)))
  end.

(** [s[key]] on a section of the secrets. *)
Definition section_getitem (s : gmap string string) (key : string)
    : result string :=
  match s !! key with
  | Some v => Ok v
  | None => Raise (KeyError (missing_key_message key))
  end.

Definition _get_connection_params (secrets : Secrets) (environ : Environ)
    : result (gmap string string) :=
  has_section <-! secrets_contains secrets "snowflake";
  if has_section : bool then
    s <-! secrets_getitem secrets "snowflake";
    user <-! section_getitem s "user";
    password <-! section_getitem s "password";
    account <-! section_getitem s "account";
    Ok (conn_dict user password account
          (get_default s "warehouse" "WH_DEMO")
          (get_default s "database" "SNOWFLAKE_SAMPLE_DATA")
          (get_default s "schema" "TPCH_SF1")
          (get_default s "role" "ACCOUNTADMIN"))
  else
    except_KeyError
      (user <-! getitem environ "SNOWFLAKE_USER";
       password <-! getitem environ "SNOWFLAKE_PASSWORD";
       account <-! getitem environ "SNOWFLAKE_ACCOUNT";
       Ok (conn_dict user password account
             (get_default environ "SNOWFLAKE_WAREHOUSE" "WH_DEMO")
             (get_default environ "SNOWFLAKE_DATABASE" "SNOWFLAKE_SAMPLE_DATA")
             (get_default environ "SNOWFLAKE_SCHEMA" "TPCH_SF1")
             (get_default environ "SNOWFLAKE_ROLE" "ACCOUNTADMIN")))
      (fun missing => Raise (RuntimeError (missing_message missing))).
End Secrets.

(** The keys that must be present, in the order they are read, in a
    secrets section and in the environment. *)
Definition required_secret_keys : list string := ["user"; "password"; "account"].
Definition required_environ_keys : list string :=
  ["SNOWFLAKE_USER"; "SNOWFLAKE_PASSWORD"; "SNOWFLAKE_ACCOUNT"].

(** Calls made on the warehouse connector, in order. *)
Inductive event : Type :=
| Connect (conn_params : gmap string string)
| Cursor
| Execute (statement : string)
| CursorClose
| ReadSql (sql : string) (params : list string)
| ConnClose.

(** A computation that logs connector calls and may raise. *)
Definition io (A : Type) : Type := list event -> result A * list event.

Definition io_ret {A} (a : A) : io A := fun t => (Ok a, t).

Definition io_bind {A B} (m : io A) (k : A -> io B) : io B :=
  fun t => match m t with
           | (Ok a, t') => k a t'
           | (Raise e, t') => (Raise e, t')
           end.

Notation "x <-~ m ; k" := (io_bind m (fun x => k))
  (at level 100, m at next level, right associativity).

Definition io_lift {A} (r : result A) : io A := fun t => (r, t).

(** [try: body finally: cleanup]: the cleanup runs on both exits; the
    outcome of the body stands unless the cleanup itself raises. *)
Definition try_finally {A} (body : io A) (cleanup : io unit) : io A :=
  fun t => match body t with
           | (r, t') =>
               match cleanup t' with
               | (Ok _, t'') => (r, t'')
               | (Raise e, t'') => (Raise e, t'')
               end
           end.

Definition call {A} (ev : event) (outcome : result A) : io A :=
  fun t => (outcome, t ++ [ev]).

Definition quoted (s : string) : string :=
  String (Ascii.ascii_of_nat 34) s +:+ String (Ascii.ascii_of_nat 34) EmptyString.

Section Connector.
(** The connector and [pd.read_sql] are external: what each call
    answers is a parameter, one for every call the code makes:
    [connect(...)], [conn.cursor()], [cur.execute(...)], [cur.close()],
    [pd.read_sql(...)] and [conn.close()]. *)
Variable missing_key_message : string -> string.
Variable connect : gmap string string -> result unit.
Variable cursor : result unit.
Variable execute : string -> result unit.
Variable cursor_close : result unit.
Variable read_sql : string -> list string -> result DataFrame.
Variable conn_close : result unit.

Definition use_statement (kind : string) (name : option string) : io unit :=
  match name with
  | Some n =>
      if bool_decide (n = EmptyString) then io_ret tt
      else let stmt := "USE " +:+ kind +:+ " " +:+ quoted n in
           call (Execute stmt) (execute stmt)
  | None => io_ret tt
  end.

Definition run_query (secrets : Secrets) (environ : Environ)
    (sql : string) (params : list string) : io DataFrame :=
  conn_params <-~
    io_lift (_get_connection_params missing_key_message secrets environ);
  _ <-~ call (Connect conn_params) (connect conn_params);
  try_finally
    (_ <-~ call Cursor cursor;
     _ <-~ try_finally
             (_ <-~ use_statement "WAREHOUSE" (conn_params !! "warehouse");
              _ <-~ use_statement "DATABASE" (conn_params !! "database");
              use_statement "SCHEMA" (conn_params !! "schema"))
             (call CursorClose cursor_close);
     call (ReadSql sql params) (read_sql sql params))
    (call ConnClose conn_close).
End Connector.

(** * Sample data *)

Definition order_x : Order :=
  mkOrder 7 (mkTimestamp 1995 3 14) "X" "1-URGENT" (Qc_of_Z 10).

(** The three orders of the worked scenario. *)
Definition order_1 : Order :=
  mkOrder 1 (mkTimestamp 2020 1 5) "F" "HIGH" (Qc_of_Z 100).
Definition order_2 : Order :=
  mkOrder 2 (mkTimestamp 2020 2 10) "O" "LOW" (Qc_of_Z 200).
Definition order_3 : Order :=
  mkOrder 3 (mkTimestamp 2021 1 20) "F" "HIGH" (Qc_of_Z 300).
Definition scenario : DataFrame := Orders [order_1; order_2; order_3].

(** Two years in which nothing was charged. *)
Definition free_2020 : Order :=
  mkOrder 11 (mkTimestamp 2020 6 1) "F" "LOW" (Qc_of_Z 0).
Definition free_2021 : Order :=
  mkOrder 12 (mkTimestamp 2021 6 1) "F" "LOW" (Qc_of_Z 0).

(** A store holding one empty table. *)
Definition empty_store : gmap ref DataFrame := {[ 1%positive := Orders [] ]}.
Definition scenario_store : gmap ref DataFrame := {[ 1%positive := scenario ]}.

(** A toy generator: the state is a counter, a draw of [size] positions
    below [n] starts at the counter and wraps around. *)
Definition counter_choice (g n size : nat) : list nat * nat :=
  (map (fun i => ((i + g) mod n)%nat) (seq 0 size), S g).

(** A seeding that does not start the toy generator at the seed
    itself. *)
Definition shifted_seed (seed : Z) : nat := S (Z.to_nat seed).

(** A secrets file whose section has no user, a secrets file without the
    section, and an environment without a password. *)
Definition secrets_no_user : Secrets :=
  Some {[ "snowflake" := <["password" := "pw"]> (<["account" := "acct"]> ∅) ]}.
Definition secrets_no_section : Secrets := Some ∅.
Definition environ_no_password : Environ :=
  <["SNOWFLAKE_USER" := "me"]> (<["SNOWFLAKE_ACCOUNT" := "acct"]> ∅).

(** A complete environment. *)
Definition environ_complete : Environ :=
  <["SNOWFLAKE_USER" := "me"]> (<["SNOWFLAKE_PASSWORD" := "pw"]>
  (<["SNOWFLAKE_ACCOUNT" := "acct"]> ∅)).

(** A text for the [KeyError] of a missing secret. *)
Definition sample_key_message (key : string) : string :=
  "st.secrets has no key " +:+ quoted key.


From stdpp Require Import pretty.

(** * app.py: the remaining transforms and the page *)

(** ** Monthly time series *)

(** The table [df_month] of [time_series_section]: per first-of-month,
    the order count and the summed price. *)
Definition time_series_section (df : DataFrame)
    : option (list (Timestamp * (nat * Qc))) :=
  if df_empty df then None
  else
    Some (groupby_agg ts_le (fun o => to_month_start (ORDER_DATE o))
            (fun g => (count_ORDER_KEY g, sum_TOTAL_PRICE g)) (records df)).

(** ** Month across years *)

(** The table [df_my] of [yearly_month_comparison_section]: summed price
    per (year, month of year). *)
Definition yearly_month_comparison_section (df : DataFrame)
    : option (list ((Z * Z) * Qc)) :=
  if df_empty df then None
  else
    Some (groupby_agg (lex_le Z.le Z.le)
            (fun o => (year (ORDER_DATE o), month (ORDER_DATE o)))
            sum_TOTAL_PRICE (records df)).

(** ** Sidebar controls *)

(** [series.min()] and [series.max()] of a column of timestamps. *)
Definition ts_min (a b : Timestamp) : Timestamp := if ts_leb a b then a else b.
Definition ts_max (a b : Timestamp) : Timestamp := if ts_leb a b then b else a.

Definition Series_min (s : list Timestamp) : option Timestamp :=
  match s with
  | [] => None
  | d :: s' => Some (foldl ts_min d s')
  end.

Definition Series_max (s : list Timestamp) : option Timestamp :=
  match s with
  | [] => None
  | d :: s' => Some (foldl ts_max d s')
  end.

(** [sorted(series.dropna().unique().tolist())]. *)
Definition sorted_unique (s : list string) : list string :=
  group_keys string_le s.

(** [a, b = t]: unpacking into two names raises unless [t] has exactly
    two items. *)
Definition unpack2 {A} (t : list A) : result (A * A) :=
  match t with
  | [a; b] => Ok (a, b)
  | _ => Raise ValueError
  end.

(** The bounds that [sidebar_filters] gives the date control: the first
    and the last date of the table, or the fixed range when it has no
    rows. *)
Definition date_bounds (df : DataFrame) : Timestamp * Timestamp :=
  let min_date :=
    if negb (df_empty df)
    then default (mkTimestamp 1992 1 1) (Series_min (map ORDER_DATE (records df)))
    else mkTimestamp 1992 1 1 in
  let max_date :=
    if negb (df_empty df)
    then default (mkTimestamp 1998 12 31) (Series_max (map ORDER_DATE (records df)))
    else mkTimestamp 1998 12 31 in
  (min_date, max_date).

Section Widgets.
(** The widgets are external: given the default value and the bounds or
    options they are created with, they answer with the user's choice.
    A date control created with a pair of dates answers with a tuple of
    the dates picked so far: none, one or two. *)
Variable date_input :
  Timestamp * Timestamp -> Timestamp -> Timestamp -> list Timestamp.
Variable multiselect : string -> list string -> list string -> list string.

(** The values returned by [sidebar_filters].  The answer of the date
    control is unpacked into two names before anything else is done with
    it; the two [isinstance] tests that follow only act on a list or
    tuple, and a date passes through them. *)
Definition sidebar_filters (df : DataFrame)
    : result (Timestamp * Timestamp * list string * list string) :=
  let min_date :=
    if negb (df_empty df)
    then default (mkTimestamp 1992 1 1) (Series_min (map ORDER_DATE (records df)))
    else mkTimestamp 1992 1 1 in
  let max_date :=
    if negb (df_empty df)
    then default (mkTimestamp 1998 12 31) (Series_max (map ORDER_DATE (records df)))
    else mkTimestamp 1998 12 31 in
  dates <-! unpack2 (date_input (min_date, max_date) min_date max_date);
  let start_date := dates.1 in
  let end_date := dates.2 in
  let status_options :=
    if negb (df_empty df) then sorted_unique (map STATUS (records df)) else [] in
  let selected_status :=
    multiselect "Order status filter (F=Filled, O=Open, P=Pending)"
      status_options status_options in
  let priority_options :=
    if negb (df_empty df) then sorted_unique (map PRIORITY (records df)) else [] in
  let selected_priority :=
    multiselect "Order priority filter" priority_options priority_options in
  Ok (start_date, end_date, selected_status, selected_priority).

(** The answer that the date control gives [sidebar_filters]. *)
Definition date_answer (df : DataFrame) : list Timestamp :=
  date_input (date_bounds df) (date_bounds df).1 (date_bounds df).2.

(** The status and priority selections that the two controls give
    [sidebar_filters]. *)
Definition status_answer (df : DataFrame) : list string :=
  let status_options :=
    if negb (df_empty df) then sorted_unique (map STATUS (records df)) else [] in
  multiselect "Order status filter (F=Filled, O=Open, P=Pending)"
    status_options status_options.

Definition priority_answer (df : DataFrame) : list string :=
  let priority_options :=
    if negb (df_empty df) then sorted_unique (map PRIORITY (records df)) else [] in
  multiselect "Order priority filter" priority_options priority_options.
End Widgets.

(** The answers of widgets nobody has touched: the default values. *)
Definition untouched_date_input (value : Timestamp * Timestamp)
    (min_value max_value : Timestamp) : list Timestamp := [value.1; value.2].
Definition untouched_multiselect (label : string)
    (options default_selection : list string) : list string := default_selection.

(** The answer of a date control on which the first date of a new range
    has been picked and the second not yet. *)
Definition half_picked_date_input (value : Timestamp * Timestamp)
    (min_value max_value : Timestamp) : list Timestamp := [value.1].

(** ** Loading *)




Definition result_mapM {A B} (f : A -> result B) (l : list A) : result (list B) :=
  foldr (fun x acc => y <-! f x; ys <-! acc; Ok (y :: ys)) (Ok []) l.

(** What one year tab shows. *)
Record YearPage : Type := mkYearPage {
  page_year : Z;
  page_kpi : KPI;
  page_months : option (list (Timestamp * (nat * Qc)));
  page_distribution : option (list (string * nat) * list (string * nat));
  page_comparison :
    option (list (string * (float64 * nat * Qc)) * list ((string * string) * nat))
}.

(** What the page shows. *)
Record Page : Type := mkPage {
  tab_labels : list string;
  overview_kpi : KPI;
  overview_yearly : option (list YearRow * list YearRow);
  overview_seasonality : option (list ((Z * Z) * Qc));
  overview_status_trend : option (list ((Timestamp * string) * Qc));
  overview_sample : option DataFrame;
  year_pages : list YearPage
}.

(** [df_filtered[df_filtered["ORDER_DATE"].dt.year == year]]. *)
Definition year_frame (df_filtered : DataFrame) (y : Z) : DataFrame :=
  getitem_mask df_filtered
    (map (fun o => bool_decide (year (ORDER_DATE o) = y)) (records df_filtered)).

Section Page.
Variable missing_key_message : string -> string.
Variable connect : gmap string string -> result unit.
Variable cursor : result unit.
Variable execute : string -> result unit.
Variable cursor_close : result unit.
Variable read_sql : string -> list string -> result DataFrame.
Variable conn_close : result unit.
Variable rng_state : Type.
Variable RandomState : Z -> rng_state.
Variable choice : rng_state -> nat -> nat -> list nat * rng_state.
Variable date_input :
  Timestamp * Timestamp -> Timestamp -> Timestamp -> list Timestamp.
Variable multiselect : string -> list string -> list string -> list string.


(** The detail tab of one year. *)
Definition year_page (df_filtered : DataFrame) (y : Z) : result YearPage :=
  let df_year := year_frame df_filtered y in
  kpi <-! kpi_section df_year;
  let months := time_series_section df_year in
  let distribution := distribution_section df_year in
  comparison <-! status_priority_comparison_section df_year;
  Ok (mkYearPage y kpi months distribution comparison).

(** What is shown for the filtered table: [None] is the warning shown
    when it has no rows.  The charts that plotly draws straight from the
    table ([value_distribution_section]) and the static texts are left
    out. *)
Definition show (df_filtered : DataFrame) (g : rng_state)
    : result (option Page) :=
  if df_empty df_filtered then Ok None
  else
    let years := group_keys Z.le (years_of df_filtered) in
    let labels := "Overview" :: map (fun y => pretty y) years in
    kpi <-! kpi_section df_filtered;
    let yearly := yearly_trend_section df_filtered in
    let seasonality := yearly_month_comparison_section df_filtered in
    trend <-! status_trend_section df_filtered;
    sample <-! (sample_table_section rng_state RandomState choice df_filtered g).1;
    pages <-! result_mapM (year_page df_filtered) years;
    Ok (Some (mkPage labels kpi yearly seasonality trend sample pages)).

(** The body of [main] after the table is loaded. *)
Definition render (base_df : DataFrame) (g : rng_state) : result (option Page) :=
  selection <-! sidebar_filters date_input multiselect base_df;
  let '(start_date, end_date, selected_status, selected_priority) := selection in
  let df_filtered :=
    apply_filters base_df start_date end_date selected_status selected_priority in
  show df_filtered g.

End Page.

(** * snowflake_query.py: the calls of a run *)

(** The [USE] statements that [run_query] issues for a dictionary of
    connection parameters: one per non-empty warehouse, database and
    schema, in this order. *)
Definition use_statements (conn_params : gmap string string) : list string :=
  flat_map
    (fun kf : string * string =>
       match conn_params !! kf.2 with
       | Some n =>
           if bool_decide (n = EmptyString) then []
           else ["USE " +:+ kf.1 +:+ " " +:+ quoted n]
       | None => []
       end)
    [("WAREHOUSE", "warehouse"); ("DATABASE", "database"); ("SCHEMA", "schema")].

(** The statements of a list that get executed when the first failure
    stops the sequence, and how the sequence ends. *)
Fixpoint executed (execute : string -> result unit) (stmts : list string)
    : list string * result unit :=
  match stmts with
  | [] => ([], Ok tt)
  | s :: rest =>
      match execute s with
      | Ok _ => let r := executed execute rest in (s :: r.1, r.2)
      | Raise e => ([s], Raise e)
      end
  end.

Section Inside.
Variable cursor : result unit.
Variable execute : string -> result unit.
Variable cursor_close : result unit.
Variable read_sql : string -> list string -> result DataFrame.

(** What happens between the opening and the closing of the connection,
    as an outcome and a list of calls: the cursor is asked for; if that
    works the [USE] statements run up to the first failure, the cursor
    is closed, and the query is sent if nothing failed so far. *)
Definition inside (p : gmap string string) (sql : string)
    (params : list string) : result DataFrame * list event :=
  let uses := executed execute (use_statements p) in
  let closed := match cursor_close with Ok _ => uses.2 | Raise e => Raise e end in
  match cursor with
  | Raise e => (Raise e, [Cursor])
  | Ok _ =>
      (match closed with Ok _ => read_sql sql params | Raise e => Raise e end,
       Cursor :: map Execute uses.1 ++ CursorClose ::
         match closed with Ok _ => [ReadSql sql params] | Raise _ => [] end)
  end.
End Inside.


(** A secrets section with the three required fields only. *)
Definition secrets_complete : Secrets :=
  Some {[ "snowflake" :=
            <["user" := "me"]> (<["password" := "pw"]> (<["account" := "acct"]> ∅)) ]}.

(** A generator that always draws the leading positions. *)
Definition leading_choice (g : unit) (n size : nat) : list nat * unit :=
  (seq 0 size, g).

(** * Properties *)

(** ** Masks and selection *)

Lemma mask_and_map {A} (p q : A -> bool) (l : list A) :
  mask_and (map p l) (map q l) = map (fun x => p x && q x) l.
Proof.
  unfold mask_and. induction l as [|x l IH]; simpl; [done|]. by rewrite IH.
Qed.

Lemma isin_map {A} (f : A -> string) (values : list string) (l : list A) :
  isin (map f l) values = map (fun x => bool_decide (f x ∈ values)) l.
Proof. unfold isin. by rewrite map_map. Qed.

Lemma df_empty_true df : df_empty df = true <-> records df = [].
Proof. unfold df_empty. destruct (records df); split; congruence. Qed.

Lemma df_empty_false df : df_empty df = false <-> records df ≠ [].
Proof. unfold df_empty. destruct (records df); split; congruence. Qed.

Lemma df_empty_len df : df_empty df = true <-> len df = O.
Proof.
  rewrite df_empty_true. unfold len. destruct (records df); simpl; split;
    congruence.
Qed.

(** ** Enrichment stage *)

Lemma status_label_column_map df :
  status_label_column df = map (fun o => status_label (STATUS o)) (records df).
Proof.
  unfold status_label_column, Series_fillna, Series_map.
  induction (records df) as [|o l IH]; simpl; [done|]. by rewrite IH.
Qed.

Lemma zip_map_self {A B} (f : A -> B) (l : list A) :
  zip l (map f l) = map (fun x => (x, f x)) l.
Proof. induction l as [|x l IH]; simpl; [done|]. by rewrite IH. Qed.

Lemma enrich_orders_unfold df :
  enrich_orders df =
  if df_empty df then df
  else EnrichedOrders
         (map (fun o => (o, status_label (STATUS o))) (records df)).
Proof.
  unfold enrich_orders, copy, set_STATUS_LABEL.
  destruct (df_empty df); [done|].
  by rewrite status_label_column_map, zip_map_self.
Qed.

Lemma records_enrich_orders df : records (enrich_orders df) = records df.
Proof.
  rewrite enrich_orders_unfold. destruct (df_empty df); [done|].
  simpl. rewrite <- list_fmap_compose. apply list_fmap_id.
Qed.

Lemma status_label_unmapped code :
  code ≠ "F" -> code ≠ "O" -> code ≠ "P" -> status_label code = code.
Proof.
  intros HF HO HP. unfold status_label, STATUS_LABELS.
  rewrite !lookup_insert_ne by done. by rewrite lookup_empty.
Qed.

(** ** Tables behind references *)

Lemma enrich_orders_ref_run (σ : gmap ref DataFrame) (r : ref) (v : DataFrame) :
  σ !! r = Some v ->
  enrich_orders_ref r σ =
  Some (if df_empty v then (r, σ)
        else (fresh (dom σ), <[fresh (dom σ) := enrich_orders v]> σ)).
Proof.
  intros Hr. unfold enrich_orders_ref, hbind, load. rewrite Hr.
  destruct (df_empty v) eqn:E; [done|].
  unfold copy_ref, hbind, load, alloc, update, hret. rewrite Hr.
  rewrite !lookup_insert_eq, insert_insert_eq.
  unfold enrich_orders, copy. by rewrite E.
Qed.

Lemma apply_filters_ref_run (σ : gmap ref DataFrame) (r : ref) (v : DataFrame)
    start_date end_date status_list priority_list :
  σ !! r = Some v ->
  apply_filters_ref r start_date end_date status_list priority_list σ =
  Some (if df_empty v then (r, σ)
        else
          let w := apply_filters v start_date end_date status_list priority_list in
          let r1 := fresh (dom σ) in
          let σ1 := <[r1 := w]> σ in
          (fresh (dom σ1), <[fresh (dom σ1) := w]> σ1)).
Proof.
  intros Hr. unfold apply_filters_ref, hbind, load. rewrite Hr.
  destruct (df_empty v) eqn:E; [done|].
  unfold getitem_mask_ref, copy_ref, hbind, load, alloc. rewrite Hr.
  rewrite lookup_insert_eq. unfold apply_filters, copy. by rewrite E.
Qed.

Lemma fresh_lookup_None (σ : gmap ref DataFrame) : σ !! fresh (dom σ) = None.
Proof. apply not_elem_of_dom, is_fresh. Qed.

Lemma insert_fresh_frame (σ : gmap ref DataFrame) (w : DataFrame) (l : ref) :
  is_Some (σ !! l) -> <[fresh (dom σ) := w]> σ !! l = σ !! l.
Proof.
  intros Hl. apply lookup_insert_ne. intros <-.
  rewrite fresh_lookup_None in Hl. by destruct Hl.
Qed.

(** ** Enrichment stage: labels *)

(** C6: the enrichment stage gives every row the label of its status code
    under the fixed mapping F -> Filled, O -> Open, P -> Pending; every other
    code is its own label, no input makes it fail, and run on a table
    behind a reference it leaves every table already in the store as it
    was. *)
Theorem enrich_orders_labels_total :
  (forall df,
     enrich_orders df =
     if df_empty df then df
     else EnrichedOrders
            (map (fun o => (o, status_label (STATUS o))) (records df)))
  /\ (forall df, records (enrich_orders df) = records df)
  /\ (forall df,
        df_empty df = false ->
        col_STATUS_LABEL (enrich_orders df) =
        Ok (map (fun o => status_label (STATUS o)) (records df)))
  /\ status_label "F" = "Filled"
  /\ status_label "O" = "Open"
  /\ status_label "P" = "Pending"
  /\ (forall code,
        code ≠ "F" -> code ≠ "O" -> code ≠ "P" -> status_label code = code)
  /\ (forall (σ : gmap ref DataFrame) r v,
        σ !! r = Some v ->
        exists r' σ',
          enrich_orders_ref r σ = Some (r', σ')
          /\ σ' !! r' = Some (enrich_orders v)
          /\ forall l, is_Some (σ !! l) -> σ' !! l = σ !! l).
Proof.
  split; [apply enrich_orders_unfold|].
  split; [apply records_enrich_orders|].
  split.
  { intros df E. rewrite enrich_orders_unfold, E. simpl.
    by rewrite <- list_fmap_compose. }
  do 3 (split; [done|]).
  split; [apply status_label_unmapped|].
  intros σ r v Hr. rewrite (enrich_orders_ref_run σ r v Hr).
  destruct (df_empty v) eqn:E.
  - exists r, σ. split; [done|]. split; [|done].
    rewrite Hr. f_equal. unfold enrich_orders. by rewrite E.
  - eexists _, _. split; [done|]. split; [apply lookup_insert_eq|].
    apply insert_fresh_frame.
Qed.

Lemma enrich_orders_labels_total_witness :
  col_STATUS_LABEL (enrich_orders (Orders [order_x])) = Ok ["X"]
  /\ status_label "X" = "X"
  /\ exists r' σ',
       enrich_orders_ref 1%positive {[ 1%positive := Orders [order_x] ]}
       = Some (r', σ')
       /\ σ' !! 1%positive = Some (Orders [order_x]).
Proof.
  destruct enrich_orders_labels_total
    as (_ & _ & Hcol & _ & _ & _ & Hraw & Href).
  split; [apply (Hcol (Orders [order_x])); reflexivity|].
  split; [apply (Hraw "X"); discriminate|].
  destruct (Href {[ 1%positive := Orders [order_x] ]} 1%positive
              (Orders [order_x])) as (r' & σ' & Hrun & _ & Hframe).
  { apply lookup_singleton_eq. }
  exists r', σ'. split; [exact Hrun|].
  rewrite Hframe; [apply lookup_singleton_eq|].
  rewrite lookup_singleton_eq. eexists; reflexivity.
Defined.

(** ** Enrichment stage: the empty table *)

(** C9: an empty table is returned as it is, so a table of orders without
    the STATUS_LABEL column has the column after enrichment exactly when
    it has a row; the transforms that group by STATUS_LABEL return early
    on an empty table and so never read the missing column. *)
Theorem enrich_orders_empty_as_is :
  (forall df, df_empty df = true -> enrich_orders df = df)
  /\ enrich_orders (Orders []) = Orders []
  /\ col_STATUS_LABEL (enrich_orders (Orders [])) = Raise (KeyError "STATUS_LABEL")
  /\ (forall rows,
        "STATUS_LABEL" ∈ columns (enrich_orders (Orders rows)) <-> rows ≠ [])
  /\ labelled_rows (enrich_orders (Orders [])) = Raise (KeyError "STATUS_LABEL")
  /\ (forall rows,
        ~ raises (status_trend_section (enrich_orders (Orders rows)))
        /\ ~ raises (status_priority_comparison_section
                       (enrich_orders (Orders rows))))
  /\ status_trend_section (enrich_orders (Orders [])) = Ok None
  /\ status_priority_comparison_section (enrich_orders (Orders [])) = Ok None
  /\ (forall rows,
        rows ≠ [] ->
        raises (status_trend_section (Orders rows))
        /\ raises (status_priority_comparison_section (Orders rows))).
Proof.
  split. { intros df E. unfold enrich_orders. by rewrite E. }
  do 2 (split; [done|]).
  split.
  { intros rows. destruct rows as [|o rows].
    - split; [|done]. intros H. exfalso. revert H.
      apply (bool_decide_eq_false_1 _). reflexivity.
    - split; [done|]. intros _.
      apply (bool_decide_eq_true_1 _). reflexivity. }
  split; [done|].
  split.
  { intros rows. destruct rows as [|o rows]; [split; intros []|].
    rewrite enrich_orders_unfold. cbn. auto. }
  do 2 (split; [done|]).
  intros rows Hne. destruct rows as [|o rows]; [done|]. cbn. auto.
Qed.

Lemma enrich_orders_empty_as_is_witness :
  enrich_orders (EnrichedOrders []) = EnrichedOrders []
  /\ "STATUS_LABEL" ∈ columns (enrich_orders (Orders [order_x]))
  /\ raises (status_trend_section (Orders [order_x])).
Proof.
  destruct enrich_orders_empty_as_is
    as (Hempty & _ & _ & Hcol & _ & _ & _ & _ & Hraise).
  split; [apply (Hempty (EnrichedOrders [])); reflexivity|].
  split; [apply (Hcol [order_x]); discriminate|].
  apply (Hraise [order_x]); discriminate.
Defined.

(** ** Frame: the caller's table *)

(** C10, as stated, at the empty table: both stages hand back the very
    reference they were given, which is a table of the store and not a
    new one. *)
Lemma stages_return_argument_on_empty :
  enrich_orders_ref 1%positive empty_store = Some (1%positive, empty_store)
  /\ apply_filters_ref 1%positive (mkTimestamp 1992 1 1)
       (mkTimestamp 1998 12 31) [] [] empty_store
     = Some (1%positive, empty_store)
  /\ 1%positive ∈ dom empty_store.
Proof.
  split; [|split].
  - by rewrite (enrich_orders_ref_run _ _ (Orders []))
      by apply lookup_singleton_eq.
  - by rewrite (apply_filters_ref_run _ _ (Orders []))
      by apply lookup_singleton_eq.
  - apply elem_of_dom. unfold empty_store. rewrite lookup_singleton_eq.
    by eexists.
Qed.

(** C10, amended: both stages leave every table of the store, the
    caller's included, as it was; on a table with rows the result is a
    newly allocated table, on an empty table it is the argument itself
    and the store is untouched. *)
Theorem stages_leave_input_unchanged
    (σ : gmap ref DataFrame) (r : ref) (v : DataFrame)
    (start_date end_date : Timestamp) (status_list priority_list : list string) :
  σ !! r = Some v ->
  (exists r' σ',
     enrich_orders_ref r σ = Some (r', σ')
     /\ σ' !! r = Some v
     /\ (forall l, is_Some (σ !! l) -> σ' !! l = σ !! l)
     /\ σ' !! r' = Some (enrich_orders v)
     /\ (df_empty v = false -> r' ∉ dom σ)
     /\ (df_empty v = true -> r' = r /\ σ' = σ))
  /\
  (exists r' σ',
     apply_filters_ref r start_date end_date status_list priority_list σ
     = Some (r', σ')
     /\ σ' !! r = Some v
     /\ (forall l, is_Some (σ !! l) -> σ' !! l = σ !! l)
     /\ σ' !! r' =
        Some (apply_filters v start_date end_date status_list priority_list)
     /\ (df_empty v = false -> r' ∉ dom σ)
     /\ (df_empty v = true -> r' = r /\ σ' = σ)).
Proof.
  intros Hr. split.
  - rewrite (enrich_orders_ref_run σ r v Hr). destruct (df_empty v) eqn:E.
    + exists r, σ. repeat split; try done.
      rewrite Hr. unfold enrich_orders. by rewrite E.
    + eexists _, _. split; [done|].
      split; [by rewrite insert_fresh_frame by (by eexists)|].
      split; [apply insert_fresh_frame|].
      split; [apply lookup_insert_eq|].
      split; [intros _; apply is_fresh|done].
  - rewrite (apply_filters_ref_run σ r v _ _ _ _ Hr).
    destruct (df_empty v) eqn:E.
    + exists r, σ. repeat split; try done.
      rewrite Hr. unfold apply_filters. by rewrite E.
    + cbv zeta. set (w := apply_filters v _ _ _ _).
      set (r1 := fresh (dom σ)). set (σ1 := <[r1 := w]> σ).
      assert (Hframe : forall l, is_Some (σ !! l) ->
                <[fresh (dom σ1) := w]> σ1 !! l = σ !! l).
      { intros l Hl. rewrite insert_fresh_frame.
        - by apply insert_fresh_frame.
        - unfold σ1, r1. by rewrite insert_fresh_frame. }
      eexists _, _. split; [done|].
      split; [by rewrite Hframe by (by eexists)|].
      split; [exact Hframe|].
      split; [apply lookup_insert_eq|].
      split; [|done]. intros _ Hin.
      apply (is_fresh (dom σ1)). subst σ1. rewrite dom_insert_L.
      rewrite dom_insert_L in Hin. by apply elem_of_union_r.
Qed.

Lemma stages_leave_input_unchanged_witness :
  (exists r' σ',
     enrich_orders_ref 1%positive scenario_store = Some (r', σ')
     /\ σ' !! 1%positive = Some scenario)
  /\ (exists r' σ',
        apply_filters_ref 1%positive (mkTimestamp 1992 1 1)
          (mkTimestamp 1998 12 31) ["O"] [] scenario_store = Some (r', σ')
        /\ σ' !! 1%positive = Some scenario).
Proof.
  destruct (stages_leave_input_unchanged scenario_store 1%positive scenario
              (mkTimestamp 1992 1 1) (mkTimestamp 1998 12 31) ["O"] [])
    as [(r1 & σ1 & H1 & H1' & _) (r2 & σ2 & H2 & H2' & _)].
  { apply lookup_singleton_eq. }
  split; [exists r1, σ1 | exists r2, σ2]; split; assumption.
Defined.

(** ** Filter stage *)

Lemma select_map_bool {A} (p : A -> bool) (l : list A) :
  select l (map p l) = filter (fun x => p x = true) l.
Proof.
  induction l as [|x l IH]; simpl; [done|].
  rewrite filter_cons. destruct (p x) eqn:E.
  - rewrite decide_True by done. by rewrite IH.
  - rewrite decide_False by congruence. done.
Qed.

Lemma filter_mask_map df start_date end_date status_list priority_list :
  filter_mask df start_date end_date status_list priority_list =
  map (mask_test start_date end_date status_list priority_list) (records df).
Proof.
  unfold filter_mask, to_datetime, mask_test.
  rewrite !map_map, mask_and_map.
  destruct (truthy status_list), (truthy priority_list);
    rewrite ?isin_map, ?mask_and_map; apply map_ext; intros o;
    by rewrite ?andb_true_r.
Qed.

Lemma mask_test_in_selection start_date end_date status_list priority_list o :
  mask_test start_date end_date status_list priority_list o = true
  <-> in_selection start_date end_date status_list priority_list o.
Proof.
  unfold mask_test, in_selection.
  rewrite !andb_true_iff.
  assert (Hsel : forall (l : list string) c,
             (if truthy l then bool_decide (c ∈ l) else true) = true
             <-> l = [] \/ c ∈ l).
  { intros [|x l] c; simpl.
    - split; auto.
    - rewrite bool_decide_eq_true. split; [auto|]. by intros [|]. }
  rewrite !Hsel. tauto.
Qed.

Lemma getitem_mask_restrict df (p : Order -> bool) (P : Order -> Prop)
    `{!forall o, Decision (P o)} :
  (forall o, p o = true <-> P o) ->
  getitem_mask df (map p (records df)) = restrict P df.
Proof.
  intros Hp. destruct df as [rows|rows]; simpl.
  - rewrite select_map_bool. f_equal. by apply list_filter_iff.
  - rewrite <- list_fmap_compose, select_map_bool. f_equal.
    apply list_filter_iff. intros r. apply Hp.
Qed.

Lemma restrict_empty (P : Order -> Prop) `{!forall o, Decision (P o)} df :
  df_empty df = true -> restrict P df = df.
Proof.
  rewrite df_empty_true. destruct df as [rows|rows]; simpl.
  - by intros ->.
  - intros Hnil. apply fmap_nil_inv in Hnil. by subst.
Qed.

Lemma records_restrict (P : Order -> Prop) `{!forall o, Decision (P o)} df :
  records (restrict P df) = filter P (records df).
Proof.
  destruct df as [rows|rows]; [done|]. unfold restrict, records.
  induction rows as [|r rows IH]; [done|].
  rewrite fmap_cons, !filter_cons.
  destruct (decide (P r.1)); [rewrite fmap_cons|]; by rewrite IH.
Qed.

Lemma apply_filters_restrict df start_date end_date status_list priority_list :
  apply_filters df start_date end_date status_list priority_list =
  restrict (in_selection start_date end_date status_list priority_list) df.
Proof.
  unfold apply_filters, copy. destruct (df_empty df) eqn:E.
  - symmetry. by apply restrict_empty.
  - rewrite filter_mask_map. apply getitem_mask_restrict.
    intros o. apply mask_test_in_selection.
Qed.

Lemma restrict_iff (P Q : Order -> Prop) `{!forall o, Decision (P o)}
    `{!forall o, Decision (Q o)} df :
  (forall o, P o <-> Q o) -> restrict P df = restrict Q df.
Proof.
  intros Hpq. destruct df as [rows|rows]; simpl; f_equal;
    apply list_filter_iff; intros; apply Hpq.
Qed.

(** C2: the filter stage returns exactly the rows whose date lies in the
    inclusive range and whose status and priority are members of the
    respective selection when that selection is not empty; an empty
    selection does not restrict its field, and an empty input or an
    unmatched filter gives an empty table. *)
Theorem apply_filters_exact
    (df : DataFrame) (start_date end_date : Timestamp)
    (status_set priority_set : list string) :
  apply_filters df start_date end_date status_set priority_set =
    restrict (in_selection start_date end_date status_set priority_set) df
  /\ (forall o,
        o ∈ records (apply_filters df start_date end_date status_set priority_set)
        <-> o ∈ records df
            /\ in_selection start_date end_date status_set priority_set o)
  /\ apply_filters df start_date end_date [] priority_set =
       restrict (fun o => in_range start_date end_date o
                          /\ (priority_set = [] \/ PRIORITY o ∈ priority_set)) df
  /\ apply_filters df start_date end_date status_set [] =
       restrict (fun o => in_range start_date end_date o
                          /\ (status_set = [] \/ STATUS o ∈ status_set)) df
  /\ apply_filters df start_date end_date [] [] =
       restrict (in_range start_date end_date) df
  /\ (df_empty df = true ->
      apply_filters df start_date end_date status_set priority_set = df)
  /\ ((forall o, o ∈ records df ->
         ~ in_selection start_date end_date status_set priority_set o) ->
      df_empty (apply_filters df start_date end_date status_set priority_set)
      = true).
Proof.
  split; [apply apply_filters_restrict|].
  split.
  { intros o. rewrite apply_filters_restrict, records_restrict,
      list_elem_of_filter. tauto. }
  split.
  { rewrite apply_filters_restrict. apply restrict_iff.
    intros o. unfold in_selection, in_range. tauto. }
  split.
  { rewrite apply_filters_restrict. apply restrict_iff.
    intros o. unfold in_selection, in_range. tauto. }
  split.
  { rewrite apply_filters_restrict. apply restrict_iff.
    intros o. unfold in_selection, in_range. tauto. }
  split.
  { intros E. unfold apply_filters. by rewrite E. }
  intros Hnone. rewrite apply_filters_restrict, df_empty_true, records_restrict.
  induction (records df) as [|o l IH]; [done|].
  rewrite filter_cons_False.
  - apply IH. intros o' Ho'. apply Hnone. by right.
  - apply Hnone. by left.
Qed.

Lemma apply_filters_exact_witness :
  apply_filters (Orders []) (mkTimestamp 1992 1 1) (mkTimestamp 1998 12 31)
    ["O"] [] = Orders []
  /\ df_empty (apply_filters scenario (mkTimestamp 1992 1 1)
                 (mkTimestamp 1998 12 31) ["O"] []) = true.
Proof.
  split.
  - apply (apply_filters_exact (Orders []) (mkTimestamp 1992 1 1)
             (mkTimestamp 1998 12 31) ["O"] []). reflexivity.
  - apply (apply_filters_exact scenario (mkTimestamp 1992 1 1)
             (mkTimestamp 1998 12 31) ["O"] []).
    intros o Ho (_ & Hend & _).
    unfold scenario in Ho. simpl in Ho.
    repeat (apply elem_of_cons in Ho as [->|Ho]; [discriminate Hend|]).
    by apply elem_of_nil in Ho.
Defined.

(** ** KPI summary *)

Lemma Qc_of_nat_nonzero (n : nat) : (0 < n)%nat -> Qc_of_nat n ≠ 0%Qc.
Proof.
  intros Hn H. apply (f_equal this) in H. unfold Qc_of_nat, Qc_of_Z in H.
  simpl in H. injection H as H. lia.
Qed.

Lemma py_truediv_nonzero (a b : Qc) : b ≠ 0%Qc -> py_truediv a b = Ok (a / b)%Qc.
Proof.
  intros Hb. unfold py_truediv, Qc_eqb. by rewrite bool_decide_eq_false_2.
Qed.

Lemma kpi_section_of_empty df : df_empty df = true -> kpi_section df = Ok zero_kpi.
Proof.
  intros E. unfold kpi_section, len. rewrite E.
  apply df_empty_true in E. by rewrite E.
Qed.

Lemma kpi_section_returns df :
  exists avg per_day,
    kpi_section df =
    Ok {| total_orders := len df;
          total_amount :=
            if negb (df_empty df) then sum_TOTAL_PRICE (records df) else 0%Qc;
          avg_order_value := avg;
          distinct_days :=
            if negb (df_empty df) then nunique (map ORDER_DATE (records df))
            else O;
          orders_per_day := per_day;
          median_order_value :=
            if negb (df_empty df)
            then Series_median (map TOTAL_PRICE (records df))
            else Finite 0%Qc;
          p90_order_value :=
            if negb (df_empty df)
            then Series_quantile (map TOTAL_PRICE (records df))
                   (Qc_of_Z 9 / Qc_of_Z 10)%Qc
            else Finite 0%Qc |}
    /\ (len df = O -> avg = 0%Qc)
    /\ ((if negb (df_empty df) then nunique (map ORDER_DATE (records df))
         else O) = O -> per_day = 0%Qc).
Proof.
  unfold kpi_section, float, sum_TOTAL_PRICE.
  set (days := if negb (df_empty df) then nunique (map ORDER_DATE (records df))
               else O).
  destruct (0 <? len df)%nat eqn:Hlen.
  - apply Nat.ltb_lt in Hlen.
    rewrite (py_truediv_nonzero _ _ (Qc_of_nat_nonzero _ Hlen)). simpl.
    destruct (0 <? days)%nat eqn:Hdays.
    + apply Nat.ltb_lt in Hdays.
      rewrite (py_truediv_nonzero _ _ (Qc_of_nat_nonzero _ Hdays)). simpl.
      eexists _, _. split; [reflexivity|]. split; intros; lia.
    + simpl. eexists _, _. split; [reflexivity|]. split; [lia|done].
  - simpl. destruct (0 <? days)%nat eqn:Hdays.
    + apply Nat.ltb_lt in Hdays.
      rewrite (py_truediv_nonzero _ _ (Qc_of_nat_nonzero _ Hdays)). simpl.
      eexists _, _. split; [reflexivity|]. split; [done|lia].
    + simpl. eexists _, _. split; [reflexivity|]. split; done.
Qed.

(** C1: on an empty table the KPI summary is zero in every field; on every
    table it returns without raising, so no division by zero is ever
    attempted; the average order value is 0 when there are no orders and
    the orders per active day are 0 when there are no active days. *)
Theorem kpi_section_empty_zero :
  (forall df, df_empty df = true -> kpi_section df = Ok zero_kpi)
  /\ kpi_section (Orders []) = Ok zero_kpi
  /\ kpi_section (EnrichedOrders []) = Ok zero_kpi
  /\ (forall df,
        exists k,
          kpi_section df = Ok k
          /\ (total_orders k = O -> avg_order_value k = 0%Qc)
          /\ (distinct_days k = O -> orders_per_day k = 0%Qc)).
Proof.
  split; [apply kpi_section_of_empty|].
  do 2 (split; [by apply kpi_section_of_empty|]).
  intros df. destruct (kpi_section_returns df) as (avg & per_day & -> & H1 & H2).
  eexists. split; [reflexivity|]. simpl. by split.
Qed.

Lemma kpi_section_empty_zero_witness :
  kpi_section (Orders []) = Ok zero_kpi
  /\ exists k,
       kpi_section (EnrichedOrders []) = Ok k
       /\ avg_order_value k = 0%Qc /\ orders_per_day k = 0%Qc.
Proof.
  destruct kpi_section_empty_zero as (Hempty & _ & _ & Hall).
  split; [apply (Hempty (Orders [])); reflexivity|].
  destruct (Hall (EnrichedOrders [])) as (k & Hk & Havg & Hday).
  exists k. split; [exact Hk|].
  assert (Hz : k = zero_kpi).
  { rewrite (Hempty (EnrichedOrders []) eq_refl) in Hk. by injection Hk. }
  split; [apply Havg | apply Hday]; by rewrite Hz.
Defined.

(** ** Group keys *)

Section group_keys.
Context {K : Type} `{EqDecision K} (R : relation K) `{!RelDecision R}.

Lemma elem_of_group_keys (l : list K) (k : K) : k ∈ group_keys R l <-> k ∈ l.
Proof.
  unfold group_keys. by rewrite merge_sort_Permutation, elem_of_remove_dups.
Qed.

Lemma NoDup_group_keys (l : list K) : NoDup (group_keys R l).
Proof.
  unfold group_keys. rewrite merge_sort_Permutation. apply NoDup_remove_dups.
Qed.

Lemma Sorted_group_keys `{!Total R} (l : list K) : Sorted R (group_keys R l).
Proof. apply Sorted_merge_sort; apply _. Qed.

Lemma length_group_keys (l : list K) : length (group_keys R l) = nunique l.
Proof. unfold group_keys, nunique. by rewrite merge_sort_Permutation. Qed.
End group_keys.

(** ** Sums over the groups of a partition *)

Section partition.
Context {M : Type} (op : M -> M -> M) (e : M).
Context `{!Assoc (=) op, !Comm (=) op, !LeftId (=) e op}.

Let total (l : list M) : M := foldr op e l.

Lemma total_units {K} (keys : list K) : total (map (fun _ => e) keys) = e.
Proof.
  induction keys as [|k keys IH]; [done|]. simpl. fold total.
  by rewrite IH, left_id.
Qed.

Lemma total_add_absent {K} `{EqDecision K} (k0 : K) (a : M) (g : K -> M)
    (keys : list K) :
  k0 ∉ keys ->
  total (map (fun k => if decide (k0 = k) then op a (g k) else g k) keys)
  = total (map g keys).
Proof.
  induction keys as [|k keys IH]; [done|]. intros Hk.
  apply not_elem_of_cons in Hk as [Hne Hk]. simpl. fold total.
  rewrite decide_False by done. by rewrite IH.
Qed.

Lemma total_add_once {K} `{EqDecision K} (k0 : K) (a : M) (g : K -> M)
    (keys : list K) :
  NoDup keys -> k0 ∈ keys ->
  total (map (fun k => if decide (k0 = k) then op a (g k) else g k) keys)
  = op a (total (map g keys)).
Proof.
  induction keys as [|k keys IH]; intros Hnd Hin.
  { by apply elem_of_nil in Hin. }
  pose proof (NoDup_cons_1_1 _ _ Hnd) as Hk.
  apply NoDup_cons_1_2 in Hnd. simpl. fold total.
  destruct (decide (k0 = k)) as [->|Hne].
  - rewrite total_add_absent by done. by rewrite (assoc op).
  - apply elem_of_cons in Hin as [?|Hin]; [done|].
    rewrite IH by done.
    by rewrite !(assoc op), (comm op (g k) a).
Qed.

(** Summing each group and then the group sums gives the sum of the
    whole list, as long as the keys are distinct and cover the list. *)
Lemma total_by_groups {A K} `{EqDecision K} (key : A -> K) (f : A -> M)
    (keys : list K) (l : list A) :
  NoDup keys ->
  (forall x, x ∈ l -> key x ∈ keys) ->
  total (map (fun k => total (map f (filter (fun x => key x = k) l))) keys)
  = total (map f l).
Proof.
  intros Hnd. induction l as [|x l IH]; intros Hcover.
  { simpl. apply total_units. }
  rewrite map_cons. simpl. fold total.
  rewrite <- IH by (intros y Hy; apply Hcover; by right).
  rewrite <- (total_add_once (key x) (f x)
                (fun k => total (map f (filter (fun y => key y = k) l))))
    by (try done; apply Hcover; by left).
  f_equal. apply map_ext. intros k. rewrite filter_cons.
  destruct (decide (key x = k)); done.
Qed.
End partition.

Lemma sum_list_foldr (l : list nat) : sum_list l = foldr Nat.add O l.
Proof. induction l as [|x l IH]; simpl; [done|]. by rewrite IH. Qed.

Lemma length_foldr {A} (l : list A) :
  length l = foldr Nat.add O (map (fun _ => 1%nat) l).
Proof. induction l as [|x l IH]; simpl; [done|]. by rewrite IH. Qed.

Lemma groupby_agg_keys {A K V} `{EqDecision K} (R : relation K)
    `{!RelDecision R} (key : A -> K) (agg : list A -> V) (l : list A) :
  (groupby_agg R key agg l).*1 = group_keys R (map key l).
Proof.
  unfold groupby_agg. rewrite <- list_fmap_compose. apply list_fmap_id.
Qed.

Lemma groupby_agg_values {A K V} `{EqDecision K} (R : relation K)
    `{!RelDecision R} (key : A -> K) (agg : list A -> V) (l : list A) :
  (groupby_agg R key agg l).*2 =
  map (fun k => agg (filter (fun x => key x = k) l)) (group_keys R (map key l)).
Proof. unfold groupby_agg. by rewrite <- list_fmap_compose. Qed.

(** Counting each group and adding the counts gives the length. *)
Lemma groupby_count_total {A K} `{EqDecision K} (R : relation K)
    `{!RelDecision R} (key : A -> K) (l : list A) :
  sum_list (groupby_agg R key (fun g => length g) l).*2 = length l.
Proof.
  rewrite groupby_agg_values, sum_list_foldr, (length_foldr l).
  rewrite <- (total_by_groups Nat.add O key (fun _ => 1%nat)
                (group_keys R (map key l)) l).
  - f_equal. apply map_ext. intros k. apply length_foldr.
  - apply NoDup_group_keys.
  - intros x Hx. apply elem_of_group_keys. by apply list_elem_of_fmap_2.
Qed.

(** ** Categorical distribution *)

Lemma groupby_agg_ext {A K V} `{EqDecision K} (R : relation K)
    `{!RelDecision R} (key : A -> K) (agg agg' : list A -> V) (l : list A) :
  (forall g, agg g = agg' g) ->
  groupby_agg R key agg l = groupby_agg R key agg' l.
Proof. intros H. unfold groupby_agg. apply map_ext. intros k. by rewrite H. Qed.

Lemma elem_of_groupby_agg {A K V} `{EqDecision K} (R : relation K)
    `{!RelDecision R} (key : A -> K) (agg : list A -> V) (l : list A) k v :
  (k, v) ∈ groupby_agg R key agg l
  <-> k ∈ map key l /\ v = agg (filter (fun x => key x = k) l).
Proof.
  unfold groupby_agg. rewrite list_elem_of_fmap. split.
  - intros (k' & [= -> ->] & Hk). by apply elem_of_group_keys in Hk.
  - intros [Hk ->]. exists k. split; [done|]. by apply elem_of_group_keys.
Qed.

(** C5: the per-status order counts add up to the total order count of
    the KPI summary, on every table; on a table with rows each status that
    occurs has one entry, holding the number of rows with that status. *)
Theorem status_counts_sum_total (df : DataFrame) :
  (exists k,
     kpi_section df = Ok k
     /\ sum_list (status_counts df).*2 = total_orders k)
  /\ (df_empty df = false ->
      exists status_cnt priority_cnt,
        distribution_section df = Some (status_cnt, priority_cnt)
        /\ sum_list status_cnt.*2 = len df
        /\ NoDup status_cnt.*1
        /\ forall s n,
             (s, n) ∈ status_cnt
             <-> s ∈ map STATUS (records df)
                 /\ n = length (filter (fun o => STATUS o = s) (records df))).
Proof.
  assert (Hsum : sum_list
            (groupby_agg string_le STATUS count_ORDER_KEY (records df)).*2
          = len df).
  { rewrite (groupby_agg_ext _ _ _ (fun g => length g))
      by (intros g; apply length_map).
    apply groupby_count_total. }
  split.
  - destruct (kpi_section_returns df) as (avg & per_day & -> & _).
    eexists. split; [reflexivity|]. simpl.
    unfold status_counts, distribution_section.
    destruct (df_empty df) eqn:E; [|exact Hsum].
    apply df_empty_len in E. by rewrite E.
  - intros E. unfold distribution_section. rewrite E.
    eexists _, _. split; [reflexivity|]. split; [exact Hsum|].
    split.
    + rewrite groupby_agg_keys. apply NoDup_group_keys.
    + intros s n. rewrite elem_of_groupby_agg. unfold count_ORDER_KEY.
      by rewrite length_map.
Qed.

Lemma status_counts_sum_total_witness :
  exists status_cnt priority_cnt,
    distribution_section scenario = Some (status_cnt, priority_cnt)
    /\ sum_list status_cnt.*2 = 3%nat.
Proof.
  destruct (status_counts_sum_total scenario) as [_ H].
  destruct (H eq_refl) as (sc & pc & Hd & Hs & _).
  exists sc, pc. split; [exact Hd|exact Hs].
Defined.

(** ** Sums of doubles *)











(** ** Groups as a partition of the rows *)





(** ** Status x priority revenue matrix *)

Lemma map_key_fst {A B V} (l : list (A * B * V)) :
  map (fun g => g.1.1) l = (l.*1).*1.
Proof. exact (list_fmap_compose fst fst l). Qed.

Lemma map_key_snd {A B V} (l : list (A * B * V)) :
  map (fun g => g.1.2) l = (l.*1).*2.
Proof. exact (list_fmap_compose fst snd l). Qed.

Section pivot.
Variable rows : list Order.

Let pair_key (o : Order) : string * string := (PRIORITY o, STATUS o).
Let agged :=
  groupby_agg (lex_le string_le string_le) pair_key sum_TOTAL_PRICE64 rows.

Lemma pivot_index_elem p :
  p ∈ pivot_index (pivot_table rows) <-> p ∈ map PRIORITY rows.
Proof.
  unfold pivot_table. simpl. rewrite elem_of_group_keys.
  rewrite map_key_fst, groupby_agg_keys.
  rewrite !list_elem_of_fmap. split.
  - intros (k & -> & Hk). apply elem_of_group_keys in Hk.
    apply list_elem_of_fmap in Hk as (o & -> & Ho). by exists o.
  - intros (o & -> & Ho). exists (pair_key o). split; [done|].
    apply elem_of_group_keys. by apply list_elem_of_fmap_2.
Qed.

Lemma pivot_columns_elem s :
  s ∈ pivot_columns (pivot_table rows) <-> s ∈ map STATUS rows.
Proof.
  unfold pivot_table. simpl. rewrite elem_of_group_keys.
  rewrite map_key_snd, groupby_agg_keys.
  rewrite !list_elem_of_fmap. split.
  - intros (k & -> & Hk). apply elem_of_group_keys in Hk.
    apply list_elem_of_fmap in Hk as (o & -> & Ho). by exists o.
  - intros (o & -> & Ho). exists (pair_key o). split; [done|].
    apply elem_of_group_keys. by apply list_elem_of_fmap_2.
Qed.

(** A filled cell holds the grouped sum of its orders; a cell without
    orders holds the fill value, which is also the grouped sum of no
    values. *)
Lemma pivot_lookup p s :
  default 0%float
    ((list_to_map agged : gmap (string * string) double) !! (p, s))
  = sum_TOTAL_PRICE64 (cell_orders rows p s).
Proof.
  assert (Hfilter : filter (fun o => pair_key o = (p, s)) rows
                    = cell_orders rows p s).
  { apply list_filter_iff. intros o. unfold pair_key. split.
    - by intros [= -> ->].
    - by intros [-> ->]. }
  destruct (decide ((p, s) ∈ map pair_key rows)) as [Hin|Hout].
  - rewrite (elem_of_list_to_map_1 agged (p, s)
               (sum_TOTAL_PRICE64 (filter (fun o => pair_key o = (p, s)) rows))).
    + simpl. by rewrite Hfilter.
    + unfold agged. rewrite groupby_agg_keys. apply NoDup_group_keys.
    + by apply elem_of_groupby_agg.
  - rewrite not_elem_of_list_to_map_1.
    + simpl. rewrite <- Hfilter.
      replace (filter (fun o => pair_key o = (p, s)) rows) with (@nil Order);
        [done|].
      symmetry. apply elem_of_nil_inv. intros o Ho.
      apply list_elem_of_filter in Ho as [Hk Ho]. apply Hout.
      rewrite <- Hk. by apply list_elem_of_fmap_2.
    + unfold agged. rewrite groupby_agg_keys, elem_of_group_keys. exact Hout.
Qed.

Lemma pivot_values_unfold :
  pivot_values (pivot_table rows) =
  map (fun p =>
         map (fun s => sum_TOTAL_PRICE64 (cell_orders rows p s))
             (pivot_columns (pivot_table rows)))
      (pivot_index (pivot_table rows)).
Proof.
  unfold pivot_table. simpl. apply map_ext. intros p. apply map_ext.
  intros s. apply pivot_lookup.
Qed.


End pivot.




(** ** Yearly trend *)

Lemma growth_finite (a b : Qc) :
  a ≠ 0%Qc -> growth a b = Finite ((b / a - 1) * Qc_of_Z 100)%Qc.
Proof.
  intros Ha. unfold growth, fmul, fsub, fdiv, fadd, fopp, Qc_eqb.
  by rewrite bool_decide_eq_false_2.
Qed.

Lemma growth_isna (a b : Qc) :
  isna (growth a b) = true <-> a = 0%Qc /\ b = 0%Qc.
Proof.
  destruct (decide (a = 0%Qc)) as [->|Ha].
  - unfold growth, fdiv, Qc_eqb. rewrite bool_decide_eq_true_2 by done.
    unfold fsign, Qc_ltb, Qc_eqb.
    destruct (decide (b < 0)%Qc) as [Hlt|Hge].
    + rewrite bool_decide_eq_true_2 by done. simpl. split; [done|].
      intros [_ ->]. by apply Qclt_not_eq in Hlt.
    + rewrite bool_decide_eq_false_2 by done.
      destruct (decide (b = 0%Qc)) as [->|Hb].
      * rewrite bool_decide_eq_true_2 by done. simpl. by split.
      * rewrite bool_decide_eq_false_2 by done. simpl. split; [done|].
        by intros [_ ?].
  - rewrite growth_finite by done. simpl. split; [done|]. by intros [? _].
Qed.

Lemma pct_change_growth (r0 : Qc) (rs : list Qc) :
  map (fun x => fmul x (Finite (Qc_of_Z 100)))
      (pct_change (map Finite (r0 :: rs)))
  = NaN :: growth_from r0 rs.
Proof.
  unfold pct_change, shift1. simpl. f_equal. rewrite length_map.
  revert r0. induction rs as [|r rs IH]; intros r0; [done|].
  simpl. f_equal. apply IH.
Qed.

Lemma growth_from_lookup (prev : Qc) (rs : list Qc) (i : nat) (a b : Qc) :
  (prev :: rs) !! i = Some a -> rs !! i = Some b ->
  growth_from prev rs !! i = Some (growth a b).
Proof.
  revert prev i. induction rs as [|r rs IH]; intros prev i Ha Hb; [done|].
  destruct i as [|i]; simpl in *.
  - by injection Ha as <-; injection Hb as <-.
  - by apply IH.
Qed.

Lemma length_growth_from (prev : Qc) (rs : list Qc) :
  length (growth_from prev rs) = length rs.
Proof.
  revert prev. induction rs as [|r rs IH]; intros prev; simpl; [done|].
  by rewrite IH.
Qed.

Global Instance year_le_trans : Transitive year_le.
Proof. intros a b c. unfold year_le. lia. Qed.

Global Instance year_le_total : Total year_le.
Proof. intros a b. unfold year_le. lia. Qed.

Global Instance Z_le_total : Total Z.le.
Proof. intros a b. lia. Qed.

(** The groups come out of [groupby] in ascending order of the year, so
    sorting them by year again changes nothing. *)
Lemma sort_grouped_years (rows : list Order) :
  merge_sort year_le
    (groupby_agg Z.le (fun o => year (ORDER_DATE o))
       (fun g => (count_ORDER_KEY g, sum_TOTAL_PRICE g)) rows)
  = groupby_agg Z.le (fun o => year (ORDER_DATE o))
      (fun g => (count_ORDER_KEY g, sum_TOTAL_PRICE g)) rows.
Proof.
  set (G := groupby_agg _ _ _ _).
  apply (Sorted_unique_strong year_le).
  - intros x1 x2 H1 H2 H12 H21.
    rewrite merge_sort_Permutation in H1.
    destruct x1 as [k1 v1], x2 as [k2 v2].
    apply elem_of_groupby_agg in H1 as [_ ->].
    apply elem_of_groupby_agg in H2 as [_ ->].
    unfold year_le in *. simpl in *.
    assert (k1 = k2) as -> by lia. done.
  - apply Sorted_merge_sort; apply _.
  - unfold G, groupby_agg. apply Sorted_fmap with (R1 := Z.le).
    + intros x y Hxy. exact Hxy.
    + apply Sorted_group_keys. apply _.
  - apply merge_sort_Permutation.
Qed.

Lemma zip_with_rows_after (prev : Qc) (groups : list (Z * (nat * Qc))) :
  zip_with (fun r g => mkYearRow r.1 r.2.1 r.2.2 g) groups
    (growth_from prev (map (fun r => r.2.2) groups))
  = rows_after prev groups.
Proof.
  revert prev. induction groups as [|g groups IH]; intros prev; [done|].
  simpl. by rewrite IH.
Qed.

Lemma yearly_trend_section_unfold (df : DataFrame) :
  df_empty df = false ->
  yearly_trend_section df =
  Some (year_table (year_groups (records df)),
        filter has_yoy (year_table (year_groups (records df)))).
Proof.
  intros E. unfold yearly_trend_section. rewrite E.
  rewrite sort_grouped_years. fold (year_groups (records df)).
  assert (Htable :
    zip_with (fun r g => mkYearRow r.1 r.2.1 r.2.2 g) (year_groups (records df))
      (map (fun x => fmul x (Finite (Qc_of_Z 100)))
           (pct_change (map (fun r => Finite r.2.2) (year_groups (records df)))))
    = year_table (year_groups (records df))).
  { destruct (year_groups (records df)) as [|g groups]; [done|].
    rewrite <- (map_map (fun r => r.2.2) Finite).
    rewrite map_cons, pct_change_growth. simpl.
    by rewrite zip_with_rows_after. }
  by rewrite Htable.
Qed.

Lemma rows_after_years prev groups : map yr (rows_after prev groups) = groups.*1.
Proof.
  revert prev. induction groups as [|g groups IH]; intros prev; [done|].
  simpl. by rewrite IH.
Qed.

Lemma year_table_years groups : map yr (year_table groups) = groups.*1.
Proof. destruct groups; [done|]. simpl. by rewrite rows_after_years. Qed.

Lemma rows_after_group prev groups row :
  row ∈ rows_after prev groups ->
  (yr row, (order_cnt row, yr_total_amount row)) ∈ groups.
Proof.
  revert prev. induction groups as [|g groups IH]; intros prev Hrow.
  { by apply elem_of_nil in Hrow. }
  simpl in Hrow. apply elem_of_cons in Hrow as [->|Hrow].
  - simpl. destruct g as [k [c s]]. by left.
  - right. by apply (IH _ Hrow).
Qed.

Lemma year_table_group groups row :
  row ∈ year_table groups ->
  (yr row, (order_cnt row, yr_total_amount row)) ∈ groups.
Proof.
  destruct groups as [|g groups]; [by intros ?%elem_of_nil|].
  simpl. intros [->|Hrow]%elem_of_cons.
  - simpl. destruct g as [k [c s]]. by left.
  - right. by apply (rows_after_group _ _ _ Hrow).
Qed.

Lemma rows_after_head prev groups row :
  rows_after prev groups !! 0%nat = Some row ->
  revenue_yoy row = growth prev (yr_total_amount row).
Proof. destruct groups; [done|]. simpl. by intros [= <-]. Qed.

Lemma rows_after_step prev groups i before row :
  rows_after prev groups !! i = Some before ->
  rows_after prev groups !! S i = Some row ->
  revenue_yoy row = growth (yr_total_amount before) (yr_total_amount row).
Proof.
  revert prev i. induction groups as [|g groups IH]; intros prev i; [done|].
  destruct i as [|i]; simpl.
  - intros [= <-] Hrow. simpl. by apply rows_after_head in Hrow.
  - apply IH.
Qed.

Lemma year_table_step groups i before row :
  year_table groups !! i = Some before ->
  year_table groups !! S i = Some row ->
  revenue_yoy row = growth (yr_total_amount before) (yr_total_amount row).
Proof.
  destruct groups as [|g groups]; [done|]. destruct i as [|i]; simpl.
  - intros [= <-] Hrow. simpl. by apply rows_after_head in Hrow.
  - apply rows_after_step.
Qed.

Lemma filter_Forall_id {A} (P : A -> Prop) `{!forall x, Decision (P x)}
    (l : list A) :
  Forall P l -> filter P l = l.
Proof.
  induction 1 as [|x l Hx _ IH]; [done|].
  by rewrite filter_cons_True, IH.
Qed.

Lemma rows_after_has_yoy prev groups :
  (forall first,
     rows_after prev groups !! 0%nat = Some first ->
     ~ (prev = 0%Qc /\ yr_total_amount first = 0%Qc)) ->
  (forall i before row,
     rows_after prev groups !! i = Some before ->
     rows_after prev groups !! S i = Some row ->
     ~ (yr_total_amount before = 0%Qc /\ yr_total_amount row = 0%Qc)) ->
  Forall has_yoy (rows_after prev groups).
Proof.
  revert prev. induction groups as [|g groups IH]; intros prev Hfirst Hstep;
    [constructor|].
  simpl. constructor.
  - unfold has_yoy. simpl. apply not_true_is_false. intros Hna.
    apply growth_isna in Hna. by apply (Hfirst _ eq_refl).
  - apply IH.
    + intros first Hf. by apply (Hstep 0%nat _ first eq_refl).
    + intros i before row Hb Hr. by apply (Hstep (S i) before row).
Qed.

Lemma year_table_filter groups :
  filter has_yoy (year_table groups) = filter has_yoy (tail (year_table groups)).
Proof. destruct groups as [|g groups]; [done|]. simpl. by rewrite filter_cons_False. Qed.

Lemma year_table_first groups first :
  year_table groups !! 0%nat = Some first -> revenue_yoy first = NaN.
Proof. destruct groups; [done|]. simpl. by intros [= <-]. Qed.

Lemma year_table_tail_has_yoy groups :
  (forall i before row,
     year_table groups !! i = Some before ->
     year_table groups !! S i = Some row ->
     ~ (yr_total_amount before = 0%Qc /\ yr_total_amount row = 0%Qc)) ->
  Forall has_yoy (tail (year_table groups)).
Proof.
  destruct groups as [|g groups]; [constructor|]. simpl. intros Hstep.
  apply rows_after_has_yoy.
  - intros first Hf. by apply (Hstep 0%nat _ first eq_refl).
  - intros i before row Hb Hr. by apply (Hstep (S i) before row).
Qed.

(** C3: at two years in which every order has price 0 the yearly table
    has its two rows, for 2020 and 2021, but the growth series is empty:
    the growth of 2021 over 2020 is 0/0, which is NaN, and the [dropna]
    meant for the first year drops the row of 2021 as well, so the
    series has no entry where N-1 = 1 is expected. *)
Theorem yoy_series_short_on_zero_revenue :
  exists df_year,
    yearly_trend_section (Orders [free_2020; free_2021]) = Some (df_year, [])
    /\ map yr df_year = [2020%Z; 2021%Z]
    /\ map revenue_yoy df_year = [NaN; NaN]
    /\ nunique (years_of (Orders [free_2020; free_2021])) = 2%nat.
Proof.
  eexists. split; [|split; [|split]].
  - rewrite yearly_trend_section_unfold by reflexivity. reflexivity.
  - reflexivity.
  - reflexivity.
  - reflexivity.
Qed.

(** ** Deterministic sample *)

Lemma take_positions_in_range {A} (l : list A) (idx : list nat) :
  Forall (fun i => (i < length l)%nat) idx ->
  exists rs,
    take_positions l idx = Ok rs
    /\ length rs = length idx
    /\ forall x, x ∈ rs -> x ∈ l.
Proof.
  induction 1 as [|i idx Hi _ (rs & Hrs & Hlen & Hsub)].
  { exists []. split; [done|]. split; [done|]. by intros x ?%elem_of_nil. }
  destruct (lookup_lt_is_Some_2 l i Hi) as [x Hx].
  exists (x :: rs). simpl. rewrite Hx, Hrs. simpl.
  split; [done|]. split; [by rewrite Hlen|].
  intros y [->|Hy]%elem_of_cons; [|by apply Hsub].
  by apply list_elem_of_lookup_2 in Hx.
Qed.

Lemma DataFrame_take_in_range (df : DataFrame) (idx : list nat) :
  Forall (fun i => (i < len df)%nat) idx ->
  exists sample,
    DataFrame_take df idx = Ok sample
    /\ len sample = length idx
    /\ columns sample = columns df
    /\ forall o, o ∈ records sample -> o ∈ records df.
Proof.
  unfold len. destruct df as [rows|rows]; simpl; intros Hidx.
  - destruct (take_positions_in_range rows idx Hidx) as (rs & -> & Hlen & Hsub).
    exists (Orders rs). by repeat split.
  - rewrite length_fmap in Hidx.
    destruct (take_positions_in_range rows idx Hidx) as (rs & -> & Hlen & Hsub).
    exists (EnrichedOrders rs). simpl. rewrite length_fmap.
    repeat split; try done.
    intros o (r & -> & Hr)%list_elem_of_fmap.
    apply list_elem_of_fmap_2. by apply Hsub.
Qed.

(** The rows taken are the rows at the positions given, in their
    order. *)
Lemma take_positions_Forall2 {A} (l : list A) (idx : list nat) (rs : list A) :
  take_positions l idx = Ok rs ->
  Forall2 (fun i x => l !! i = Some x) idx rs.
Proof.
  revert rs. induction idx as [|i idx IH]; intros rs.
  { intros [= <-]. constructor. }
  simpl. destruct (l !! i) as [x|] eqn:Hx; [|done].
  fold (take_positions l idx).
  destruct (take_positions l idx) as [rs0|]; [|done].
  simpl. intros [= <-]. constructor; [done|]. by apply IH.
Qed.

Lemma DataFrame_take_rows (df sample : DataFrame) (idx : list nat) :
  DataFrame_take df idx = Ok sample ->
  Forall2 (fun i o => records df !! i = Some o) idx (records sample)
  /\ forall labels,
       col_STATUS_LABEL df = Ok labels ->
       exists labels',
         col_STATUS_LABEL sample = Ok labels'
         /\ Forall2 (fun i l => labels !! i = Some l) idx labels'.
Proof.
  destruct df as [rows|rows]; simpl.
  - destruct (take_positions rows idx) as [rs|] eqn:Hrs; [|done].
    simpl. intros [= <-]. split; [by apply take_positions_Forall2|done].
  - destruct (take_positions rows idx) as [rs|] eqn:Hrs; [|done].
    simpl. intros [= <-]. apply take_positions_Forall2 in Hrs.
    split.
    + apply Forall2_fmap_r. eapply Forall2_impl; [exact Hrs|].
      intros i r Hr. simpl. by rewrite list_lookup_fmap, Hr.
    + intros labels [= <-]. eexists. split; [reflexivity|].
      apply Forall2_fmap_r. eapply Forall2_impl; [exact Hrs|].
      intros i r Hr. simpl. by rewrite list_lookup_fmap, Hr.
Qed.

Section sampling_properties.
Variable rng_state : Type.
Variable RandomState : Z -> rng_state.
Variable choice : rng_state -> nat -> nat -> list nat * rng_state.

(** What is assumed of numpy's draw without replacement: it returns
    as many positions as asked for, all inside the population. *)
Hypothesis choice_in_range :
  forall g n size,
    (size <= n)%nat ->
    length (choice g n size).1 = size
    /\ Forall (fun i => (i < n)%nat) (choice g n size).1.

Let run := sample_table_section rng_state RandomState choice.

(** C7: the sample of a table with rows is a table of
    min(1000, len) rows, hence at most 1000, drawn with a generator
    seeded with 42: its rows are the rows of the input at the positions
    that this generator draws, in the order drawn, labels included.  The
    outcome is a function of the input table alone: it is the same for
    every state of the process-wide generator, which the call leaves
    untouched, so a second run gives the identical sample. *)
Theorem sample_table_repeatable (df : DataFrame) (g g' : rng_state) :
  let drawn := (choice (RandomState 42) (len df) (Nat.min 1000 (len df))).1 in
  (run df g).1 = (run df g').1
  /\ (run df g).2 = g
  /\ (run df (run df g).2).1 = (run df g).1
  /\ (df_empty df = true -> (run df g).1 = Ok None)
  /\ (df_empty df = false ->
      exists sample,
        (run df g).1 = Ok (Some sample)
        /\ DataFrame_take df drawn = Ok sample
        /\ Forall2 (fun i o => records df !! i = Some o) drawn (records sample)
        /\ (forall labels,
              col_STATUS_LABEL df = Ok labels ->
              exists labels',
                col_STATUS_LABEL sample = Ok labels'
                /\ Forall2 (fun i l => labels !! i = Some l) drawn labels')
        /\ len sample = Nat.min 1000 (len df)
        /\ (len sample <= 1000)%nat
        /\ columns sample = columns df
        /\ forall o, o ∈ records sample -> o ∈ records df).
Proof.
  cbv zeta. unfold run, sample_table_section, DataFrame_sample.
  destruct (df_empty df) eqn:E.
  { repeat split; done. }
  cbn [fst snd].
  do 3 (split; [done|]). split; [done|]. intros _.
  destruct (choice_in_range (RandomState 42) (len df)
              (Nat.min 1000 (len df))) as [Hlen Hrange]; [lia|].
  destruct (DataFrame_take_in_range df _ Hrange)
    as (sample & Htake & Hsize & Hcols & Hsub).
  destruct (DataFrame_take_rows df sample _ Htake) as [Hrows Hlabels].
  exists sample. rewrite Htake.
  split; [done|]. split; [done|].
  split; [exact Hrows|]. split; [exact Hlabels|].
  split; [by rewrite Hsize, Hlen|].
  split; [rewrite Hsize, Hlen; lia|]. by split.
Qed.
End sampling_properties.

Lemma counter_choice_in_range (g n size : nat) :
  (size <= n)%nat ->
  length (counter_choice g n size).1 = size
  /\ Forall (fun i => (i < n)%nat) (counter_choice g n size).1.
Proof.
  intros Hsize. unfold counter_choice. simpl. split.
  - by rewrite length_map, length_seq.
  - apply Forall_fmap, Forall_seq. intros j Hj. simpl.
    apply Nat.mod_upper_bound. lia.
Qed.

Lemma sample_table_repeatable_witness :
  (sample_table_section nat shifted_seed counter_choice scenario 0%nat).1
  = (sample_table_section nat shifted_seed counter_choice scenario 7%nat).1
  /\ exists sample,
       (sample_table_section nat shifted_seed counter_choice scenario 0%nat).1
       = Ok (Some sample)
       /\ len sample = 3%nat
       /\ Forall2 (fun i o => records scenario !! i = Some o)
                  [1%nat; 2%nat; 0%nat] (records sample).
Proof.
  destruct (sample_table_repeatable nat shifted_seed counter_choice
              counter_choice_in_range scenario 0%nat 7%nat)
    as (Hsame & _ & _ & _ & Hsample).
  split; [exact Hsame|].
  destruct (Hsample eq_refl) as (sample & Hrun & _ & Hrows & _ & Hlen & _).
  exists sample. split; [exact Hrun|]. split; [exact Hlen|exact Hrows].
Defined.

(** ** Connection parameters *)

Section connection_params.
Variable missing_key_message : string -> string.

Let params := _get_connection_params missing_key_message.

Lemma connection_params_no_file (environ : Environ) :
  params None environ = Raise FileNotFoundError.
Proof. reflexivity. Qed.

(** With a [snowflake] section the three keys are read from it in
    order; the first that is missing raises streamlit's [KeyError]. *)
Lemma secrets_missing_key (sections : gmap string (gmap string string))
    (environ : Environ) (s : gmap string string) :
  sections !! "snowflake" = Some s ->
  (exists key, key ∈ required_secret_keys /\ s !! key = None) ->
  exists key,
    key ∈ required_secret_keys /\ s !! key = None
    /\ params (Some sections) environ
       = Raise (KeyError (missing_key_message key)).
Proof.
  intros Hs (key & Hkey & Hnone).
  unfold params, _get_connection_params, secrets_contains, secrets_getitem,
    section_getitem.
  rewrite Hs. rewrite bool_decide_eq_true_2 by (by eexists). simpl.
  destruct (s !! "user") as [u|] eqn:Hu.
  2:{ exists "user". split; [by left|]. by split. }
  destruct (s !! "password") as [p|] eqn:Hp.
  2:{ exists "password". split; [right; by left|]. by split. }
  destruct (s !! "account") as [a|] eqn:Ha.
  2:{ exists "account". split; [do 2 right; by left|]. by split. }
  exfalso. unfold required_secret_keys in Hkey.
  repeat (apply elem_of_cons in Hkey as [->|Hkey]; [congruence|]).
  by apply elem_of_nil in Hkey.
Qed.

(** Without the section the three variables are read from the
    environment in order; the first that is missing is named in the
    [RuntimeError]. *)
Lemma environ_missing_key (sections : gmap string (gmap string string))
    (environ : Environ) :
  sections !! "snowflake" = None ->
  (exists key, key ∈ required_environ_keys /\ environ !! key = None) ->
  exists key,
    key ∈ required_environ_keys /\ environ !! key = None
    /\ params (Some sections) environ
       = Raise (RuntimeError (missing_message key)).
Proof.
  intros Hs (key & Hkey & Hnone).
  unfold params, _get_connection_params, secrets_contains, getitem.
  rewrite Hs. rewrite bool_decide_eq_false_2 by (by intros [? ?]). simpl.
  destruct (environ !! "SNOWFLAKE_USER") as [u|] eqn:Hu.
  2:{ exists "SNOWFLAKE_USER". split; [by left|]. split; [done|reflexivity]. }
  destruct (environ !! "SNOWFLAKE_PASSWORD") as [p|] eqn:Hp.
  2:{ exists "SNOWFLAKE_PASSWORD". split; [right; by left|]. split; [done|reflexivity]. }
  destruct (environ !! "SNOWFLAKE_ACCOUNT") as [a|] eqn:Ha.
  2:{ exists "SNOWFLAKE_ACCOUNT". split; [do 2 right; by left|]. split; [done|reflexivity]. }
  exfalso. unfold required_environ_keys in Hkey.
  repeat (apply elem_of_cons in Hkey as [->|Hkey]; [congruence|]).
  by apply elem_of_nil in Hkey.
Qed.

Lemma run_query_config_error connect cursor execute cursor_close read_sql
    conn_close (secrets : Secrets) (environ : Environ) sql params' e trace :
  params secrets environ = Raise e ->
  run_query missing_key_message connect cursor execute cursor_close read_sql
    conn_close secrets environ sql params' trace
  = (Raise e, trace).
Proof.
  unfold params. intros H. unfold run_query, io_bind, io_lift. by rewrite H.
Qed.

Lemma run_query_connect_failure connect cursor execute cursor_close read_sql
    conn_close (secrets : Secrets) (environ : Environ) sql params'
    conn_params e :
  params secrets environ = Ok conn_params ->
  connect conn_params = Raise e ->
  run_query missing_key_message connect cursor execute cursor_close read_sql
    conn_close secrets environ sql params' []
  = (Raise e, [Connect conn_params]).
Proof.
  unfold params. intros Hp Hc. unfold run_query, io_bind, io_lift, call.
  by rewrite Hp, Hc.
Qed.
End connection_params.

(** C8: when there is no secrets file, reading the connection parameters
    raises streamlit's error for the missing file at the test for the
    [snowflake] section, before the environment is looked at.  With an
    environment that lacks the password the exception does not name the
    missing field, where a secrets file without the section gives the
    [RuntimeError] that names SNOWFLAKE_PASSWORD; and it is raised for
    every environment, also a complete one, with which a secrets file
    without the section succeeds.  [run_query] raises it without a call
    on the connector. *)
Theorem no_secrets_file_hides_missing_field
    (missing_key_message : string -> string) :
  _get_connection_params missing_key_message None environ_no_password
  = Raise FileNotFoundError
  /\ _get_connection_params missing_key_message secrets_no_section
       environ_no_password
     = Raise (RuntimeError (missing_message "SNOWFLAKE_PASSWORD"))
  /\ (forall environ,
        _get_connection_params missing_key_message None environ
        = Raise FileNotFoundError)
  /\ (exists conn_params,
        _get_connection_params missing_key_message secrets_no_section
          environ_complete
        = Ok conn_params)
  /\ forall connect cursor execute cursor_close read_sql conn_close
            environ sql params,
       run_query missing_key_message connect cursor execute cursor_close
         read_sql conn_close None environ sql params []
       = (Raise FileNotFoundError, []).
Proof.
  split; [reflexivity|]. split; [reflexivity|]. split; [reflexivity|].
  split; [by eexists|]. reflexivity.
Qed.

(** ** The worked scenario *)

Example scenario_kpi :
  exists k,
    kpi_section scenario = Ok k
    /\ total_orders k = 3%nat
    /\ total_amount k = Qc_of_Z 600
    /\ avg_order_value k = Qc_of_Z 200.
Proof.
  eexists. split; [reflexivity|]. split; [reflexivity|].
  split; apply Qc_is_canon; reflexivity.
Qed.

Example scenario_filter_open :
  apply_filters (enrich_orders scenario) (mkTimestamp 1992 1 1)
    (mkTimestamp 2021 12 31) ["O"] []
  = EnrichedOrders [(order_2, "Open")].
Proof. reflexivity. Qed.

Example scenario_yearly_trend :
  exists df_year row,
    yearly_trend_section scenario = Some (df_year, [row])
    /\ map (fun r => (yr r, order_cnt r)) df_year = [(2020%Z, 2%nat); (2021%Z, 1%nat)]
    /\ map yr_total_amount df_year = [Qc_of_Z 300; Qc_of_Z 300]
    /\ yr row = 2021%Z
    /\ revenue_yoy row = Finite 0%Qc.
Proof.
  eexists _, _. split; [reflexivity|]. split; [reflexivity|].
  split; [|split; [reflexivity|]].
  - simpl. f_equal; [|f_equal]; apply Qc_is_canon; reflexivity.
  - simpl. f_equal; try (apply Qc_is_canon; reflexivity).
Qed.

(** * Further properties *)

(** ** Order of timestamps *)

Lemma ts_leb_refl (a : Timestamp) : ts_leb a a = true.
Proof.
  unfold ts_leb. rewrite !Z.ltb_irrefl. apply Z.leb_refl.
Qed.

Lemma ts_leb_total (a b : Timestamp) : ts_leb a b = true \/ ts_leb b a = true.
Proof.
  unfold ts_leb.
  destruct (Z.ltb_spec (year a) (year b)), (Z.ltb_spec (year b) (year a));
    try lia; auto.
  destruct (Z.ltb_spec (month a) (month b)), (Z.ltb_spec (month b) (month a));
    try lia; auto.
Qed.

Lemma ts_leb_trans (a b c : Timestamp) :
  ts_leb a b = true -> ts_leb b c = true -> ts_leb a c = true.
Proof.
  unfold ts_leb.
  destruct (Z.ltb_spec (year a) (year b)), (Z.ltb_spec (year b) (year a)),
    (Z.ltb_spec (year b) (year c)), (Z.ltb_spec (year c) (year b)),
    (Z.ltb_spec (year a) (year c)), (Z.ltb_spec (year c) (year a));
    try lia; try done;
  destruct (Z.ltb_spec (month a) (month b)), (Z.ltb_spec (month b) (month a)),
    (Z.ltb_spec (month b) (month c)), (Z.ltb_spec (month c) (month b)),
    (Z.ltb_spec (month a) (month c)), (Z.ltb_spec (month c) (month a));
    try lia; try done;
  destruct (Z.leb_spec (day a) (day b)), (Z.leb_spec (day b) (day c)),
    (Z.leb_spec (day a) (day c)); try lia; done.
Qed.

Lemma ts_leb_antisym (a b : Timestamp) :
  ts_leb a b = true -> ts_leb b a = true -> a = b.
Proof.
  destruct a as [ya ma da], b as [yb mb db]. unfold ts_leb. simpl.
  destruct (Z.ltb_spec ya yb), (Z.ltb_spec yb ya); try lia; try done.
  destruct (Z.ltb_spec ma mb), (Z.ltb_spec mb ma); try lia; try done.
  destruct (Z.leb_spec da db), (Z.leb_spec db da); try lia; try done.
  intros _ _. f_equal; lia.
Qed.

Global Instance ts_le_total : Total ts_le.
Proof. intros a b. apply ts_leb_total. Qed.

Global Instance ts_le_trans : Transitive ts_le.
Proof. intros a b c. apply ts_leb_trans. Qed.

Lemma foldl_ts_min_le (d : Timestamp) (s : list Timestamp) :
  ts_leb (foldl ts_min d s) d = true
  /\ forall x, x ∈ s -> ts_leb (foldl ts_min d s) x = true.
Proof.
  revert d. induction s as [|y s IH]; intros d; simpl.
  { split; [apply ts_leb_refl|]. by intros x ?%elem_of_nil. }
  destruct (IH (ts_min d y)) as [Hd Hs].
  assert (Hmin : ts_leb (ts_min d y) d = true /\ ts_leb (ts_min d y) y = true).
  { unfold ts_min. destruct (ts_leb d y) eqn:E.
    - split; [apply ts_leb_refl|done].
    - split; [|apply ts_leb_refl].
      destruct (ts_leb_total d y); congruence. }
  destruct Hmin as [Hmd Hmy].
  split; [by apply (ts_leb_trans _ _ _ Hd)|].
  intros x [->|Hx]%elem_of_cons; [by apply (ts_leb_trans _ _ _ Hd)|].
  by apply Hs.
Qed.

Lemma foldl_ts_max_ge (d : Timestamp) (s : list Timestamp) :
  ts_leb d (foldl ts_max d s) = true
  /\ forall x, x ∈ s -> ts_leb x (foldl ts_max d s) = true.
Proof.
  revert d. induction s as [|y s IH]; intros d; simpl.
  { split; [apply ts_leb_refl|]. by intros x ?%elem_of_nil. }
  destruct (IH (ts_max d y)) as [Hd Hs].
  assert (Hmax : ts_leb d (ts_max d y) = true /\ ts_leb y (ts_max d y) = true).
  { unfold ts_max. destruct (ts_leb d y) eqn:E.
    - split; [done|apply ts_leb_refl].
    - split; [apply ts_leb_refl|].
      destruct (ts_leb_total d y); congruence. }
  destruct Hmax as [Hmd Hmy].
  split; [by apply (ts_leb_trans _ _ _ Hmd)|].
  intros x [->|Hx]%elem_of_cons; [by apply (ts_leb_trans _ _ _ Hmy)|].
  by apply Hs.
Qed.

Lemma Series_min_le (s : list Timestamp) (x : Timestamp) :
  x ∈ s -> exists m, Series_min s = Some m /\ ts_leb m x = true.
Proof.
  destruct s as [|d s]; [by intros ?%elem_of_nil|]. simpl.
  destruct (foldl_ts_min_le d s) as [Hd Hs].
  intros [->|Hx]%elem_of_cons; eexists; split; try reflexivity; auto.
Qed.

Lemma Series_max_ge (s : list Timestamp) (x : Timestamp) :
  x ∈ s -> exists m, Series_max s = Some m /\ ts_leb x m = true.
Proof.
  destruct s as [|d s]; [by intros ?%elem_of_nil|]. simpl.
  destruct (foldl_ts_max_ge d s) as [Hd Hs].
  intros [->|Hx]%elem_of_cons; eexists; split; try reflexivity; auto.
Qed.

(** ** Filter stage: composition *)

Lemma restrict_all (P : Order -> Prop) `{!forall o, Decision (P o)} df :
  (forall o, o ∈ records df -> P o) -> restrict P df = df.
Proof.
  intros Hall. destruct df as [rows|rows]; simpl in *; f_equal;
    apply filter_Forall_id, Forall_forall.
  - exact Hall.
  - intros r Hr. apply Hall. by apply list_elem_of_fmap_2.
Qed.

Lemma restrict_restrict (P Q : Order -> Prop) `{!forall o, Decision (P o)}
    `{!forall o, Decision (Q o)} df :
  restrict P (restrict Q df) = restrict (fun o => P o /\ Q o) df.
Proof.
  destruct df as [rows|rows]; simpl; f_equal; apply list_filter_filter.
Qed.

Lemma apply_filters_all df start_date end_date status_list priority_list :
  (forall o, o ∈ records df ->
     in_selection start_date end_date status_list priority_list o) ->
  apply_filters df start_date end_date status_list priority_list = df.
Proof. intros H. rewrite apply_filters_restrict. by apply restrict_all. Qed.

(** X1: Two passes of the filter keep the rows that satisfy both selections,
    in either order; a second pass with the same selection changes
    nothing. *)
Theorem apply_filters_compose (df : DataFrame)
    (s1 e1 s2 e2 : Timestamp) (st1 pr1 st2 pr2 : list string) :
  apply_filters (apply_filters df s1 e1 st1 pr1) s2 e2 st2 pr2 =
    restrict (fun o => in_selection s2 e2 st2 pr2 o
                       /\ in_selection s1 e1 st1 pr1 o) df
  /\ apply_filters (apply_filters df s1 e1 st1 pr1) s2 e2 st2 pr2 =
     apply_filters (apply_filters df s2 e2 st2 pr2) s1 e1 st1 pr1
  /\ apply_filters (apply_filters df s1 e1 st1 pr1) s1 e1 st1 pr1 =
     apply_filters df s1 e1 st1 pr1
  /\ apply_filters (apply_filters df s1 e1 st1 []) s1 e1 [] pr1 =
     apply_filters df s1 e1 st1 pr1.
Proof.
  rewrite !apply_filters_restrict, !restrict_restrict.
  split; [done|].
  split; [apply restrict_iff; intros o; tauto|].
  split; apply restrict_iff; intros o; unfold in_selection; tauto.
Qed.

(** ** Sidebar controls *)

Lemma elem_of_sorted_unique (s : list string) (x : string) :
  x ∈ sorted_unique s <-> x ∈ s.
Proof. apply elem_of_group_keys. Qed.

(** X2: With the controls left at their defaults the filter keeps the whole
    table: the date range spans the dates that occur and every status
    and priority that occurs is selected. *)
Theorem sidebar_defaults_keep_all (df : DataFrame)
    (start_date end_date : Timestamp) (selected_status selected_priority : list string) :
  sidebar_filters untouched_date_input untouched_multiselect df
  = Ok (start_date, end_date, selected_status, selected_priority) ->
  apply_filters df start_date end_date selected_status selected_priority = df
  /\ (forall o, o ∈ records df ->
        ts_leb start_date (ORDER_DATE o) = true
        /\ ts_leb (ORDER_DATE o) end_date = true)
  /\ (forall c, c ∈ selected_status <-> c ∈ map STATUS (records df))
  /\ (forall c, c ∈ selected_priority <-> c ∈ map PRIORITY (records df))
  /\ (df_empty df = true ->
      start_date = mkTimestamp 1992 1 1 /\ end_date = mkTimestamp 1998 12 31).
Proof.
  unfold sidebar_filters, untouched_date_input, untouched_multiselect, unpack2.
  destruct (df_empty df) eqn:E; simpl; intros [= <- <- <- <-].
  - apply df_empty_true in E. rewrite E.
    split; [by apply apply_filters_all; rewrite E; intros o ?%elem_of_nil|].
    split; [by intros o ?%elem_of_nil|].
    split; [done|]. split; [done|]. done.
  - assert (Hdates : forall o, o ∈ records df ->
              ts_leb (default (mkTimestamp 1992 1 1)
                        (Series_min (map ORDER_DATE (records df))))
                     (ORDER_DATE o) = true
              /\ ts_leb (ORDER_DATE o)
                   (default (mkTimestamp 1998 12 31)
                      (Series_max (map ORDER_DATE (records df)))) = true).
    { intros o Ho.
      destruct (Series_min_le (map ORDER_DATE (records df)) (ORDER_DATE o))
        as (lo & -> & Hlo); [by apply list_elem_of_fmap_2|].
      destruct (Series_max_ge (map ORDER_DATE (records df)) (ORDER_DATE o))
        as (hi & -> & Hhi); [by apply list_elem_of_fmap_2|].
      by split. }
    split.
    { apply apply_filters_all. intros o Ho. destruct (Hdates o Ho) as [Hlo Hhi].
      split; [done|]. split; [done|].
      split; right; apply elem_of_sorted_unique; by apply list_elem_of_fmap_2. }
    split; [exact Hdates|].
    split; [intros c; apply elem_of_sorted_unique|].
    split; [intros c; apply elem_of_sorted_unique|]. done.
Qed.

Lemma sidebar_defaults_keep_all_witness :
  apply_filters scenario (mkTimestamp 2020 1 5) (mkTimestamp 2021 1 20)
    ["F"; "O"] ["HIGH"; "LOW"] = scenario.
Proof.
  apply (sidebar_defaults_keep_all scenario (mkTimestamp 2020 1 5)
           (mkTimestamp 2021 1 20) ["F"; "O"] ["HIGH"; "LOW"]).
  reflexivity.
Defined.

(** ** Enrichment and filtering together *)

Lemma filter_labelled (P : Order -> Prop) `{!forall o, Decision (P o)}
    (f : Order -> string) (l : list Order) :
  filter (fun r : Order * string => P r.1) (map (fun o => (o, f o)) l)
  = map (fun o => (o, f o)) (filter P l).
Proof.
  induction l as [|o l IH]; [done|]. simpl.
  rewrite !filter_cons. simpl. destruct (decide (P o)); simpl; by rewrite IH.
Qed.

Lemma enrich_orders_idempotent df :
  enrich_orders (enrich_orders df) = enrich_orders df.
Proof.
  rewrite (enrich_orders_unfold (enrich_orders df)), records_enrich_orders.
  rewrite (enrich_orders_unfold df).
  destruct (df_empty df) eqn:E; [by rewrite E|].
  apply df_empty_false in E. unfold df_empty. simpl.
  rewrite <- list_fmap_compose. simpl.
  destruct (records df); done.
Qed.

(** X3: Enriching twice is enriching once.  Enriching and then filtering a
    table of orders gives the same rows as filtering and then enriching;
    the two tables are equal when a row passes the filter, and when none
    does the first still has the STATUS_LABEL column while the second
    has not. *)
Theorem enrich_then_filter (rows : list Order)
    (start_date end_date : Timestamp) (status_list priority_list : list string) :
  let enriched_first :=
    apply_filters (enrich_orders (Orders rows)) start_date end_date
      status_list priority_list in
  let filtered_first :=
    enrich_orders (apply_filters (Orders rows) start_date end_date
                     status_list priority_list) in
  (forall df, enrich_orders (enrich_orders df) = enrich_orders df)
  /\ records enriched_first = records filtered_first
  /\ (df_empty enriched_first = false -> enriched_first = filtered_first)
  /\ (rows ≠ [] -> df_empty enriched_first = true ->
      enriched_first = EnrichedOrders [] /\ filtered_first = Orders [])
  /\ (rows ≠ [] ->
      "STATUS_LABEL" ∈ columns enriched_first
      /\ ~ raises (status_trend_section enriched_first)
      /\ ~ raises (status_priority_comparison_section enriched_first)).
Proof.
  intros enriched_first filtered_first.
  split; [apply enrich_orders_idempotent|].
  subst enriched_first filtered_first.
  rewrite !apply_filters_restrict, !enrich_orders_unfold.
  set (P := in_selection start_date end_date status_list priority_list).
  destruct rows as [|o rows].
  { simpl. repeat split; try done. }
  cbn [df_empty records restrict].
  rewrite filter_labelled.
  destruct (filter P (o :: rows)) as [|o' kept] eqn:Hkept.
  - simpl. repeat split; try done.
    + apply (bool_decide_eq_true_1 _). reflexivity.
    + intros [].
    + intros [].
  - split; [by cbn; rewrite <- list_fmap_compose, list_fmap_id|].
    split; [done|]. split; [done|]. intros _.
    split; [apply (bool_decide_eq_true_1 _); reflexivity|].
    cbn. auto.
Qed.

Lemma enrich_then_filter_witness :
  apply_filters (enrich_orders scenario) (mkTimestamp 1992 1 1)
    (mkTimestamp 1998 12 31) [] [] = EnrichedOrders []
  /\ enrich_orders (apply_filters scenario (mkTimestamp 1992 1 1)
                      (mkTimestamp 1998 12 31) [] []) = Orders [].
Proof.
  apply (enrich_then_filter [order_1; order_2; order_3]
           (mkTimestamp 1992 1 1) (mkTimestamp 1998 12 31) [] []);
    [discriminate|reflexivity].
Defined.

(** ** Totals of grouped tables *)

Section groupby_totals.
Context {A K V : Type} `{EqDecision K} (R : relation K) `{!RelDecision R}.
Context (key : A -> K) (agg : list A -> V) (l : list A).

Lemma groupby_agg_count (cnt : V -> nat) :
  (forall g, cnt (agg g) = length g) ->
  sum_list (map (fun kv => cnt kv.2) (groupby_agg R key agg l)) = length l.
Proof.
  intros Hcnt. rewrite <- (groupby_count_total R key l).
  rewrite groupby_agg_values. unfold groupby_agg. rewrite map_map.
  f_equal. apply map_ext. intros k. apply Hcnt.
Qed.

Lemma groupby_agg_group_nonempty k v :
  (k, v) ∈ groupby_agg R key agg l ->
  (0 < length (filter (fun x => key x = k) l))%nat.
Proof.
  intros [Hk _]%elem_of_groupby_agg.
  apply list_elem_of_fmap in Hk as (x & -> & Hx).
  assert (Hin : x ∈ filter (fun y => key y = key x) l)
    by (by apply list_elem_of_filter).
  destruct (filter _ l); [by apply elem_of_nil in Hin|simpl; lia].
Qed.

Lemma groupby_agg_Sorted `{!Total R} :
  Sorted R (groupby_agg R key agg l).*1 /\ NoDup (groupby_agg R key agg l).*1.
Proof.
  rewrite groupby_agg_keys. split.
  - apply Sorted_group_keys; apply _.
  - apply NoDup_group_keys.
Qed.
End groupby_totals.

(** ** Monthly time series *)

(** X4: On a table with rows the monthly series has one bucket per month in
    which an order falls, in chronological order and dated the first of
    the month; the order count of a bucket is the number of orders of
    its month, so no bucket is empty, and the counts add up to the
    order count of the table. *)
Theorem time_series_section_counts (df : DataFrame) :
  df_empty df = false ->
  exists df_month,
    time_series_section df = Some df_month
    /\ sum_list (map (fun b => b.2.1) df_month) = len df
    /\ Sorted ts_le df_month.*1
    /\ NoDup df_month.*1
    /\ (forall m,
          m ∈ df_month.*1
          <-> exists o, o ∈ records df /\ to_month_start (ORDER_DATE o) = m)
    /\ (forall m cnt amount,
          (m, (cnt, amount)) ∈ df_month ->
          day m = 1%Z
          /\ (1 <= cnt)%nat
          /\ cnt = length (filter (fun o => to_month_start (ORDER_DATE o) = m)
                                  (records df))).
Proof.
  intros E. unfold time_series_section. rewrite E.
  eexists. split; [reflexivity|].
  split.
  { apply (groupby_agg_count _ _ _ _ (fun v => v.1)). intros g.
    apply length_map. }
  split; [apply groupby_agg_Sorted; apply _|].
  split; [apply groupby_agg_Sorted; apply _|].
  split.
  { intros m. rewrite groupby_agg_keys, elem_of_group_keys, list_elem_of_fmap.
    split.
    - intros (o & -> & Ho). by exists o.
    - intros (o & Ho & <-). by exists o. }
  intros m cnt amount Hin.
  pose proof (groupby_agg_group_nonempty _ _ _ _ _ _ Hin) as Hpos.
  apply elem_of_groupby_agg in Hin as [Hm [= -> ->]].
  apply list_elem_of_fmap in Hm as (o & -> & _).
  unfold count_ORDER_KEY. rewrite length_map. repeat split; done.
Qed.

Lemma time_series_section_counts_witness :
  exists df_month,
    time_series_section scenario = Some df_month
    /\ df_month.*1
       = [mkTimestamp 2020 1 1; mkTimestamp 2020 2 1; mkTimestamp 2021 1 1]
    /\ sum_list (map (fun b => b.2.1) df_month) = 3%nat.
Proof.
  destruct (time_series_section_counts scenario eq_refl)
    as (df_month & Hrun & Hcnt & _).
  exists df_month. split; [exact Hrun|]. split; [|exact Hcnt].
  by injection Hrun as <-.
Defined.

(** ** KPI summary of a table with rows *)

Lemma length_remove_dups_le `{EqDecision A} (l : list A) :
  (length (remove_dups l) <= length l)%nat.
Proof.
  induction l as [|x l IH]; simpl; [done|].
  destruct (decide_rel elem_of x l); simpl.
  - by apply Nat.le_le_succ_r.
  - by apply le_n_S.
Qed.

Lemma remove_dups_nonempty `{EqDecision A} (l : list A) :
  l ≠ [] -> (0 < length (remove_dups l))%nat.
Proof.
  destruct l as [|x l]; [done|]. intros _.
  assert (Hx : x ∈ remove_dups (x :: l)) by (apply elem_of_remove_dups; by left).
  destruct (remove_dups (x :: l)); [by apply elem_of_nil in Hx|].
  apply Nat.lt_0_succ.
Qed.

Lemma Qc_of_nat_le (n m : nat) : (n <= m)%nat -> (Qc_of_nat n ≤ Qc_of_nat m)%Qc.
Proof. intros H. unfold Qc_of_nat. apply (proj1 (Z2Qc_inj_le _ _)). lia. Qed.

Lemma Qc_of_nat_pos (n : nat) : (0 < n)%nat -> (0 < Qc_of_nat n)%Qc.
Proof.
  intros H. unfold Qc_of_nat. rewrite <- Z2Qc_inj_0.
  apply (proj1 (Z2Qc_inj_lt _ _)). lia.
Qed.

Lemma kpi_section_nonempty df :
  df_empty df = false ->
  kpi_section df =
  Ok {| total_orders := len df;
        total_amount := sum_TOTAL_PRICE (records df);
        avg_order_value := (sum_TOTAL_PRICE (records df) / Qc_of_nat (len df))%Qc;
        distinct_days := nunique (map ORDER_DATE (records df));
        orders_per_day :=
          (Qc_of_nat (len df)
           / Qc_of_nat (nunique (map ORDER_DATE (records df))))%Qc;
        median_order_value := Series_median (map TOTAL_PRICE (records df));
        p90_order_value :=
          Series_quantile (map TOTAL_PRICE (records df))
            (Qc_of_Z 9 / Qc_of_Z 10)%Qc |}
  /\ (0 < len df)%nat
  /\ (0 < nunique (map ORDER_DATE (records df)))%nat.
Proof.
  intros E.
  assert (Hlen : (0 < len df)%nat).
  { apply df_empty_false in E. unfold len. destruct (records df); [done|].
    simpl. lia. }
  assert (Hdays : (0 < nunique (map ORDER_DATE (records df)))%nat).
  { apply remove_dups_nonempty. apply df_empty_false in E.
    destruct (records df); done. }
  split; [|by split].
  unfold kpi_section, float, sum_TOTAL_PRICE. rewrite E. simpl.
  apply Nat.ltb_lt in Hlen as Hlen'. rewrite Hlen'.
  rewrite (py_truediv_nonzero _ _ (Qc_of_nat_nonzero _ Hlen)). simpl.
  apply Nat.ltb_lt in Hdays as Hdays'. rewrite Hdays'.
  by rewrite (py_truediv_nonzero _ _ (Qc_of_nat_nonzero _ Hdays)).
Qed.

(** X5: On a table with rows the KPI summary reports the number of rows as
    the total orders and the number of distinct order dates as the
    active days, of which there is at least one and at most as many as
    orders; the orders per active day are at least 1 and at most the
    order count, and exactly 1 when every order has a day of its own. *)
Theorem kpi_section_counts (df : DataFrame) :
  df_empty df = false ->
  exists k,
    kpi_section df = Ok k
    /\ total_orders k = len df
    /\ distinct_days k = length (remove_dups (map ORDER_DATE (records df)))
    /\ (forall d, d ∈ remove_dups (map ORDER_DATE (records df))
                  <-> exists o, o ∈ records df /\ ORDER_DATE o = d)
    /\ (1 <= distinct_days k <= total_orders k)%nat
    /\ (1 ≤ orders_per_day k)%Qc
    /\ (orders_per_day k ≤ Qc_of_nat (total_orders k))%Qc
    /\ (distinct_days k = total_orders k -> orders_per_day k = 1%Qc).
Proof.
  intros E. destruct (kpi_section_nonempty df E) as (-> & Hlen & Hdays).
  eexists. split; [reflexivity|]. simpl.
  pose proof (Qc_of_nat_nonzero _ Hlen) as Hn.
  pose proof (Qc_of_nat_nonzero _ Hdays) as Hd.
  assert (Hle : (nunique (map ORDER_DATE (records df)) <= len df)%nat).
  { unfold nunique, len.
    etransitivity; [apply length_remove_dups_le|]. by rewrite length_map. }
  split; [done|]. split; [done|].
  split.
  { intros d. rewrite elem_of_remove_dups, list_elem_of_fmap. split.
    - intros (o & -> & Ho). by exists o.
    - intros (o & Ho & <-). by exists o. }
  split; [unfold nunique in *; lia|].
  split.
  { apply (Qcmult_le_mono_pos_r _ _ _ (Qc_of_nat_pos _ Hdays)).
    replace (Qc_of_nat (len df) / Qc_of_nat (nunique (map ORDER_DATE (records df)))
             * Qc_of_nat (nunique (map ORDER_DATE (records df))))%Qc
      with (Qc_of_nat (len df)) by (field; exact Hd).
    rewrite Qcmult_1_l. by apply Qc_of_nat_le. }
  split.
  { apply (Qcmult_le_mono_pos_r _ _ _ (Qc_of_nat_pos _ Hdays)).
    replace (Qc_of_nat (len df) / Qc_of_nat (nunique (map ORDER_DATE (records df)))
             * Qc_of_nat (nunique (map ORDER_DATE (records df))))%Qc
      with (Qc_of_nat (len df)) by (field; exact Hd).
    rewrite <- (Qcmult_1_r (Qc_of_nat (len df))) at 1.
    apply Qcmult_le_mono_nonneg_l.
    - apply Qclt_le_weak. by apply Qc_of_nat_pos.
    - replace 1%Qc with (Qc_of_nat 1) by (apply Qc_is_canon; reflexivity).
      apply Qc_of_nat_le. lia. }
  intros Heq. fold (nunique (map ORDER_DATE (records df))) in Heq.
  rewrite Heq. field. exact Hn.
Qed.

Lemma kpi_section_counts_witness :
  exists k,
    kpi_section scenario = Ok k
    /\ total_orders k = 3%nat
    /\ distinct_days k = 3%nat
    /\ orders_per_day k = 1%Qc.
Proof.
  destruct (kpi_section_counts scenario eq_refl)
    as (k & Hrun & Hn & Hd & _ & _ & _ & _ & Hone).
  exists k. split; [exact Hrun|]. split; [exact Hn|]. split; [exact Hd|].
  apply Hone. by rewrite Hn, Hd.
Defined.

(** ** Yearly table, year tabs and seasonality *)

Lemma rows_after_counts prev groups :
  map order_cnt (rows_after prev groups) = map (fun g => g.2.1) groups
  /\ map yr_total_amount (rows_after prev groups) = map (fun g => g.2.2) groups.
Proof.
  revert prev. induction groups as [|g groups IH]; intros prev; [done|].
  simpl. destruct (IH g.2.2) as [-> ->]. done.
Qed.

Lemma year_table_counts groups :
  map order_cnt (year_table groups) = map (fun g => g.2.1) groups
  /\ map yr_total_amount (year_table groups) = map (fun g => g.2.2) groups.
Proof.
  destruct groups as [|g groups]; [done|]. simpl.
  destruct (rows_after_counts g.2.2 groups) as [-> ->]. done.
Qed.

Lemma year_frame_restrict df y :
  year_frame df y = restrict (fun o => year (ORDER_DATE o) = y) df.
Proof.
  unfold year_frame. apply getitem_mask_restrict. intros o.
  apply bool_decide_eq_true.
Qed.

Lemma Series_sum_pos (s : list Qc) :
  Forall (fun x => (0 < x)%Qc) s -> s ≠ [] -> (0 < Series_sum s)%Qc.
Proof.
  assert (Hnonneg : forall l : list Qc,
            Forall (fun x => (0 < x)%Qc) l -> (0 ≤ Series_sum l)%Qc).
  { induction 1 as [|x l Hx _ IH]; simpl; [apply Qcle_refl|].
    replace 0%Qc with (0 + 0)%Qc by ring.
    apply Qcplus_le_compat; [by apply Qclt_le_weak|done]. }
  destruct s as [|x s]; [done|]. intros Hall _.
  inversion Hall as [|? ? Hx Hs]; subst. simpl.
  apply Qclt_le_trans with x; [done|].
  rewrite <- (Qcplus_0_r x) at 1.
  apply Qcplus_le_compat; [apply Qcle_refl|by apply Hnonneg].
Qed.

(** X6: The yearly table has one row per year in which an order falls, in
    ascending order; the order count of a row is the number of orders of
    its year, at least one, and the counts add up to the order count of
    the table.  The first row has no growth and is not in the growth
    series, which lists rows of the table only and so has at most N-1
    entries for N years; when every price is positive it is the table
    without its first row and has exactly N-1 entries. *)
Theorem yearly_trend_rows (df : DataFrame) :
  df_empty df = false ->
  exists df_year df_yoy,
    yearly_trend_section df = Some (df_year, df_yoy)
    /\ map yr df_year = group_keys Z.le (years_of df)
    /\ Sorted Z.le (map yr df_year)
    /\ NoDup (map yr df_year)
    /\ (forall y, y ∈ map yr df_year <-> y ∈ years_of df)
    /\ length df_year = nunique (years_of df)
    /\ sum_list (map order_cnt df_year) = len df
    /\ (forall row,
          row ∈ df_year ->
          (1 <= order_cnt row)%nat
          /\ order_cnt row =
               length (filter (fun o => year (ORDER_DATE o) = yr row)
                              (records df)))
    /\ (forall first,
          df_year !! 0%nat = Some first ->
          revenue_yoy first = NaN /\ yr first ∉ map yr df_yoy)
    /\ df_yoy = filter has_yoy df_year
    /\ (forall row, row ∈ df_yoy -> row ∈ df_year)
    /\ (length df_yoy <= nunique (years_of df) - 1)%nat
    /\ ((forall o, o ∈ records df -> (0 < TOTAL_PRICE o)%Qc) ->
        df_yoy = tail df_year
        /\ length df_yoy = (nunique (years_of df) - 1)%nat).
Proof.
  intros E. rewrite (yearly_trend_section_unfold df E).
  set (G := year_groups (records df)).
  assert (Hkeys : map yr (year_table G) = group_keys Z.le (years_of df)).
  { rewrite year_table_years. unfold G, year_groups.
    by rewrite groupby_agg_keys. }
  assert (Hnd : NoDup (map yr (year_table G))).
  { rewrite Hkeys. apply NoDup_group_keys. }
  assert (Hlen : length (year_table G) = nunique (years_of df)).
  { rewrite <- (length_map yr), Hkeys. apply length_group_keys. }
  assert (Hin : forall y, y ∈ map yr (year_table G) <-> y ∈ years_of df).
  { intros y. rewrite Hkeys. apply elem_of_group_keys. }
  destruct (year_table_counts G) as [Hc _].
  eexists _, _. split; [reflexivity|].
  split; [exact Hkeys|].
  split; [rewrite Hkeys; apply Sorted_group_keys; apply _|].
  split; [exact Hnd|].
  split; [exact Hin|].
  split; [exact Hlen|].
  split.
  { rewrite Hc. unfold G, year_groups.
    apply (groupby_agg_count _ _ _ _ (fun v => v.1)). intros g.
    apply length_map. }
  split.
  { intros row Hrow. apply year_table_group in Hrow.
    pose proof (groupby_agg_group_nonempty _ _ _ _ _ _ Hrow) as Hpos.
    unfold G, year_groups in Hrow.
    apply elem_of_groupby_agg in Hrow as [_ [= -> _]].
    unfold count_ORDER_KEY. by rewrite length_map. }
  split.
  { intros first Hfirst. split; [by apply (year_table_first G)|].
    rewrite year_table_filter. intros Hy.
    apply list_elem_of_fmap in Hy as (row & Hyr & Hrow).
    apply list_elem_of_filter in Hrow as [_ Hrow].
    destruct (year_table G) as [|r0 rest]; [done|].
    simpl in *. injection Hfirst as ->.
    apply (NoDup_cons_1_1 _ _ Hnd). rewrite Hyr.
    by apply list_elem_of_fmap_2. }
  split; [reflexivity|].
  split.
  { intros row Hrow. by apply list_elem_of_filter in Hrow as [_ Hrow]. }
  split.
  { rewrite year_table_filter, <- Hlen.
    pose proof (length_filter has_yoy (tail (year_table G))) as Hf.
    destruct (year_table G); simpl in *; lia. }
  intros Hprices.
  assert (Hrev : forall row, row ∈ year_table G -> (0 < yr_total_amount row)%Qc).
  { intros row Hrow. apply year_table_group in Hrow.
    pose proof (groupby_agg_group_nonempty _ _ _ _ _ _ Hrow) as Hpos.
    unfold G, year_groups in Hrow.
    apply elem_of_groupby_agg in Hrow as [_ [= _ ->]].
    cbv beta in Hpos. unfold sum_TOTAL_PRICE.
    apply Series_sum_pos.
    - apply Forall_fmap, Forall_forall.
      intros o [_ Ho]%list_elem_of_filter. by apply Hprices.
    - intros Hnil. apply fmap_nil_inv in Hnil. rewrite Hnil in Hpos.
      simpl in Hpos. lia. }
  rewrite year_table_filter.
  rewrite filter_Forall_id.
  - split; [reflexivity|]. rewrite <- Hlen.
    destruct (year_table G); simpl; lia.
  - apply year_table_tail_has_yoy. intros i before row Hb Hr [Hzero _].
    apply list_elem_of_lookup_2, Hrev in Hb. rewrite Hzero in Hb.
    by apply (Qclt_not_eq 0 0) in Hb.
Qed.

Lemma yearly_trend_rows_witness :
  exists df_year df_yoy,
    yearly_trend_section scenario = Some (df_year, df_yoy)
    /\ map yr df_year = [2020%Z; 2021%Z]
    /\ sum_list (map order_cnt df_year) = 3%nat
    /\ df_yoy = tail df_year
    /\ length df_yoy = 1%nat.
Proof.
  destruct (yearly_trend_rows scenario eq_refl)
    as (df_year & df_yoy & Hrun & Hyears & _ & _ & _ & _ & Hcnt & _ & _ & _
        & _ & _ & Hpos).
  exists df_year, df_yoy. split; [exact Hrun|]. split; [exact Hyears|].
  split; [exact Hcnt|]. apply Hpos.
  intros o Ho. unfold scenario in Ho. simpl in Ho.
  repeat (apply elem_of_cons in Ho as [->|Ho]; [by vm_compute|]).
  by apply elem_of_nil in Ho.
Defined.

(** X7: The detail tab of a year shows the orders of that year only, at least
    one, with the columns of the table, and its KPI summary repeats the
    order count that the yearly table of the overview has for that
    year. *)
Theorem year_tab_agrees_with_yearly_table (df : DataFrame) :
  df_empty df = false ->
  exists df_year df_yoy,
    yearly_trend_section df = Some (df_year, df_yoy)
    /\ map yr df_year = group_keys Z.le (years_of df)
    /\ forall row,
         row ∈ df_year ->
         records (year_frame df (yr row))
         = filter (fun o => year (ORDER_DATE o) = yr row) (records df)
         /\ df_empty (year_frame df (yr row)) = false
         /\ columns (year_frame df (yr row)) = columns df
         /\ exists k,
              kpi_section (year_frame df (yr row)) = Ok k
              /\ total_orders k = order_cnt row.
Proof.
  intros E. rewrite (yearly_trend_section_unfold df E).
  eexists _, _. split; [reflexivity|].
  split.
  { rewrite year_table_years. unfold year_groups. by rewrite groupby_agg_keys. }
  intros row Hrow. apply year_table_group in Hrow.
  pose proof (groupby_agg_group_nonempty _ _ _ _ _ _ Hrow) as Hpos.
  apply elem_of_groupby_agg in Hrow as [_ [= Hc Hs]].
  assert (Hrec : records (year_frame df (yr row))
                 = filter (fun o => year (ORDER_DATE o) = yr row) (records df)).
  { by rewrite year_frame_restrict, records_restrict. }
  assert (Hne : df_empty (year_frame df (yr row)) = false).
  { apply df_empty_false. rewrite Hrec. intros Hnil. cbv beta in Hpos.
    rewrite Hnil in Hpos. simpl in Hpos. lia. }
  split; [exact Hrec|]. split; [exact Hne|].
  split; [rewrite year_frame_restrict; by destruct df|].
  destruct (kpi_section_nonempty _ Hne) as (-> & _).
  eexists. split; [reflexivity|]. simpl.
  unfold len. rewrite Hrec, Hc. unfold count_ORDER_KEY.
  by rewrite length_map.
Qed.

Lemma year_tab_agrees_with_yearly_table_witness :
  exists df_year df_yoy,
    yearly_trend_section scenario = Some (df_year, df_yoy)
    /\ map yr df_year = [2020%Z; 2021%Z].
Proof.
  destruct (year_tab_agrees_with_yearly_table scenario eq_refl)
    as (df_year & df_yoy & Hrun & Hyears & _).
  exists df_year, df_yoy. split; [exact Hrun|exact Hyears].
Defined.

Lemma filter_fmap_comm {A B} (f : A -> B) (P : B -> Prop)
    `{!forall y, Decision (P y)} (l : list A) :
  filter P (map f l) = map f (filter (fun x => P (f x)) l).
Proof.
  induction l as [|x l IH]; [done|]. simpl.
  rewrite !filter_cons. destruct (decide (P (f x))); simpl; by rewrite IH.
Qed.

Lemma NoDup_filter_keys {K} (P : K -> Prop) `{!forall k, Decision (P k)}
    (keys : list K) :
  NoDup keys -> NoDup (filter P keys).
Proof.
  induction 1 as [|k keys Hk Hnd IH]; [constructor|].
  rewrite filter_cons. destruct (decide (P k)); [|done].
  constructor; [|done]. by intros [_ ?]%list_elem_of_filter.
Qed.

(** The counts of the groups of a finer key that fall under one value of
    a coarser key add up to the count of the group of the coarser key. *)
Lemma groupby_refines_count {A K1 K2} `{EqDecision K1, EqDecision K2}
    (R : relation K2) `{!RelDecision R} (fine : A -> K2)
    (coarse : A -> K1) (of_fine : K2 -> K1) (rows : list A) (c : K1) :
  (forall o, of_fine (fine o) = coarse o) ->
  sum_list
    (map snd (filter (fun g => of_fine g.1 = c)
                     (groupby_agg R fine (fun g => length g) rows)))
  = length (filter (fun o => coarse o = c) rows).
Proof.
  intros Hkey. unfold groupby_agg.
  rewrite (filter_fmap_comm _ (fun g : K2 * nat => of_fine g.1 = c)).
  rewrite map_map. simpl.
  set (keys := filter (fun k => of_fine k = c) (group_keys R (map fine rows))).
  rewrite sum_list_foldr, (length_foldr (filter _ rows)).
  rewrite <- (total_by_groups Nat.add O fine (fun _ => 1%nat) keys
                (filter (fun o => coarse o = c) rows)).
  - f_equal. apply Forall_fmap_ext_1, Forall_forall. intros k Hk.
    apply list_elem_of_filter in Hk as [Hk _].
    rewrite length_foldr. do 2 f_equal.
    rewrite list_filter_filter. apply list_filter_iff. intros o.
    split; [|tauto]. intros Ho. split; [done|].
    by rewrite <- Hkey, Ho.
  - apply NoDup_filter_keys, NoDup_group_keys.
  - intros o [Hc Ho]%list_elem_of_filter. apply list_elem_of_filter.
    split; [by rewrite Hkey|].
    apply elem_of_group_keys. by apply list_elem_of_fmap_2.
Qed.

Global Instance lex_le_total {A B} `{EqDecision A} (RA : relation A)
  (RB : relation B) `{!Total RA, !Total RB} : Total (lex_le RA RB).
Proof.
  intros a b. unfold lex_le.
  destruct (decide (a.1 = b.1)) as [Heq|Hne].
  - rewrite decide_True by done. apply (total RB).
  - rewrite decide_False by (by intros ?). apply (total RA).
Qed.

(** X8: The seasonality table has one row per (year, month) in which an
    order falls, ordered by year and then by month; the years it lists
    are exactly the years of the yearly table, so it has at least as
    many rows as the yearly table, and at most as many as there are
    orders. *)
Theorem seasonality_refines_yearly (df : DataFrame) :
  df_empty df = false ->
  exists df_my df_year df_yoy,
    yearly_month_comparison_section df = Some df_my
    /\ yearly_trend_section df = Some (df_year, df_yoy)
    /\ NoDup df_my.*1
    /\ Sorted (lex_le Z.le Z.le) df_my.*1
    /\ (forall y m, (y, m) ∈ df_my.*1 <->
          exists o, o ∈ records df
                    /\ year (ORDER_DATE o) = y /\ month (ORDER_DATE o) = m)
    /\ (forall y, (exists m, (y, m) ∈ df_my.*1) <-> y ∈ map yr df_year)
    /\ (length df_year <= length df_my <= len df)%nat.
Proof.
  intros E. unfold yearly_month_comparison_section.
  rewrite E, (yearly_trend_section_unfold df E).
  eexists _, _, _. split; [reflexivity|]. split; [reflexivity|].
  split; [rewrite groupby_agg_keys; apply NoDup_group_keys|].
  split; [apply groupby_agg_Sorted; apply _|].
  assert (Hcells : forall y m,
            (y, m) ∈ (groupby_agg (lex_le Z.le Z.le)
                        (fun o => (year (ORDER_DATE o), month (ORDER_DATE o)))
                        sum_TOTAL_PRICE (records df)).*1
            <-> exists o, o ∈ records df
                          /\ year (ORDER_DATE o) = y /\ month (ORDER_DATE o) = m).
  { intros y m. rewrite groupby_agg_keys, elem_of_group_keys, list_elem_of_fmap.
    split.
    - intros (o & [= -> ->] & Ho). by exists o.
    - intros (o & Ho & <- & <-). by exists o. }
  assert (Hyears : forall y,
            y ∈ map yr (year_table (year_groups (records df)))
            <-> exists o, o ∈ records df /\ year (ORDER_DATE o) = y).
  { intros y. rewrite year_table_years. unfold year_groups.
    rewrite groupby_agg_keys, elem_of_group_keys, list_elem_of_fmap.
    split.
    - intros (o & -> & Ho). by exists o.
    - intros (o & Ho & <-). by exists o. }
  split; [exact Hcells|].
  split.
  { intros y. rewrite Hyears. split.
    - intros (m & (o & Ho & Hy & _)%Hcells). by exists o.
    - intros (o & Ho & Hy). exists (month (ORDER_DATE o)). apply Hcells.
      by exists o. }
  split.
  - transitivity
      (length (((groupby_agg (lex_le Z.le Z.le)
                   (fun o => (year (ORDER_DATE o), month (ORDER_DATE o)))
                   sum_TOTAL_PRICE (records df)).*1).*1));
      [|by rewrite !length_map].
    rewrite <- (length_map yr).
    apply submseteq_length, NoDup_submseteq.
    + rewrite year_table_years. unfold year_groups.
      rewrite groupby_agg_keys. apply NoDup_group_keys.
    + intros y (o & Ho & Hy)%Hyears.
      apply list_elem_of_fmap. exists (y, month (ORDER_DATE o)).
      split; [done|]. apply Hcells. by exists o.
  - rewrite <- (length_map fst), groupby_agg_keys. unfold group_keys, len.
    rewrite merge_sort_Permutation.
    etransitivity; [apply length_remove_dups_le|]. by rewrite length_map.
Qed.

Lemma seasonality_refines_yearly_witness :
  exists df_my,
    yearly_month_comparison_section scenario = Some df_my
    /\ df_my.*1 = [(2020%Z, 1%Z); (2020%Z, 2%Z); (2021%Z, 1%Z)].
Proof.
  destruct (seasonality_refines_yearly scenario eq_refl)
    as (df_my & df_year & df_yoy & Hrun & _).
  exists df_my. split; [exact Hrun|]. by injection Hrun as <-.
Defined.

(** ** Distribution, comparison and trend by status *)

Global Instance string_le_total : Total string_le.
Proof. intros a b. apply String.leb_total. Qed.

(** X9: Both count tables of the distribution list exactly the codes that
    occur, each once and in ascending order, with the number of orders
    that carry the code, which is at least one; the counts of each table
    add up to the order count. *)
Theorem distribution_section_counts (df : DataFrame) :
  df_empty df = false ->
  exists status_cnt priority_cnt,
    distribution_section df = Some (status_cnt, priority_cnt)
    /\ sum_list status_cnt.*2 = len df
    /\ sum_list priority_cnt.*2 = len df
    /\ Sorted string_le status_cnt.*1 /\ NoDup status_cnt.*1
    /\ Sorted string_le priority_cnt.*1 /\ NoDup priority_cnt.*1
    /\ (forall s n,
          (s, n) ∈ status_cnt
          <-> s ∈ map STATUS (records df)
              /\ n = length (filter (fun o => STATUS o = s) (records df)))
    /\ (forall p n,
          (p, n) ∈ priority_cnt
          <-> p ∈ map PRIORITY (records df)
              /\ n = length (filter (fun o => PRIORITY o = p) (records df)))
    /\ (forall s n, (s, n) ∈ status_cnt -> (1 <= n)%nat)
    /\ (forall p n, (p, n) ∈ priority_cnt -> (1 <= n)%nat).
Proof.
  intros E. unfold distribution_section. rewrite E.
  eexists _, _. split; [reflexivity|].
  split.
  { rewrite (groupby_agg_ext _ _ _ (fun g => length g))
      by (intros g; apply length_map).
    apply groupby_count_total. }
  split.
  { rewrite (groupby_agg_ext _ _ _ (fun g => length g))
      by (intros g; apply length_map).
    apply groupby_count_total. }
  split; [apply groupby_agg_Sorted; apply _|].
  split; [apply groupby_agg_Sorted; apply _|].
  split; [apply groupby_agg_Sorted; apply _|].
  split; [apply groupby_agg_Sorted; apply _|].
  split.
  { intros s n. rewrite elem_of_groupby_agg. unfold count_ORDER_KEY.
    by rewrite length_map. }
  split.
  { intros p n. rewrite elem_of_groupby_agg. unfold count_ORDER_KEY.
    by rewrite length_map. }
  split.
  - intros s n Hin.
    pose proof (groupby_agg_group_nonempty _ _ _ _ _ _ Hin) as Hpos.
    apply elem_of_groupby_agg in Hin as [_ ->].
    unfold count_ORDER_KEY. by rewrite length_map.
  - intros p n Hin.
    pose proof (groupby_agg_group_nonempty _ _ _ _ _ _ Hin) as Hpos.
    apply elem_of_groupby_agg in Hin as [_ ->].
    unfold count_ORDER_KEY. by rewrite length_map.
Qed.

Lemma distribution_section_counts_witness :
  exists status_cnt priority_cnt,
    distribution_section scenario = Some (status_cnt, priority_cnt)
    /\ status_cnt = [("F", 2%nat); ("O", 1%nat)]
    /\ sum_list priority_cnt.*2 = 3%nat.
Proof.
  destruct (distribution_section_counts scenario eq_refl)
    as (sc & pc & Hrun & _ & Hsum & _).
  exists sc, pc. split; [exact Hrun|]. split; [|exact Hsum].
  by injection Hrun as <- _.
Defined.

Lemma labelled_rows_enriched rows :
  labelled_rows (EnrichedOrders rows) = Ok rows.
Proof.
  unfold labelled_rows, col_STATUS_LABEL, rbind, records.
  by rewrite zip_fst_snd.
Qed.

(** X10: On a labelled table with rows the per-status statistics list
    exactly the labels that occur, each once and in ascending order,
    with the number of orders that carry the label, at least one; the
    counts per (priority, label) are the numbers of orders with that
    priority and label; both tables of counts add up to the order
    count, and the counts of one label over the priorities add up to
    the count that the per-status statistics have for the label. *)
Theorem status_priority_comparison_counts (rows : list (Order * string)) :
  rows ≠ [] ->
  exists status_stats priority_status,
    status_priority_comparison_section (EnrichedOrders rows)
    = Ok (Some (status_stats, priority_status))
    /\ sum_list (map (fun s => s.2.1.2) status_stats) = length rows
    /\ sum_list priority_status.*2 = length rows
    /\ Sorted string_le status_stats.*1 /\ NoDup status_stats.*1
    /\ Sorted (lex_le string_le string_le) priority_status.*1
    /\ NoDup priority_status.*1
    /\ (forall label, label ∈ status_stats.*1 <-> label ∈ rows.*2)
    /\ (forall label avg_value cnt amount,
          (label, (avg_value, cnt, amount)) ∈ status_stats ->
          (1 <= cnt)%nat
          /\ cnt = length (filter (fun r => r.2 = label) rows)
          /\ sum_list (map snd (filter (fun c => c.1.2 = label)
                                       priority_status)) = cnt)
    /\ (forall p label n,
          ((p, label), n) ∈ priority_status
          <-> (exists r, r ∈ rows /\ PRIORITY r.1 = p /\ r.2 = label)
              /\ n = length (filter (fun r => PRIORITY r.1 = p /\ r.2 = label)
                                    rows)).
Proof.
  intros Hne. unfold status_priority_comparison_section.
  assert (E : df_empty (EnrichedOrders rows) = false).
  { apply df_empty_false. simpl. by destruct rows. }
  rewrite E, labelled_rows_enriched. simpl.
  rewrite (groupby_agg_ext (lex_le string_le string_le) _ _
             (fun g => length g))
    by (intros g; unfold count_ORDER_KEY; by rewrite !length_map).
  eexists _, _. split; [reflexivity|].
  split.
  { apply (groupby_agg_count _ _ _ _ (fun v => v.1.2)). intros g. simpl.
    unfold count_ORDER_KEY. by rewrite !length_map. }
  split; [apply groupby_count_total|].
  split; [apply groupby_agg_Sorted; apply _|].
  split; [apply groupby_agg_Sorted; apply _|].
  split; [apply groupby_agg_Sorted; apply _|].
  split; [apply groupby_agg_Sorted; apply _|].
  split.
  { intros label. by rewrite groupby_agg_keys, elem_of_group_keys. }
  split.
  { intros label avg_value cnt amount Hin.
    pose proof (groupby_agg_group_nonempty _ _ _ _ _ _ Hin) as Hpos.
    apply elem_of_groupby_agg in Hin as [_ [= -> -> ->]].
    cbv beta in Hpos. unfold count_ORDER_KEY. rewrite !length_map.
    split; [done|]. split; [done|].
    apply (groupby_refines_count _ _ (fun r : Order * string => r.2) snd).
    done. }
  intros p label n. rewrite elem_of_groupby_agg, list_elem_of_fmap.
  assert (Hfilter : filter (fun r : Order * string => (PRIORITY r.1, r.2) = (p, label)) rows
                    = filter (fun r => PRIORITY r.1 = p /\ r.2 = label) rows).
  { apply list_filter_iff. intros r. split.
    - by intros [= -> ->].
    - by intros [-> ->]. }
  rewrite Hfilter. split.
  - intros [(r & [= -> ->] & Hr) ->]. split; [by exists r|done].
  - intros [(r & Hr & <- & <-) ->]. split; [by exists r|done].
Qed.

Lemma status_priority_comparison_counts_witness :
  exists status_stats priority_status,
    status_priority_comparison_section (enrich_orders scenario)
    = Ok (Some (status_stats, priority_status))
    /\ priority_status
       = [(("HIGH", "Filled"), 2%nat); (("LOW", "Open"), 1%nat)]
    /\ sum_list priority_status.*2 = 3%nat.
Proof.
  destruct (status_priority_comparison_counts
              [(order_1, "Filled"); (order_2, "Open"); (order_3, "Filled")])
    as (ss & ps & Hrun & _ & Hsum & _); [discriminate|].
  exists ss, ps. split; [exact Hrun|]. split; [|exact Hsum].
  by injection Hrun as _ <-.
Defined.

(** X11: On a labelled table with rows the status trend has one point per
    (month, label) that occurs, dated the first of the month, ordered by
    month and then by label; its months are exactly the months of the
    monthly series of the same table, and it has at most as many points
    as there are orders. *)
Theorem status_trend_points (rows : list (Order * string)) :
  rows ≠ [] ->
  exists df_status df_month,
    status_trend_section (EnrichedOrders rows) = Ok (Some df_status)
    /\ time_series_section (EnrichedOrders rows) = Some df_month
    /\ NoDup df_status.*1
    /\ Sorted (lex_le ts_le string_le) df_status.*1
    /\ (forall m label,
          (m, label) ∈ df_status.*1
          <-> exists r, r ∈ rows
                        /\ to_month_start (ORDER_DATE r.1) = m /\ r.2 = label)
    /\ (forall m label, (m, label) ∈ df_status.*1 -> day m = 1%Z)
    /\ (forall m, (exists label, (m, label) ∈ df_status.*1) <-> m ∈ df_month.*1)
    /\ (length df_month <= length df_status <= length rows)%nat.
Proof.
  intros Hne. unfold status_trend_section, time_series_section.
  assert (E : df_empty (EnrichedOrders rows) = false).
  { apply df_empty_false. simpl. by destruct rows. }
  rewrite E, labelled_rows_enriched. simpl.
  eexists _, _. split; [reflexivity|]. split; [reflexivity|].
  split; [apply groupby_agg_Sorted; apply _|].
  split; [apply groupby_agg_Sorted; apply _|].
  assert (Hpoints : forall m label,
            (m, label) ∈ (groupby_agg (lex_le ts_le string_le)
                            (fun r : Order * string =>
                               (to_month_start (ORDER_DATE r.1), r.2))
                            (fun g => sum_TOTAL_PRICE g.*1) rows).*1
            <-> exists r, r ∈ rows
                          /\ to_month_start (ORDER_DATE r.1) = m /\ r.2 = label).
  { intros m label.
    rewrite groupby_agg_keys, elem_of_group_keys, list_elem_of_fmap. split.
    - intros (r & [= -> ->] & Hr). by exists r.
    - intros (r & Hr & <- & <-). by exists r. }
  assert (Hmonths : forall m,
            m ∈ (groupby_agg ts_le (fun o => to_month_start (ORDER_DATE o))
                   (fun g => (count_ORDER_KEY g, sum_TOTAL_PRICE g)) rows.*1).*1
            <-> exists r, r ∈ rows /\ to_month_start (ORDER_DATE r.1) = m).
  { intros m.
    rewrite groupby_agg_keys, elem_of_group_keys, list_elem_of_fmap. split.
    - intros (o & -> & (r & -> & Hr)%list_elem_of_fmap). by exists r.
    - intros (r & Hr & <-). exists r.1. split; [done|].
      by apply list_elem_of_fmap_2. }
  split; [exact Hpoints|].
  split.
  { intros m label (r & _ & <- & _)%Hpoints. done. }
  split.
  { intros m. rewrite Hmonths. split.
    - intros (label & (r & Hr & Hm & _)%Hpoints). by exists r.
    - intros (r & Hr & Hm). exists r.2. apply Hpoints. by exists r. }
  split.
  - transitivity
      (length (((groupby_agg (lex_le ts_le string_le)
                   (fun r : Order * string =>
                      (to_month_start (ORDER_DATE r.1), r.2))
                   (fun g => sum_TOTAL_PRICE g.*1) rows).*1).*1));
      [|by rewrite !length_map].
    rewrite <- (length_map fst).
    apply submseteq_length, NoDup_submseteq.
    + rewrite groupby_agg_keys. apply NoDup_group_keys.
    + intros m (r & Hr & Hm)%Hmonths.
      apply list_elem_of_fmap. exists (m, r.2).
      split; [done|]. apply Hpoints. by exists r.
  - rewrite <- (length_map fst), groupby_agg_keys. unfold group_keys.
    rewrite merge_sort_Permutation.
    etransitivity; [apply length_remove_dups_le|]. by rewrite length_map.
Qed.

Lemma status_trend_points_witness :
  exists df_status,
    status_trend_section (enrich_orders scenario) = Ok (Some df_status)
    /\ df_status.*1
       = [(mkTimestamp 2020 1 1, "Filled"); (mkTimestamp 2020 2 1, "Open");
          (mkTimestamp 2021 1 1, "Filled")].
Proof.
  destruct (status_trend_points
              [(order_1, "Filled"); (order_2, "Open"); (order_3, "Filled")])
    as (ds & dm & Hrun & _); [discriminate|].
  exists ds. split; [exact Hrun|]. by injection Hrun as <-.
Defined.

(** ** Shape of the revenue matrix *)

(** X12: The matrix has one row per distinct priority and one column per
    distinct status of the table, both in ascending order, and every
    row has one cell per status; every row and every column has at
    least one cell with an order behind it. *)
Theorem heatmap_shape (df : DataFrame) (pivot : Pivot) :
  heatmap_section df = Some pivot ->
  length (pivot_values pivot) = length (pivot_index pivot)
  /\ Forall (fun row => length row = length (pivot_columns pivot))
            (pivot_values pivot)
  /\ length (pivot_index pivot) = nunique (map PRIORITY (records df))
  /\ length (pivot_columns pivot) = nunique (map STATUS (records df))
  /\ Sorted string_le (pivot_index pivot)
  /\ Sorted string_le (pivot_columns pivot)
  /\ (forall p, p ∈ pivot_index pivot ->
        exists s, s ∈ pivot_columns pivot
                  /\ cell_orders (records df) p s ≠ [])
  /\ (forall s, s ∈ pivot_columns pivot ->
        exists p, p ∈ pivot_index pivot
                  /\ cell_orders (records df) p s ≠ []).
Proof.
  unfold heatmap_section, copy. destruct (df_empty df); [done|].
  intros [= <-].
  assert (Hcount : forall (keys l : list string),
            NoDup keys -> (forall x, x ∈ keys <-> x ∈ l) ->
            length keys = nunique l).
  { intros keys l Hnd Hin. unfold nunique.
    apply Permutation_length, NoDup_Permutation;
      [done|apply NoDup_remove_dups|].
    intros x. by rewrite elem_of_remove_dups. }
  split; [rewrite pivot_values_unfold; by rewrite length_map|].
  split.
  { rewrite pivot_values_unfold. apply Forall_fmap, Forall_forall.
    intros p _. simpl. by rewrite length_map. }
  split; [apply Hcount; [apply NoDup_group_keys|apply pivot_index_elem]|].
  split; [apply Hcount; [apply NoDup_group_keys|apply pivot_columns_elem]|].
  split; [apply Sorted_group_keys; apply _|].
  split; [apply Sorted_group_keys; apply _|].
  split.
  - intros p (o & -> & Ho)%pivot_index_elem%list_elem_of_fmap.
    exists (STATUS o). split.
    + apply pivot_columns_elem. by apply list_elem_of_fmap_2.
    + intros Hnil.
      assert (Hin : o ∈ cell_orders (records df) (PRIORITY o) (STATUS o))
        by (by apply list_elem_of_filter).
      rewrite Hnil in Hin. by apply elem_of_nil in Hin.
  - intros s (o & -> & Ho)%pivot_columns_elem%list_elem_of_fmap.
    exists (PRIORITY o). split.
    + apply pivot_index_elem. by apply list_elem_of_fmap_2.
    + intros Hnil.
      assert (Hin : o ∈ cell_orders (records df) (PRIORITY o) (STATUS o))
        by (by apply list_elem_of_filter).
      rewrite Hnil in Hin. by apply elem_of_nil in Hin.
Qed.

Lemma heatmap_shape_witness :
  exists pivot,
    heatmap_section scenario = Some pivot
    /\ length (pivot_values pivot) = 2%nat
    /\ Forall (fun row => length row = 2%nat) (pivot_values pivot).
Proof.
  eexists. split; [reflexivity|].
  destruct (heatmap_shape scenario _ eq_refl) as (Hrows & Hcells & _).
  split; [exact Hrows|exact Hcells].
Defined.

(** ** Connection parameters: every case *)

Lemma conn_dict_dom user password account warehouse database schema role :
  dom (conn_dict user password account warehouse database schema role)
  = list_to_set ["user"; "password"; "account"; "warehouse"; "database";
                 "schema"; "role"].
Proof. unfold conn_dict. rewrite !dom_insert_L, dom_empty_L. set_solver. Qed.

(** X13: Reading the connection parameters raises streamlit's error for the
    missing file when there is no secrets file, whatever the environment
    holds.  With a secrets file that has a snowflake section it succeeds
    exactly when the section has user, password and account, raises
    streamlit's KeyError for a missing one otherwise, and the environment
    plays no part.  With a secrets file without the section it succeeds
    exactly when the environment has SNOWFLAKE_USER, SNOWFLAKE_PASSWORD
    and SNOWFLAKE_ACCOUNT, and raises the RuntimeError that names a
    missing one otherwise.  A result has the seven keys; the required
    fields are the values read and the optional ones fall back to
    WH_DEMO, SNOWFLAKE_SAMPLE_DATA, TPCH_SF1 and ACCOUNTADMIN. *)
Theorem connection_params_outcome (missing_key_message : string -> string)
    (secrets : Secrets) (environ : Environ) :
  let params := _get_connection_params missing_key_message in
  (secrets = None -> params secrets environ = Raise FileNotFoundError)
  /\ (forall sections s,
        secrets = Some sections ->
        sections !! "snowflake" = Some s ->
        ((forall key, key ∈ required_secret_keys -> is_Some (s !! key))
         <-> exists d, params secrets environ = Ok d)
        /\ ((exists key, key ∈ required_secret_keys /\ s !! key = None) ->
            exists key,
              key ∈ required_secret_keys /\ s !! key = None
              /\ params secrets environ
                 = Raise (KeyError (missing_key_message key)))
        /\ (forall d,
              params secrets environ = Ok d ->
              d !! "user" = s !! "user"
              /\ d !! "password" = s !! "password"
              /\ d !! "account" = s !! "account"
              /\ d !! "warehouse" = Some (default "WH_DEMO" (s !! "warehouse"))
              /\ d !! "database"
                 = Some (default "SNOWFLAKE_SAMPLE_DATA" (s !! "database"))
              /\ d !! "schema" = Some (default "TPCH_SF1" (s !! "schema"))
              /\ d !! "role" = Some (default "ACCOUNTADMIN" (s !! "role")))
        /\ (forall environ',
              params secrets environ' = params secrets environ))
  /\ (forall sections,
        secrets = Some sections ->
        sections !! "snowflake" = None ->
        ((forall key, key ∈ required_environ_keys -> is_Some (environ !! key))
         <-> exists d, params secrets environ = Ok d)
        /\ ((exists key, key ∈ required_environ_keys /\ environ !! key = None) ->
            exists key,
              key ∈ required_environ_keys /\ environ !! key = None
              /\ params secrets environ
                 = Raise (RuntimeError (missing_message key)))
        /\ (forall d,
              params secrets environ = Ok d ->
              d !! "user" = environ !! "SNOWFLAKE_USER"
              /\ d !! "password" = environ !! "SNOWFLAKE_PASSWORD"
              /\ d !! "account" = environ !! "SNOWFLAKE_ACCOUNT"
              /\ d !! "warehouse"
                 = Some (default "WH_DEMO" (environ !! "SNOWFLAKE_WAREHOUSE"))
              /\ d !! "database"
                 = Some (default "SNOWFLAKE_SAMPLE_DATA"
                           (environ !! "SNOWFLAKE_DATABASE"))
              /\ d !! "schema"
                 = Some (default "TPCH_SF1" (environ !! "SNOWFLAKE_SCHEMA"))
              /\ d !! "role"
                 = Some (default "ACCOUNTADMIN" (environ !! "SNOWFLAKE_ROLE"))))
  /\ (forall d,
        params secrets environ = Ok d ->
        dom d = list_to_set ["user"; "password"; "account"; "warehouse";
                             "database"; "schema"; "role"]).
Proof.
  cbv zeta. split; [by intros ->|].
  split.
  { intros sections s -> Hs.
    split.
    { unfold _get_connection_params, secrets_contains, secrets_getitem,
        section_getitem, required_secret_keys.
      rewrite Hs. rewrite bool_decide_eq_true_2 by (by eexists). simpl.
      destruct (s !! "user") eqn:Hu, (s !! "password") eqn:Hp,
        (s !! "account") eqn:Ha; simpl;
        (split; [intros Hall | intros [d Hd] key Hkey]);
        try discriminate Hd; try (by eexists);
        try (repeat (apply elem_of_cons in Hkey as [->|Hkey]; [by eexists|]);
             by apply elem_of_nil in Hkey);
        exfalso;
        first [ destruct (Hall "user") as [? ?]; [by left|congruence]
              | destruct (Hall "password") as [? ?]; [right; by left|congruence]
              | destruct (Hall "account") as [? ?];
                  [do 2 right; by left|congruence] ]. }
    split; [by apply secrets_missing_key|].
    split.
    { intros d. unfold _get_connection_params, secrets_contains,
        secrets_getitem, section_getitem, get_default.
      rewrite Hs. rewrite bool_decide_eq_true_2 by (by eexists). simpl.
      destruct (s !! "user"), (s !! "password"), (s !! "account"); try done.
      simpl. intros [= <-]. unfold conn_dict.
      repeat split; try done;
        by destruct (s !! "warehouse"), (s !! "database"), (s !! "schema"),
             (s !! "role"). }
    intros environ'. unfold _get_connection_params, secrets_contains.
    by rewrite bool_decide_eq_true_2 by (by eexists). }
  split.
  { intros sections -> Hs.
    split.
    { unfold _get_connection_params, secrets_contains, getitem,
        required_environ_keys.
      rewrite bool_decide_eq_false_2 by (rewrite Hs; by intros [? ?]). simpl.
      destruct (environ !! "SNOWFLAKE_USER") eqn:Hu,
        (environ !! "SNOWFLAKE_PASSWORD") eqn:Hp,
        (environ !! "SNOWFLAKE_ACCOUNT") eqn:Ha; simpl;
        (split; [intros Hall | intros [d Hd] key Hkey]);
        try discriminate Hd; try (by eexists);
        try (repeat (apply elem_of_cons in Hkey as [->|Hkey]; [by eexists|]);
             by apply elem_of_nil in Hkey);
        exfalso;
        first [ destruct (Hall "SNOWFLAKE_USER") as [? ?]; [by left|congruence]
              | destruct (Hall "SNOWFLAKE_PASSWORD") as [? ?];
                  [right; by left|congruence]
              | destruct (Hall "SNOWFLAKE_ACCOUNT") as [? ?];
                  [do 2 right; by left|congruence] ]. }
    split; [by apply environ_missing_key|].
    intros d. unfold _get_connection_params, secrets_contains, getitem,
      get_default.
    rewrite bool_decide_eq_false_2 by (rewrite Hs; by intros [? ?]). simpl.
    destruct (environ !! "SNOWFLAKE_USER"), (environ !! "SNOWFLAKE_PASSWORD"),
      (environ !! "SNOWFLAKE_ACCOUNT"); try done.
    simpl. intros [= <-]. unfold conn_dict.
    repeat split; try done;
      by destruct (environ !! "SNOWFLAKE_WAREHOUSE"),
           (environ !! "SNOWFLAKE_DATABASE"), (environ !! "SNOWFLAKE_SCHEMA"),
           (environ !! "SNOWFLAKE_ROLE"). }
  intros d. unfold _get_connection_params, secrets_contains, secrets_getitem,
    section_getitem, getitem.
  destruct secrets as [sections|]; [|done]. simpl.
  destruct (sections !! "snowflake") as [s|] eqn:Hs.
  - rewrite bool_decide_eq_true_2 by (by eexists). simpl.
    destruct (s !! "user"), (s !! "password"), (s !! "account"); try done.
    simpl. intros [= <-]. apply conn_dict_dom.
  - rewrite bool_decide_eq_false_2 by (by intros [? ?]). simpl.
    destruct (environ !! "SNOWFLAKE_USER"), (environ !! "SNOWFLAKE_PASSWORD"),
      (environ !! "SNOWFLAKE_ACCOUNT"); try done.
    simpl. intros [= <-]. apply conn_dict_dom.
Qed.

Lemma connection_params_outcome_witness :
  _get_connection_params sample_key_message None environ_complete
  = Raise FileNotFoundError
  /\ (exists key,
        key ∈ required_secret_keys
        /\ _get_connection_params sample_key_message secrets_no_user
             environ_complete
           = Raise (KeyError (sample_key_message key)))
  /\ (exists key,
        key ∈ required_environ_keys
        /\ _get_connection_params sample_key_message secrets_no_section
             environ_no_password
           = Raise (RuntimeError (missing_message key))).
Proof.
  split; [|split].
  - by apply (connection_params_outcome sample_key_message None
                environ_complete).
  - destruct (connection_params_outcome sample_key_message secrets_no_user
                environ_complete) as (_ & Hsection & _).
    destruct (Hsection _ _ eq_refl (lookup_singleton_eq _ _))
      as (_ & Hmissing & _).
    destruct Hmissing as (key & Hkey & _ & Hraise).
    { exists "user". split; [by left|]. reflexivity. }
    exists key. by split.
  - destruct (connection_params_outcome sample_key_message secrets_no_section
                environ_no_password) as (_ & _ & Henv & _).
    destruct (Henv _ eq_refl (lookup_empty _)) as (_ & Hmissing & _).
    destruct Hmissing as (key & Hkey & _ & Hraise).
    { exists "SNOWFLAKE_PASSWORD". split; [right; by left|]. reflexivity. }
    exists key. by split.
Defined.

(** ** The calls of a run *)

Section run_query_calls.
Variable missing_key_message : string -> string.
Variable connect : gmap string string -> result unit.
Variable cursor : result unit.
Variable execute : string -> result unit.
Variable cursor_close : result unit.
Variable read_sql : string -> list string -> result DataFrame.
Variable conn_close : result unit.

Let query :=
  run_query missing_key_message connect cursor execute cursor_close read_sql
    conn_close.

Lemma io_bind_run {A B} (m : io A) (k : A -> io B) trace :
  io_bind m k trace =
  match m trace with
  | (Ok a, t') => k a t'
  | (Raise e, t') => (Raise e, t')
  end.
Proof. reflexivity. Qed.

Lemma try_finally_run {A} (body : io A) (cleanup : io unit) trace :
  try_finally body cleanup trace =
  match cleanup (body trace).2 with
  | (Ok _, t'') => ((body trace).1, t'')
  | (Raise e, t'') => (Raise e, t'')
  end.
Proof. unfold try_finally. by destruct (body trace). Qed.

Lemma uses_run (p : gmap string string) trace :
  (_ <-~ use_statement execute "WAREHOUSE" (p !! "warehouse");
   _ <-~ use_statement execute "DATABASE" (p !! "database");
   use_statement execute "SCHEMA" (p !! "schema")) trace
  = ((executed execute (use_statements p)).2,
     trace ++ map Execute (executed execute (use_statements p)).1).
Proof.
  unfold use_statements, use_statement, io_bind, io_ret, call. simpl.
  destruct (p !! "warehouse") as [w|]; destruct (p !! "database") as [d|];
    destruct (p !! "schema") as [s|];
    repeat match goal with
           | |- context [bool_decide (?n = EmptyString)] =>
               destruct (bool_decide (n = EmptyString))
           end; simpl;
    repeat match goal with
           | |- context [execute ?stmt] =>
               destruct (execute stmt) as [[]|?]; simpl
           end;
    rewrite ?app_nil_r, <- ?app_assoc; reflexivity.
Qed.

Lemma inside_run (p : gmap string string) (sql : string)
    (params : list string) trace :
  (_ <-~ call Cursor cursor;
   _ <-~ try_finally
           (_ <-~ use_statement execute "WAREHOUSE" (p !! "warehouse");
            _ <-~ use_statement execute "DATABASE" (p !! "database");
            use_statement execute "SCHEMA" (p !! "schema"))
           (call CursorClose cursor_close);
   call (ReadSql sql params) (read_sql sql params)) trace
  = ((inside cursor execute cursor_close read_sql p sql params).1,
     trace ++ (inside cursor execute cursor_close read_sql p sql params).2).
Proof.
  unfold inside. rewrite io_bind_run. unfold call at 1.
  destruct cursor as [[]|ec]; [|reflexivity].
  rewrite io_bind_run, try_finally_run, uses_run.
  destruct (executed execute (use_statements p)) as [stmts [[]|e]];
    destruct cursor_close as [[]|e']; unfold call; simpl;
    rewrite <- ?app_assoc; reflexivity.
Qed.

(** The calls of [run_query] once the parameters are read and the
    connection is made. *)
Lemma run_query_trace (secrets : Secrets) (environ : Environ)
    (sql : string) (params : list string) (p : gmap string string) (u : unit) :
  _get_connection_params missing_key_message secrets environ = Ok p ->
  connect p = Ok u ->
  query secrets environ sql params []
  = (match conn_close with
     | Raise e => Raise e
     | Ok _ => (inside cursor execute cursor_close read_sql p sql params).1
     end,
     Connect p :: (inside cursor execute cursor_close read_sql p sql params).2
       ++ [ConnClose]).
Proof.
  intros Hp Hc. unfold query, run_query.
  rewrite io_bind_run. unfold io_lift. rewrite Hp.
  rewrite io_bind_run. unfold call at 1. rewrite Hc.
  rewrite try_finally_run, inside_run.
  destruct conn_close as [[]|e'']; unfold call; reflexivity.
Qed.

Lemma executed_prefix (stmts : list string) :
  (forall s, s ∈ (executed execute stmts).1 -> s ∈ stmts)
  /\ ((executed execute stmts).2 = Ok tt ->
      (executed execute stmts).1 = stmts
      /\ Forall (fun s => execute s = Ok tt) stmts)
  /\ (Forall (fun s => execute s = Ok tt) stmts ->
      executed execute stmts = (stmts, Ok tt)).
Proof.
  induction stmts as [|s stmts (IHin & IHok & IHall)]; simpl.
  { split; [done|]. split; [by split|done]. }
  destruct (execute s) as [[]|e] eqn:Hs; simpl.
  - split.
    { intros x [->|Hx]%elem_of_cons; [by left|]. right. by apply IHin. }
    split.
    + intros Hok. destruct (IHok Hok) as [-> Hall]. split; [done|].
      by constructor.
    + intros Hall. inversion Hall as [|? ? _ Hrest]; subst.
      by rewrite (IHall Hrest).
  - split.
    { intros x [->|Hx]%elem_of_cons; [by left|]. by apply elem_of_nil in Hx. }
    split; [done|]. intros Hall. inversion Hall; congruence.
Qed.


(** X15: When every call is answered without an error, [run_query] opens a
    cursor, issues the [USE] statements of the parameters in order, at
    most three, closes the cursor, sends the query with its parameters,
    closes the connection and returns the answer of the query. *)
Theorem run_query_success (secrets : Secrets) (environ : Environ)
    (sql : string) (params : list string) (p : gmap string string)
    (df : DataFrame) :
  _get_connection_params missing_key_message secrets environ = Ok p ->
  connect p = Ok tt ->
  cursor = Ok tt ->
  Forall (fun s => execute s = Ok tt) (use_statements p) ->
  cursor_close = Ok tt ->
  read_sql sql params = Ok df ->
  conn_close = Ok tt ->
  query secrets environ sql params []
  = (Ok df,
     Connect p :: Cursor :: map Execute (use_statements p)
       ++ [CursorClose; ReadSql sql params; ConnClose])
  /\ (length (use_statements p) <= 3)%nat.
Proof.
  intros Hp Hc Hcursor Hall Hclose Hread Hconn.
  rewrite (run_query_trace secrets environ sql params p tt Hp Hc).
  unfold inside.
  destruct (executed_prefix (use_statements p)) as (_ & _ & Hexec).
  rewrite (Hexec Hall), Hcursor, Hclose, Hread, Hconn. simpl.
  split; [by rewrite <- app_assoc|].
  unfold use_statements. simpl.
  destruct (p !! "warehouse") as [w|]; destruct (p !! "database") as [d|];
    destruct (p !! "schema") as [s|];
    repeat match goal with
           | |- context [bool_decide (?n = EmptyString)] =>
               destruct (bool_decide (n = EmptyString))
           end; simpl; lia.
Qed.
End run_query_calls.


Lemma run_query_success_witness :
  exists trace,
    run_query sample_key_message (fun _ => Ok tt) (Ok tt) (fun _ => Ok tt)
      (Ok tt) (fun _ _ => Ok scenario) (Ok tt) secrets_complete ∅
      "SELECT 1" [] []
    = (Ok scenario, trace).
Proof.
  eexists.
  apply (run_query_success sample_key_message (fun _ => Ok tt) (Ok tt)
           (fun _ => Ok tt) (Ok tt) (fun _ _ => Ok scenario) (Ok tt)
           secrets_complete ∅ "SELECT 1" []
           (conn_dict "me" "pw" "acct" "WH_DEMO" "SNOWFLAKE_SAMPLE_DATA"
              "TPCH_SF1" "ACCOUNTADMIN") scenario);
    try reflexivity.
  apply Forall_forall. reflexivity.
Defined.

(** ** The page *)

Lemma result_mapM_ok {A B} (f : A -> result B) (l : list A) :
  (forall x, x ∈ l -> exists y, f x = Ok y) ->
  exists ys, result_mapM f l = Ok ys /\ length ys = length l.
Proof.
  induction l as [|x l IH]; intros Hall.
  { by exists []. }
  destruct (Hall x) as [y Hy]; [by left|].
  destruct IH as (ys & Hys & Hlen); [intros z Hz; apply Hall; by right|].
  exists (y :: ys). simpl. fold (result_mapM f l). rewrite Hy, Hys. simpl.
  by rewrite Hlen.
Qed.

Lemma restrict_enriched (P : Order -> Prop) `{!forall o, Decision (P o)} rows :
  exists rows', restrict P (EnrichedOrders rows) = EnrichedOrders rows'.
Proof. by eexists. Qed.

Lemma status_trend_section_enriched rows :
  exists t, status_trend_section (EnrichedOrders rows) = Ok t.
Proof.
  unfold status_trend_section.
  destruct (df_empty (EnrichedOrders rows)); [by eexists|].
  rewrite labelled_rows_enriched. by eexists.
Qed.

Lemma status_priority_comparison_section_enriched rows :
  exists t, status_priority_comparison_section (EnrichedOrders rows) = Ok t.
Proof.
  unfold status_priority_comparison_section.
  destruct (df_empty (EnrichedOrders rows)); [by eexists|].
  rewrite labelled_rows_enriched. by eexists.
Qed.


Lemma result_mapM_Forall2 {A B} (f : A -> result B) (l : list A) (ys : list B) :
  result_mapM f l = Ok ys -> Forall2 (fun x y => f x = Ok y) l ys.
Proof.
  revert ys. induction l as [|x l IH]; intros ys; simpl.
  { intros [= <-]. constructor. }
  fold (result_mapM f l).
  destruct (f x) as [y|] eqn:Hy; [|done]. simpl.
  destruct (result_mapM f l) as [ys'|]; [|done]. simpl.
  intros [= <-]. constructor; [done|]. by apply IH.
Qed.

Section page_properties.
Variable missing_key_message : string -> string.
Variable connect : gmap string string -> result unit.
Variable cursor : result unit.
Variable execute : string -> result unit.
Variable cursor_close : result unit.
Variable read_sql : string -> list string -> result DataFrame.
Variable conn_close : result unit.
Variable rng_state : Type.
Variable RandomState : Z -> rng_state.
Variable choice : rng_state -> nat -> nat -> list nat * rng_state.
Variable date_input :
  Timestamp * Timestamp -> Timestamp -> Timestamp -> list Timestamp.
Variable multiselect : string -> list string -> list string -> list string.

Hypothesis choice_in_range :
  forall g n size,
    (size <= n)%nat ->
    length (choice g n size).1 = size
    /\ Forall (fun i => (i < n)%nat) (choice g n size).1.

Let show_page := show rng_state RandomState choice.
Let render_page := render rng_state RandomState choice date_input multiselect.

Lemma sample_table_section_ok df g :
  exists sample,
    (sample_table_section rng_state RandomState choice df g).1 = Ok sample.
Proof.
  unfold sample_table_section, DataFrame_sample.
  destruct (df_empty df); [by eexists|]. cbn [fst snd].
  destruct (choice_in_range (RandomState 42) (len df)
              (Nat.min 1000 (len df))) as [_ Hrange]; [lia|].
  destruct (DataFrame_take_in_range df _ Hrange) as (sample & -> & _).
  by eexists.
Qed.

(** What is shown for a table with the label column: every part of the
    page is computed from that table, none of them raises. *)
Lemma show_labelled (rows : list (Order * string)) (g : rng_state) :
  rows ≠ [] ->
  let df_filtered := EnrichedOrders rows in
  exists shown,
    show_page df_filtered g = Ok (Some shown)
    /\ tab_labels shown
       = "Overview" :: map (fun y => pretty y)
                         (group_keys Z.le (years_of df_filtered))
    /\ kpi_section df_filtered = Ok (overview_kpi shown)
    /\ overview_yearly shown = yearly_trend_section df_filtered
    /\ overview_seasonality shown
       = yearly_month_comparison_section df_filtered
    /\ status_trend_section df_filtered = Ok (overview_status_trend shown)
    /\ (sample_table_section rng_state RandomState choice df_filtered g).1
       = Ok (overview_sample shown)
    /\ Forall2 (fun y pg => year_page df_filtered y = Ok pg /\ page_year pg = y)
         (group_keys Z.le (years_of df_filtered)) (year_pages shown).
Proof.
  intros Hne. cbv zeta. unfold show_page, show.
  assert (E : df_empty (EnrichedOrders rows) = false).
  { apply df_empty_false. simpl. by destruct rows. }
  rewrite E.
  destruct (kpi_section_returns (EnrichedOrders rows))
    as (avg & per_day & Hkpi & _).
  rewrite Hkpi. simpl.
  destruct (status_trend_section_enriched rows) as [trend Htrend].
  rewrite Htrend. simpl.
  destruct (sample_table_section_ok (EnrichedOrders rows) g)
    as [sample Hsample].
  rewrite Hsample. simpl.
  destruct (result_mapM_ok (year_page (EnrichedOrders rows))
              (group_keys Z.le (years_of (EnrichedOrders rows))))
    as (pages & Hpages & Hlen).
  { intros y _. unfold year_page. rewrite year_frame_restrict.
    destruct (restrict_enriched (fun o => year (ORDER_DATE o) = y) rows)
      as [rows' ->].
    destruct (kpi_section_returns (EnrichedOrders rows'))
      as (avg' & per_day' & -> & _).
    destruct (status_priority_comparison_section_enriched rows') as [c ->].
    by eexists. }
  rewrite Hpages. simpl.
  eexists. split; [reflexivity|].
  cbn [tab_labels overview_kpi overview_yearly overview_seasonality
       overview_status_trend overview_sample year_pages].
  repeat (split; [done|]).
  apply result_mapM_Forall2 in Hpages.
  eapply Forall2_impl; [exact Hpages|].
  intros y pg Hpg. split; [done|]. unfold year_page, rbind in Hpg.
  destruct (kpi_section (year_frame (EnrichedOrders rows) y)); [|done].
  destruct (status_priority_comparison_section
              (year_frame (EnrichedOrders rows) y)); [|done].
  by injection Hpg as <-.
Qed.

(** [render] unpacks the answer of the date control, filters and shows. *)
Lemma render_unfold (base_df : DataFrame) (g : rng_state) :
  render_page base_df g =
  match date_answer date_input base_df with
  | [start_date; end_date] =>
      show_page (apply_filters base_df start_date end_date
                   (status_answer multiselect base_df)
                   (priority_answer multiselect base_df)) g
  | _ => Raise ValueError
  end.
Proof.
  unfold render_page, render, sidebar_filters, date_answer, date_bounds,
    status_answer, priority_answer, unpack2. cbn [fst snd].
  destruct (date_input _ _ _) as [|a [|b [|c rest]]]; reflexivity.
Qed.

Lemma filtered_enriched (raw : DataFrame) start_date end_date
    (status_list priority_list : list string) :
  let df_filtered :=
    apply_filters (enrich_orders raw) start_date end_date
      status_list priority_list in
  df_empty df_filtered = false ->
  exists rows, rows ≠ [] /\ df_filtered = EnrichedOrders rows.
Proof.
  intros df_filtered E.
  assert (Hraw : df_empty raw = false).
  { destruct (df_empty raw) eqn:Hr; [|done].
    unfold df_filtered, enrich_orders, apply_filters in E.
    rewrite Hr in E. rewrite Hr in E. congruence. }
  assert (Hrows : exists rows, df_filtered = EnrichedOrders rows).
  { unfold df_filtered.
    rewrite apply_filters_restrict, enrich_orders_unfold, Hraw.
    apply restrict_enriched. }
  destruct Hrows as [rows Hrows]. exists rows. split; [|done].
  intros ->. by rewrite Hrows in E.
Qed.

(** The two outcomes of [render] on a table that went through
    [enrich_orders]. *)
Lemma render_enriched (raw : DataFrame) (g : rng_state) :
  (length (date_answer date_input (enrich_orders raw)) = 2%nat ->
   exists page, render_page (enrich_orders raw) g = Ok page)
  /\ (length (date_answer date_input (enrich_orders raw)) ≠ 2%nat ->
      render_page (enrich_orders raw) g = Raise ValueError).
Proof.
  rewrite render_unfold.
  destruct (date_answer date_input (enrich_orders raw))
    as [|a [|b [|c rest]]]; simpl; split; try done; try lia.
  intros _.
  set (df_filtered := apply_filters _ _ _ _ _).
  destruct (df_empty df_filtered) eqn:E.
  - exists None. unfold show_page, show. by rewrite E.
  - destruct (filtered_enriched raw a b _ _ E) as (rows & Hne & Hrows).
    fold df_filtered in Hrows. rewrite Hrows.
    destruct (show_labelled rows g Hne) as (shown & Hshown & _).
    by exists (Some shown).
Qed.

(** X16: Rendering a table that went through [enrich_orders] raises only at
    the unpacking of the date range: a ValueError, exactly when the date
    control answers with other than two dates, as it does while a range
    is half picked.  With two dates the table is filtered by them and by
    the two selections; if no row passes only the warning is shown,
    otherwise the page holds the overview of the filtered table (KPI
    summary, yearly trend, seasonality, status trend, sample) and one
    detail tab per year of the filtered table, in ascending order, each
    computed from the filtered table for its year. *)
Theorem render_raises_only_at_date_unpack (raw : DataFrame) (g : rng_state) :
  let base_df := enrich_orders raw in
  let answer := date_answer date_input base_df in
  (forall e,
     render_page base_df g = Raise e <-> e = ValueError /\ length answer ≠ 2%nat)
  /\ forall start_date end_date,
       answer = [start_date; end_date] ->
       let df_filtered :=
         apply_filters base_df start_date end_date
           (status_answer multiselect base_df)
           (priority_answer multiselect base_df) in
       (df_empty df_filtered = true -> render_page base_df g = Ok None)
       /\ (df_empty df_filtered = false ->
           exists shown,
             render_page base_df g = Ok (Some shown)
             /\ tab_labels shown
                = "Overview" :: map (fun y => pretty y)
                                  (group_keys Z.le (years_of df_filtered))
             /\ kpi_section df_filtered = Ok (overview_kpi shown)
             /\ overview_yearly shown = yearly_trend_section df_filtered
             /\ overview_seasonality shown
                = yearly_month_comparison_section df_filtered
             /\ status_trend_section df_filtered
                = Ok (overview_status_trend shown)
             /\ (sample_table_section rng_state RandomState choice
                   df_filtered g).1
                = Ok (overview_sample shown)
             /\ Forall2 (fun y pg => year_page df_filtered y = Ok pg
                                     /\ page_year pg = y)
                  (group_keys Z.le (years_of df_filtered))
                  (year_pages shown)).
Proof.
  cbv zeta. split.
  - intros e. destruct (render_enriched raw g) as [Hok Hraise].
    destruct (decide (length (date_answer date_input (enrich_orders raw))
                      = 2%nat)) as [Hlen|Hlen].
    + destruct (Hok Hlen) as [page Hpage]. rewrite Hpage.
      split; [done|]. by intros [_ ?].
    + rewrite (Hraise Hlen). split.
      * by intros [= <-].
      * by intros [-> _].
  - intros start_date end_date Hanswer. rewrite render_unfold, Hanswer.
    set (df_filtered := apply_filters _ _ _ _ _).
    split.
    + intros E. unfold show_page, show. by rewrite E.
    + intros E.
      destruct (filtered_enriched raw start_date end_date _ _ E)
        as (rows & Hne & Hrows).
      fold df_filtered in Hrows. rewrite Hrows.
      apply (show_labelled rows g Hne).
Qed.

End page_properties.

Lemma render_raises_only_at_date_unpack_witness :
  render nat shifted_seed counter_choice half_picked_date_input
    untouched_multiselect (enrich_orders scenario) 0%nat
  = Raise ValueError
  /\ exists shown,
       render nat shifted_seed counter_choice untouched_date_input
         untouched_multiselect (enrich_orders scenario) 0%nat
       = Ok (Some shown)
       /\ tab_labels shown = ["Overview"; "2020"; "2021"].
Proof.
  split.
  - apply (render_raises_only_at_date_unpack nat shifted_seed counter_choice
             half_picked_date_input untouched_multiselect
             counter_choice_in_range scenario 0%nat).
    split; [reflexivity|]. vm_compute. lia.
  - destruct (render_raises_only_at_date_unpack nat shifted_seed
                counter_choice untouched_date_input untouched_multiselect
                counter_choice_in_range scenario 0%nat) as [_ Hpage].
    destruct (Hpage (mkTimestamp 2020 1 5) (mkTimestamp 2021 1 20) eq_refl)
      as [_ Hshown].
    destruct (Hshown eq_refl) as (shown & Hrun & Hlabels & _).
    exists shown. split; [exact Hrun|]. rewrite Hlabels. reflexivity.
Defined.


(** ** Growth with prices that are not negative *)

Lemma Series_sum_nonneg (s : list Qc) :
  Forall (fun x => (0 ≤ x)%Qc) s -> (0 ≤ Series_sum s)%Qc.
Proof.
  induction 1 as [|x s Hx _ IH]; simpl; [apply Qcle_refl|].
  replace 0%Qc with (0 + 0)%Qc by ring. by apply Qcplus_le_compat.
Qed.

Lemma Qc_nonneg_mult (x y : Qc) : (0 ≤ x)%Qc -> (0 ≤ y)%Qc -> (0 ≤ x * y)%Qc.
Proof.
  intros Hx Hy. replace 0%Qc with (0 * y)%Qc by ring.
  by apply Qcmult_le_mono_nonneg_r.
Qed.

Lemma growth_nonneg (a b : Qc) :
  (0 ≤ a)%Qc -> (0 ≤ b)%Qc ->
  (a = 0%Qc /\ b = 0%Qc /\ growth a b = NaN)
  \/ (a = 0%Qc /\ (0 < b)%Qc /\ growth a b = PInf)
  \/ ((0 < a)%Qc
      /\ exists q, growth a b = Finite q /\ (- Qc_of_Z 100 ≤ q)%Qc).
Proof.
  intros Ha Hb. destruct (Qcle_lt_or_eq _ _ Ha) as [Hpos|<-].
  - right. right. split; [done|].
    assert (Hne : a ≠ 0%Qc) by (intros ->; by apply (Qclt_not_eq 0 0)).
    rewrite (growth_finite a b Hne). eexists. split; [reflexivity|].
    replace ((b / a - 1) * Qc_of_Z 100)%Qc
      with (b * / a * Qc_of_Z 100 + - Qc_of_Z 100)%Qc by (field; exact Hne).
    replace (- Qc_of_Z 100)%Qc with (0 + - Qc_of_Z 100)%Qc at 1 by ring.
    apply Qcplus_le_mono_r. apply Qc_nonneg_mult; [|done].
    apply Qc_nonneg_mult; [done|]. by apply Qclt_le_weak, Qcinv_pos.
  - destruct (Qcle_lt_or_eq _ _ Hb) as [Hpos|<-].
    + right. left. split; [done|]. split; [done|].
      unfold growth, fdiv, Qc_eqb. rewrite bool_decide_eq_true_2 by done.
      unfold fsign, Qc_ltb, Qc_eqb.
      rewrite bool_decide_eq_false_2 by (by apply Qcle_not_lt).
      rewrite bool_decide_eq_false_2; [done|].
      intros ->. by apply (Qclt_not_eq 0 0).
    + left. split; [done|]. split; [done|]. done.
Qed.

(** X18: When no price is negative, every entry of the growth series is
    either a number not below -100 or +inf; it is +inf exactly when the
    year before had revenue 0 and the year itself has not; -inf and NaN
    never show. *)
Theorem yoy_with_nonnegative_prices (df : DataFrame) :
  df_empty df = false ->
  (forall o, o ∈ records df -> (0 ≤ TOTAL_PRICE o)%Qc) ->
  exists df_year df_yoy,
    yearly_trend_section df = Some (df_year, df_yoy)
    /\ (forall row, row ∈ df_year -> (0 ≤ yr_total_amount row)%Qc)
    /\ (forall i before row,
          df_year !! i = Some before ->
          df_year !! S i = Some row ->
          (revenue_yoy row = PInf
           <-> yr_total_amount before = 0%Qc /\ (0 < yr_total_amount row)%Qc)
          /\ (row ∈ df_yoy ->
              revenue_yoy row = PInf
              \/ exists q, revenue_yoy row = Finite q
                           /\ (- Qc_of_Z 100 ≤ q)%Qc)).
Proof.
  intros E Hprices. rewrite (yearly_trend_section_unfold df E).
  eexists _, _. split; [reflexivity|].
  assert (Hrev : forall row,
            row ∈ year_table (year_groups (records df)) ->
            (0 ≤ yr_total_amount row)%Qc).
  { intros row Hrow. apply year_table_group in Hrow.
    apply elem_of_groupby_agg in Hrow as [_ [= _ ->]].
    apply Series_sum_nonneg, Forall_fmap, Forall_forall.
    intros o [_ Ho]%list_elem_of_filter. by apply Hprices. }
  split; [exact Hrev|].
  intros i before row Hb Hr.
  rewrite (year_table_step _ i before row Hb Hr).
  assert (Ha : (0 ≤ yr_total_amount before)%Qc)
    by (by eapply Hrev, list_elem_of_lookup_2).
  assert (Hc : (0 ≤ yr_total_amount row)%Qc)
    by (by eapply Hrev, list_elem_of_lookup_2).
  destruct (growth_nonneg _ _ Ha Hc)
    as [(Hz & Hz' & Hg)|[(Hz & Hpos & Hg)|(Hpos & q & Hg & Hq)]];
    rewrite Hg.
  - split.
    + split; [done|]. intros [_ Hlt]. rewrite Hz' in Hlt.
      by apply (Qclt_not_eq 0 0) in Hlt.
    + intros [Hyoy _]%list_elem_of_filter. unfold has_yoy in Hyoy.
      rewrite (year_table_step _ i before row Hb Hr), Hg in Hyoy. done.
  - split; [by split|]. intros _. by left.
  - split.
    + split; [done|]. intros [Hz _]. rewrite Hz in Hpos.
      by apply (Qclt_not_eq 0 0) in Hpos.
    + intros _. right. by exists q.
Qed.

Lemma yoy_with_nonnegative_prices_witness :
  exists df_year df_yoy,
    yearly_trend_section scenario = Some (df_year, df_yoy)
    /\ forall row, row ∈ df_year -> (0 ≤ yr_total_amount row)%Qc.
Proof.
  destruct (yoy_with_nonnegative_prices scenario eq_refl)
    as (df_year & df_yoy & Hrun & Hrev & _).
  { intros o Ho. unfold scenario in Ho. simpl in Ho.
    repeat (apply elem_of_cons in Ho as [->|Ho]; [by vm_compute|]).
    by apply elem_of_nil in Ho. }
  exists df_year, df_yoy. split; [exact Hrun|exact Hrev].
Defined.

(** ** Bounds of the summary statistics *)









(** ** The sample of a small table *)

Lemma take_positions_cons {A} (l : list A) (i : nat) (idx : list nat) :
  take_positions l (i :: idx) =
  match l !! i with
  | Some x => rs <-! take_positions l idx; Ok (x :: rs)
  | None => Raise IndexError
  end.
Proof. reflexivity. Qed.

Lemma take_positions_Permutation {A} (l : list A) (idx idx' : list nat) :
  idx ≡ₚ idx' ->
  forall rs, take_positions l idx = Ok rs ->
  exists rs', take_positions l idx' = Ok rs' /\ rs ≡ₚ rs'.
Proof.
  induction 1 as [|i idx idx' _ IH|i j idx|idx1 idx2 idx3 _ IH12 _ IH23];
    intros rs Hrs.
  - by exists rs.
  - rewrite take_positions_cons in *. destruct (l !! i) as [x|]; [|done].
    destruct (take_positions l idx) as [rs0|] eqn:H0; [|done].
    simpl in Hrs. injection Hrs as <-.
    destruct (IH rs0 eq_refl) as (rs' & -> & Hperm).
    exists (x :: rs'). split; [done|]. by constructor.
  - rewrite !take_positions_cons in *.
    destruct (l !! j) as [y|]; [|done]. simpl in Hrs.
    destruct (l !! i) as [x|]; [|done].
    destruct (take_positions l idx) as [rs0|]; [|done].
    simpl in *. injection Hrs as <-.
    exists (x :: y :: rs0). split; [done|]. apply perm_swap.
  - destruct (IH12 rs Hrs) as (rs2 & H2 & Hp12).
    destruct (IH23 rs2 H2) as (rs3 & H3 & Hp23).
    exists rs3. split; [done|]. by etransitivity.
Qed.

Lemma take_positions_seq {A} (pre l : list A) :
  take_positions (pre ++ l) (seq (length pre) (length l)) = Ok l.
Proof.
  revert pre. induction l as [|x l IH]; intros pre; [done|].
  simpl length. simpl seq. rewrite take_positions_cons.
  rewrite lookup_app_r by lia. rewrite Nat.sub_diag. simpl.
  replace (pre ++ x :: l) with ((pre ++ [x]) ++ l) by (by rewrite <- app_assoc).
  replace (S (length pre)) with (length (pre ++ [x]))
    by (rewrite length_app; simpl; lia).
  by rewrite IH.
Qed.

Lemma take_positions_all {A} (l : list A) (idx : list nat) :
  NoDup idx -> length idx = length l ->
  Forall (fun i => (i < length l)%nat) idx ->
  exists rs, take_positions l idx = Ok rs /\ rs ≡ₚ l.
Proof.
  intros Hnd Hlen Hrange.
  assert (Hperm : seq 0 (length l) ≡ₚ idx).
  { symmetry. apply submseteq_length_Permutation.
    - apply NoDup_submseteq; [done|]. intros i Hi. apply elem_of_seq.
      rewrite Forall_forall in Hrange. specialize (Hrange i Hi). lia.
    - rewrite length_seq. lia. }
  destruct (take_positions_Permutation l _ _ Hperm l) as (rs & Hrs & Hp).
  { apply (take_positions_seq [] l). }
  exists rs. split; [done|]. by symmetry.
Qed.

Section small_table_sample.
Variable rng_state : Type.
Variable RandomState : Z -> rng_state.
Variable choice : rng_state -> nat -> nat -> list nat * rng_state.

(** What is assumed of numpy's draw without replacement: as many
    positions as asked for, inside the population and all different. *)
Hypothesis choice_distinct :
  forall g n size,
    (size <= n)%nat ->
    length (choice g n size).1 = size
    /\ Forall (fun i => (i < n)%nat) (choice g n size).1
    /\ NoDup (choice g n size).1.

(** X20: Of a table with at most 1000 rows the sample is the whole table in
    another order: the same rows, each as often as in the table, and the
    same columns. *)
Theorem sample_of_small_table (df : DataFrame) (g : rng_state) :
  df_empty df = false ->
  (len df <= 1000)%nat ->
  exists sample,
    (sample_table_section rng_state RandomState choice df g).1
    = Ok (Some sample)
    /\ records sample ≡ₚ records df
    /\ len sample = len df
    /\ columns sample = columns df.
Proof.
  intros E Hlen. unfold sample_table_section, DataFrame_sample. rewrite E.
  cbn [fst snd]. rewrite Nat.min_r by done.
  destruct (choice_distinct (RandomState 42) (len df) (len df))
    as (Hsize & Hrange & Hnd); [done|].
  set (idx := (choice (RandomState 42) (len df) (len df)).1) in *.
  unfold len in *. destruct df as [rows|rows]; simpl in *.
  - destruct (take_positions_all rows idx Hnd Hsize Hrange) as (rs & -> & Hp).
    exists (Orders rs). simpl. split; [done|]. split; [done|].
    split; [by rewrite Hp|done].
  - rewrite length_fmap in *.
    destruct (take_positions_all rows idx Hnd Hsize Hrange) as (rs & -> & Hp).
    exists (EnrichedOrders rs). simpl. split; [done|].
    split; [by apply fmap_Permutation|].
    split; [rewrite !length_fmap; by apply Permutation_length|done].
Qed.
End small_table_sample.

Lemma sample_of_small_table_witness :
  exists sample,
    (sample_table_section unit (fun _ => tt) leading_choice scenario tt).1
    = Ok (Some sample)
    /\ records sample ≡ₚ records scenario.
Proof.
  destruct (sample_of_small_table unit (fun _ => tt) leading_choice)
    with (df := scenario) (g := tt) as (sample & Hrun & Hperm & _).
  - intros g n size Hsize. unfold leading_choice. simpl.
    split; [apply length_seq|].
    split; [|apply NoDup_seq].
    apply Forall_seq. intros j Hj. lia.
  - reflexivity.
  - vm_compute. lia.
  - exists sample. split; [exact Hrun|exact Hperm].
Defined.
